(** * pyfc4: a client for Fedora Commons 4 (LDP) repositories

    A shallow embedding of [pyfc4/models.py]: the resource type resolver, the
    resource lifecycle (create / check_exists / refresh / delete / update), the
    graph diff and the SPARQL update builder, and transactions.

    Conventions.
    - Python objects that are mutated in place ([self.exists], [self.headers],
      [self.rdf], ...) are fields of a record that is threaded through a
      state-and-exception monad; what a method had already written when it
      raises stays written, as in Python.
    - The HTTP transport ([requests]) and the repository behind it are a
      transition function [send] on an arbitrary server state; every request
      that [API.http_request] issues is appended to a log.
    - [rdflib] is a library the source imports: graphs are finite sets of
      triples, and the parts of rdflib whose internals are irrelevant here
      (parsers, serializers, the colour hash of blank nodes, the namespace
      splitter) are parameters. *)

From stdpp Require Import base option list strings gmap pretty.
From Stdlib Require Import ZArith String Ascii.

Local Open Scope string_scope.
Local Open Scope Z_scope.

(** ** Python string methods used by the source *)

Module PyStr.

(** [s.startswith(p)] *)
Definition startswith (p s : string) : bool := String.prefix p s.

(** [sub in s] *)
Fixpoint contains (sub s : string) : bool :=
  startswith sub s ||
  match s with
  | EmptyString => false
  | String _ s' => contains sub s'
  end.

(** [s.endswith(p)] *)
Definition endswith (p s : string) : bool :=
  startswith (String.rev p) (String.rev s).

(** The worker of [split]: [skip] counts the characters of a separator
    that was just matched and is still to be stepped over; [cur] is the
    piece being collected. *)
Fixpoint split_go (sep : string) (skip : nat) (cur s : string) {struct s}
  : list string :=
  match s with
  | EmptyString => [cur]
  | String c s' =>
      match skip with
      | S k => split_go sep k cur s'
      | O =>
          if startswith sep s
          then cur :: split_go sep (Nat.pred (String.length sep)) "" s'
          else split_go sep O (cur ++ String c "") s'
      end
  end.

(** [s.split(sep)] for a non-empty separator. *)
Definition split (sep s : string) : list string := split_go sep O "" s.

Fixpoint lstrip_chars (chars s : string) : string :=
  match s with
  | EmptyString => EmptyString
  | String c s' =>
      if contains (String c "") chars then lstrip_chars chars s' else s
  end.

(** [s.rstrip(chars)]: drops every trailing character that occurs in
    [chars] (a set of characters, not a suffix). *)
Definition rstrip (chars s : string) : string :=
  String.rev (lstrip_chars chars (String.rev s)).

End PyStr.

(** ** RDF terms, triples and graphs (rdflib) *)

Inductive Term :=
| URIRef (iri : string)
| BNode (label : string)
| Literal (lexical : string) (datatype : option string).

#[global] Instance Term_eq_dec : EqDecision Term.
Proof. solve_decision. Defined.

#[global] Instance Term_countable : Countable Term.
Proof.
  refine (inj_countable'
    (fun t => match t with
              | URIRef i => inl i
              | BNode b => inr (inl b)
              | Literal l d => inr (inr (l, d))
              end)
    (fun e => match e with
              | inl i => URIRef i
              | inr (inl b) => BNode b
              | inr (inr (l, d)) => Literal l d
              end) _).
  by intros [].
Defined.

Definition Triple : Type := Term * Term * Term.

(** An rdflib [Graph], as far as its triples go: a finite set. *)
Abbreviation Graph := (gset Triple).

Definition is_bnode (t : Term) : bool :=
  match t with BNode _ => true | _ => false end.

Definition triple_ground (t : Triple) : bool :=
  let '(s, p, o) := t in
  negb (is_bnode s) && negb (is_bnode p) && negb (is_bnode o).

(** A graph without blank nodes. *)
Definition ground (g : Graph) : Prop := ∀ t, t ∈ g → triple_ground t = true.

(** ** rdflib.compare: canonical graphs and [graph_diff] *)

Section Compare.

(** rdflib's [_TripleCanonicalizer] gives every blank node of a graph a
    label computed by hashing its colour in that graph; the hash itself is
    left open. *)
Variable bnode_labels : Graph → string → string.

(** [_TripleCanonicalizer._canonicalize_bnodes] on one term:
    [BNode(value="cb%s" % labels[term])] for a blank node, the term itself
    otherwise. *)
Definition canonicalize_term (g : Graph) (t : Term) : Term :=
  match t with
  | BNode b => BNode ("cb" ++ bnode_labels g b)
  | _ => t
  end.

Definition canonicalize_bnodes (g : Graph) (t : Triple) : Triple :=
  let '(s, p, o) := t in
  (canonicalize_term g s, canonicalize_term g p, canonicalize_term g o).

(** [to_canonical_graph(g)]: a new graph holding the canonical triples. *)
Definition to_canonical_graph (g : Graph) : Graph :=
  set_map (canonicalize_bnodes g) g.

(** [to_isomorphic(g)] copies the triples into an [IsomorphicGraph]. *)
Definition to_isomorphic (g : Graph) : Graph := g.

(** [graph_diff(g1, g2)]: "in both", "in first", "in second", computed on
    the canonical graphs ([cg1 * cg2], [cg1 - cg2], [cg2 - cg1]). *)
Definition graph_diff (g1 g2 : Graph) : Graph * Graph * Graph :=
  let cg1 := to_canonical_graph g1 in
  let cg2 := to_canonical_graph g2 in
  (cg1 ∩ cg2, cg1 ∖ cg2, cg2 ∖ cg1).

End Compare.

(** [self.rdf.diffs] *)
Record Diffs := mkDiffs {
  overlap : Graph;
  removed : Graph;
  added : Graph
}.

(** [Resource._diff_graph], on the two graphs it reads:
    [graph_diff(to_isomorphic(self.rdf._orig_graph), to_isomorphic(self.rdf.graph))]. *)
Definition diff_of_graphs (bnode_labels : Graph → string → string)
    (orig_graph graph : Graph) : Diffs :=
  let '(overlap, removed, added) :=
    graph_diff bnode_labels (to_isomorphic orig_graph) (to_isomorphic graph) in
  {| overlap := overlap; removed := removed; added := added |}.

(** ** Exceptions and the state-and-exception monad *)

(** The Python exceptions the modelled code can raise. [Exception] carries
    the message the source formats; [KeyError], [TypeError] and
    [AttributeError] are raised by the interpreter (a missing dictionary key,
    calling [False], an attribute of [None]); [CodecError] stands for
    whatever an rdflib parser or serializer raises; [BuiltinAttribute] for
    the [AttributeError] or [TypeError] that setting, reading or appending
    to a built-in attribute of a [SimpleNamespace] raises (which of the two,
    and the message, depend on the attribute); [RecursionError] is Python's
    bound on nested calls. *)
Inductive Exn :=
| Exception (msg : string)
| KeyError (key : string)
| TypeError (msg : string)
| AttributeError (msg : string)
| CodecError
| BuiltinAttribute (name : string)
| RecursionError.

Inductive Result (A : Type) :=
| Ok (a : A)
| Raise (e : Exn).
Arguments Ok {A} a.
Arguments Raise {A} e.

Definition is_ok {A} (r : Result A) : bool :=
  match r with Ok _ => true | Raise _ => false end.

(** ** HTTP messages *)

Inductive Verb := HEAD | GET | PUT | POST | PATCH | DELETE | MOVE | COPY | OPTIONS.

#[global] Instance Verb_eq_dec : EqDecision Verb.
Proof. solve_decision. Defined.

(** [requests.models.Response]: [text] is the decoded [content]. *)
Record Response := mkResponse {
  resp_status : Z;
  resp_headers : gmap string string;
  content : string
}.

Definition text (r : Response) : string := content r.

(** What a request body can be: bytes (or a [str]), an open file, or the
    streamed response a retrieved binary keeps in [self.binary.data]. *)
Inductive Payload :=
| Bytes (s : string)
| FileLike (s : string)
| ResponseStream (r : Response).

(** A request as [API.http_request] hands it to [requests]. *)
Record Request := mkRequest {
  verb : Verb;
  req_uri : string;
  req_data : option Payload;
  req_headers : option (gmap string string);
  req_stream : bool
}.

(** The request [http_request] sends for a call that passes only a verb
    and a URI (no data, no headers, not a [GET]). *)
Definition plain_request (v : Verb) (u : string) : Request :=
  {| verb := v; req_uri := u; req_data := None; req_headers := None;
     req_stream := false |}.

Section Transport.

(** The repository behind the transport: any state, any transition. *)
Context {Server : Type}.
Variable send : Server → Request → Response * Server.

(** What the client can observe of the outside: the server and the
    requests issued so far, oldest first. *)
Record World := mkWorld {
  server : Server;
  log : list Request
}.

(** A method of an object of type [O]: it reads and writes [self] and the
    world, and returns or raises. *)
Definition M (O A : Type) : Type := O → World → Result A * O * World.

#[global] Instance M_ret {O} : MRet (M O) := λ A a o w, (Ok a, o, w).

#[global] Instance M_bind {O} : MBind (M O) := λ A B f m o w,
  match m o w with
  | (Ok a, o', w') => f a o' w'
  | (Raise e, o', w') => (Raise e, o', w')
  end.

Definition raise {O A} (e : Exn) : M O A := λ o w, (Raise e, o, w).
Definition get_self {O} : M O O := λ o w, (Ok o, o, w).
Definition modify_self {O} (f : O → O) : M O unit := λ o w, (Ok tt, f o, w).

(** Looks a key up in a dictionary: [d[k]]. *)
Definition getitem {O} (d : gmap string string) (k : string) : M O string :=
  match d !! k with
  | Some v => mret v
  | None => raise (KeyError k)
  end.

(** Runs a method of another object [o'] (a freshly constructed one) in
    the current world; the caller's [self] is untouched. *)
Definition on_object {O O' A} (o' : O') (m : M O' A) : M O (A * O') :=
  λ o w,
    match m o' w with
    | (Ok a, o'', w') => (Ok (a, o''), o, w')
    | (Raise e, _, w') => (Raise e, o, w')
    end.

(** *** Repository *)

Record Repository := mkRepository {
  root : string;
  context : gmap string string;
  default_serialization : string
}.

(** [Repository.context] is a class attribute: one dictionary that all
    repositories and transactions of a process share. This is what it holds
    before any repository is constructed. *)
Definition default_context : gmap string string :=
  list_to_map
    [ ("premis", "http://www.loc.gov/premis/rdf/v1#");
      ("test", "info:fedora/test/");
      ("rdfs", "http://www.w3.org/2000/01/rdf-schema#");
      ("dbpedia", "http://dbpedia.org/ontology/");
      ("xsi", "http://www.w3.org/2001/XMLSchema-instance");
      ("xmlns", "http://www.w3.org/2000/xmlns/");
      ("rdf", "http://www.w3.org/1999/02/22-rdf-syntax-ns#");
      ("fedora", "http://fedora.info/definitions/v4/repository#");
      ("xml", "http://www.w3.org/XML/1998/namespace");
      ("ebucore", "http://www.ebu.ch/metadata/ontologies/ebucore/ebucore#");
      ("ldp", "http://www.w3.org/ns/ldp#");
      ("xs", "http://www.w3.org/2001/XMLSchema");
      ("fedoraconfig", "http://fedora.info/definitions/v4/config#");
      ("foaf", "http://xmlns.com/foaf/0.1/");
      ("dc", "http://purl.org/dc/elements/1.1/") ].

(** [Repository.__init__]. It ensures the trailing slash of [root], and
    [self.context.update(context)] merges a context that is given into the
    shared class-level dictionary, the given entries winning.
    [class_context] is that dictionary as it stands when the constructor
    runs ([default_context] for the first repository of a process); the
    [context] of the result is the dictionary after the merge. No method
    changes it afterwards; a repository constructed later with a context of
    its own merges into the same dictionary, and is then constructed here
    from the [context] of this one. *)
Definition Repository_init (class_context : gmap string string)
    (root : string) (context : gmap string string)
    (default_serialization : string) : Repository :=
  {| root := if PyStr.endswith "/" root then root else root ++ "/";
     context := context ∪ class_context;
     default_serialization := default_serialization |}.

(** The inputs [parse_uri] accepts: nothing, a [str], an
    [rdflib.term.URIRef]. *)
Inductive PyUri :=
| NoUri
| StrUri (s : string)
| RefUri (s : string).

(** [Repository.parse_uri]; the result is the string of the [URIRef]. *)
Definition parse_uri (repo : Repository) (uri : PyUri) : string :=
  match uri with
  | NoUri => root repo
  | StrUri s =>
      if decide (s = "") then root repo
      else if negb (PyStr.startswith "http" s) then root repo ++ s
      else s
  | RefUri s => if decide (s = "") then root repo else s
  end.

(** *** API *)

(** [API.http_request]: for a [GET] of RDF the [Accept] header is set from
    [response_format] (the repository default when none is given); the
    request is sent and logged. *)
Definition http_request {O} (repo : Repository) (verb : Verb) (uri : string)
    (data : option Payload) (headers : option (gmap string string))
    (response_format : option string) (is_rdf stream : bool) : M O Response :=
  λ o w,
    let headers :=
      if is_rdf && bool_decide (verb = GET) then
        let response_format :=
          match response_format with
          | Some f => if decide (f = "") then default_serialization repo else f
          | None => default_serialization repo
          end in
        match headers with
        | Some h =>
            if bool_decide (h ≠ ∅) && bool_decide (h !! "Accept" = None)
            then Some (<["Accept" := response_format]> h)
            else Some {["Accept" := response_format]}
        | None => Some {["Accept" := response_format]}
        end
      else headers in
    let request :=
      {| verb := verb; req_uri := uri; req_data := data;
         req_headers := headers; req_stream := stream |} in
    let '(response, server') := send (server w) request in
    (Ok response, o, {| server := server'; log := log w ++ [request] |}).

(** The four LDP resource classes. *)
Inductive ResourceType :=
| NonRDFSource
| BasicContainer
| DirectContainer
| IndirectContainer.

#[global] Instance ResourceType_eq_dec : EqDecision ResourceType.
Proof. solve_decision. Defined.

Definition ldp_NonRDFSource := "<http://www.w3.org/ns/ldp#NonRDFSource>".
Definition ldp_BasicContainer := "<http://www.w3.org/ns/ldp#BasicContainer>".
Definition ldp_DirectContainer := "<http://www.w3.org/ns/ldp#DirectContainer>".
Definition ldp_IndirectContainer := "<http://www.w3.org/ns/ldp#IndirectContainer>".

(** The list comprehension of [parse_resource_type]:
    [[link.split(";")[0] for link in header.split(', ')
      if link.startswith('<http://www.w3.org/ns/ldp#')]]. *)
Definition parse_links (link_header : string) : list string :=
  (λ link, default "" (head (PyStr.split ";" link))) <$>
    filter (λ link, PyStr.startswith "<http://www.w3.org/ns/ldp#" link = true)
           (PyStr.split ", " link_header).

(** [x in links] *)
Definition py_in (x : string) (links : list string) : bool :=
  bool_decide (x ∈ links).

(** The selection of [parse_resource_type] once the links are parsed;
    [None] is the [False] the source returns. *)
Definition select_resource_type (links : list string) : option ResourceType :=
  if py_in ldp_NonRDFSource links then Some NonRDFSource
  else if py_in ldp_BasicContainer links then Some BasicContainer
  else if py_in ldp_DirectContainer links then Some DirectContainer
  else if py_in ldp_IndirectContainer links then Some IndirectContainer
  else None.

(** [API.parse_resource_type]: [response.headers['Link']] raises
    [KeyError] when the response has no [Link] header. *)
Definition parse_resource_type {O} (response : Response)
    : M O (option ResourceType) :=
  link_header ← getitem (resp_headers response) "Link";
  mret (select_resource_type (parse_links link_header)).

(** *** rdflib: parsing, serializing, namespaces *)

(** A parsed graph: its triples and the namespace bindings the payload
    declared. *)
Record ParsedGraph := mkParsedGraph {
  pg_triples : Graph;
  pg_namespaces : list (string * string)
}.

(** [rdflib.Graph()] *)
Definition new_graph : ParsedGraph :=
  {| pg_triples := ∅; pg_namespaces := [] |}.

(** [Graph().parse(data=..., format=...)]; [None] when the parser raises. *)
Variable rdf_parse : string → string → option ParsedGraph.
(** [graph.serialize(format=...)]; [None] when the serializer raises. *)
Variable rdf_serialize : string → Graph → option string.
(** [graph.namespaces()] once a [NamespaceManager] has bound the given
    prefixes to the graph with [override=False]. *)
Variable namespaces_after_bind :
  gmap string string → ParsedGraph → list (string * string).
(** [graph.compute_qname(p)]: prefix, namespace URI and local name of a
    predicate; [None] when rdflib cannot split the URI and raises. *)
Variable compute_qname : Term → option (string * string * string).
(** The colour hash of [rdflib.compare]. *)
Variable bnode_labels : Graph → string → string.

(** [API.parse_rdf_payload] *)
Definition parse_rdf_payload {O} (data : option string)
    (headers : gmap string string) : M O ParsedGraph :=
  content_type ← getitem headers "Content-Type";
  let parse_format :=
    if PyStr.startswith "text/plain" content_type
    then "application/n-triples" else content_type in
  let parse_format :=
    if PyStr.contains ";charset" parse_format
    then default "" (head (PyStr.split ";" parse_format))
    else parse_format in
  match data with
  | None => raise (AttributeError "'NoneType' object has no attribute 'decode'")
  | Some d =>
      match rdf_parse parse_format d with
      | Some g => mret g
      | None => raise CodecError
      end
  end.

(** *** Resource state *)

(** [self.rdf] *)
Record Rdf := mkRdf {
  data : option string;
  prefixes : gmap string string;
  graph : Graph;
  _orig_graph : Graph;
  diffs : option Diffs
}.

(** [self.binary] of a [NonRDFSource] *)
Record Binary := mkBinary {
  delivery : option string;
  bdata : option Payload;
  bstream : bool;
  mimetype : option string;
  location : option string
}.

(** A [Resource] object. [rtype] is [type(self)]. [rdf] is [None] when the
    attribute holds Python's [None]; [binary] is [None] on classes that
    have no such attribute. *)
Record Resource := mkResource {
  rtype : ResourceType;
  repo : Repository;
  uri : string;
  headers : gmap string string;
  status_code : option Z;
  exists_ : bool;
  rdf : option Rdf;
  binary : option Binary;
  versions : list string
}.

Definition set_uri (v : string) (r : Resource) : Resource :=
  mkResource (rtype r) (repo r) v (headers r) (status_code r) (exists_ r)
             (rdf r) (binary r) (versions r).
Definition set_headers (v : gmap string string) (r : Resource) : Resource :=
  mkResource (rtype r) (repo r) (uri r) v (status_code r) (exists_ r)
             (rdf r) (binary r) (versions r).
Definition set_status_code (v : option Z) (r : Resource) : Resource :=
  mkResource (rtype r) (repo r) (uri r) (headers r) v (exists_ r)
             (rdf r) (binary r) (versions r).
Definition set_exists (v : bool) (r : Resource) : Resource :=
  mkResource (rtype r) (repo r) (uri r) (headers r) (status_code r) v
             (rdf r) (binary r) (versions r).
Definition set_rdf (v : option Rdf) (r : Resource) : Resource :=
  mkResource (rtype r) (repo r) (uri r) (headers r) (status_code r) (exists_ r)
             v (binary r) (versions r).
Definition set_binary (v : option Binary) (r : Resource) : Resource :=
  mkResource (rtype r) (repo r) (uri r) (headers r) (status_code r) (exists_ r)
             (rdf r) v (versions r).
Definition set_versions (v : list string) (r : Resource) : Resource :=
  mkResource (rtype r) (repo r) (uri r) (headers r) (status_code r) (exists_ r)
             (rdf r) (binary r) v.

(** The object before [__init__] has run. *)
Definition blank_resource (t : ResourceType) (rp : Repository) : Resource :=
  mkResource t rp "" ∅ None false None None [].

(** [self.rdf], or the [AttributeError] of reading an attribute of [None]. *)
Definition the_rdf (attr : string) : M Resource Rdf :=
  self ← get_self;
  match rdf self with
  | Some rd => mret rd
  | None =>
      raise (AttributeError ("'NoneType' object has no attribute '" ++ attr ++ "'"))
  end.

(** [self.binary] *)
Definition the_binary : M Resource Binary :=
  self ← get_self;
  match binary self with
  | Some b => mret b
  | None => raise (AttributeError "object has no attribute 'binary'")
  end.

(** The attributes every [SimpleNamespace] has before anything is set on
    it, as CPython 3.11 lists them ([dir(SimpleNamespace())]; the list grows
    with the interpreter: [__init_subclass__] since 3.6, [__getstate__]
    since 3.11). For these names [hasattr] is true on a new namespace. *)
Definition namespace_attributes : list string :=
  [ "__class__"; "__delattr__"; "__dict__"; "__dir__"; "__doc__"; "__eq__";
    "__format__"; "__ge__"; "__getattribute__"; "__getstate__"; "__gt__";
    "__hash__"; "__init__"; "__init_subclass__"; "__le__"; "__lt__";
    "__ne__"; "__new__"; "__reduce__"; "__reduce_ex__"; "__repr__";
    "__setattr__"; "__sizeof__"; "__str__"; "__subclasshook__" ].

(** The body of the loop of [parse_object_like_triples] for one triple:
    [None] when it runs through, the exception otherwise.
    - [compute_qname(p)] raises when rdflib cannot split the predicate.
    - When the prefix is an attribute every namespace has,
      [hasattr(self.rdf.triples, ns_prefix)] is true, no namespace is set,
      and the next statements work on that built-in attribute (a method, a
      [dict], a [str], the class) instead: it takes no new attribute, and
      none of its own attributes has an [append] that can be called.
    - When the local name is such an attribute,
      [hasattr(namespace, predicate)] is true, no list is set, and
      [.append(o)] is looked up on the built-in attribute, which has no
      [append]. *)
Definition object_like_error (t : Triple) : option Exn :=
  match compute_qname (t.1.2) with
  | None => Some (Exception "Can't split predicate")
  | Some (ns_prefix, _, predicate) =>
      if bool_decide (ns_prefix ∈ namespace_attributes)
      then Some (BuiltinAttribute ns_prefix)
      else if bool_decide (predicate ∈ namespace_attributes)
      then Some (BuiltinAttribute predicate)
      else None
  end.

(** [Resource.parse_object_like_triples]: the object-like view
    [self.rdf.triples] is not kept, only the ways the method can fail. The
    graph is iterated in an order rdflib does not fix; the order of
    [elements] stands for it, and the first triple the loop fails on gives
    the exception. *)
Definition parse_object_like_triples : M Resource unit :=
  rd ← the_rdf "graph";
  match head (omap object_like_error (elements (graph rd))) with
  | Some e => raise e
  | None => mret tt
  end.

(** [Resource._parse_graph] *)
Definition _parse_graph : M Resource unit :=
  self ← get_self;
  rd ← the_rdf "data";
  g ← (if exists_ self then parse_rdf_payload (data rd) (headers self)
       else mret new_graph);
  let prefixes' :=
    foldl (λ acc kv, <[kv.1 := kv.2]> acc) (prefixes rd)
          (namespaces_after_bind (prefixes rd) g) in
  modify_self (set_rdf (Some
    {| data := data rd; prefixes := prefixes';
       graph := pg_triples g; _orig_graph := pg_triples g;
       diffs := diffs rd |}));;
  parse_object_like_triples.

(** [Resource._build_rdf]; it returns [None]. *)
Definition _build_rdf (payload : option string) : M Resource unit :=
  self ← get_self;
  modify_self (set_rdf (Some
    {| data := payload; prefixes := context (repo self);
       graph := ∅; _orig_graph := ∅; diffs := None |}));;
  _parse_graph.

(** The [self.rdf] that [_build_rdf] leaves on a resource that does not
    exist: empty graphs, the prefixes of the repository context joined by
    what rdflib reports as bound. *)
Definition fresh_rdf (payload : option string) (self : Resource) : Rdf :=
  {| data := payload;
     prefixes := foldl (λ acc kv, <[kv.1 := kv.2]> acc) (context (repo self))
                       (namespaces_after_bind (context (repo self)) new_graph);
     graph := ∅; _orig_graph := ∅; diffs := None |}.

(** [Resource.__init__] *)
Definition Resource_init (u : PyUri) (payload : option string)
    (hdrs : gmap string string) (status : option Z) : M Resource unit :=
  self ← get_self;
  modify_self (set_uri (parse_uri (repo self) u));;
  modify_self (set_headers hdrs);;
  modify_self (set_status_code status);;
  modify_self (set_exists (bool_decide (status = Some 200)));;
  _build_rdf payload;;
  modify_self (set_versions []).

(** *** Triples of the working graph *)

(** The values [add_triple] and its siblings accept as object. *)
Inductive PyObj :=
| PyStrObj (s : string)
| PyIntObj (n : Z)
| PyFloatObj (lexical : string)
| PyDatetimeObj (lexical : string)
| PyTermObj (t : Term).

Definition XSD (name : string) : option string :=
  Some ("http://www.w3.org/2001/XMLSchema#" ++ name).

(** [Resource._handle_object] *)
Definition _handle_object (object_input : PyObj) : Term :=
  match object_input with
  | PyStrObj s => Literal s (XSD "string")
  | PyIntObj n => Literal (pretty n) (XSD "int")
  | PyFloatObj l => Literal l (XSD "float")
  | PyDatetimeObj l => Literal l (XSD "date")
  | PyTermObj t => t
  end.

Definition set_graph (g : Graph) (rd : Rdf) : Rdf :=
  {| data := data rd; prefixes := prefixes rd; graph := g;
     _orig_graph := _orig_graph rd; diffs := diffs rd |}.

(** [Resource.add_triple] *)
Definition add_triple (p : Term) (o : PyObj) (refresh_quick_triples : bool)
    : M Resource unit :=
  self ← get_self;
  rd ← the_rdf "graph";
  modify_self (set_rdf (Some
    (set_graph (graph rd ∪ {[ (URIRef (uri self), p, _handle_object o) ]}) rd)));;
  if refresh_quick_triples then parse_object_like_triples else mret tt.

(** [Resource.remove_triple] *)
Definition remove_triple (p : Term) (o : PyObj) (refresh_quick_triples : bool)
    : M Resource unit :=
  self ← get_self;
  rd ← the_rdf "graph";
  modify_self (set_rdf (Some
    (set_graph (graph rd ∖ {[ (URIRef (uri self), p, _handle_object o) ]}) rd)));;
  if refresh_quick_triples then parse_object_like_triples else mret tt.


(** [Resource._diff_graph] *)
Definition _diff_graph : M Resource unit :=
  rd ← the_rdf "_orig_graph";
  modify_self (set_rdf (Some
    {| data := data rd; prefixes := prefixes rd; graph := graph rd;
       _orig_graph := _orig_graph rd;
       diffs := Some (diff_of_graphs bnode_labels (_orig_graph rd) (graph rd)) |})).

(** *** NonRDFSource: binary attributes *)

(** [NonRDFSource._build_binary] *)
Definition _build_binary : M Resource unit :=
  modify_self (set_binary (Some
    {| delivery := None; bdata := None; bstream := false;
       mimetype := None; location := None |})).

(** Truth value of an optional string ([None] and [''] are false). *)
Definition truthy_str (s : option string) : bool :=
  match s with
  | Some s => negb (bool_decide (s = ""))
  | None => false
  end.

(** Truth value of [self.binary.data]; a [requests] response is true
    when its status is not an error (not in 400..599). *)
Definition truthy_payload (p : option Payload) : bool :=
  match p with
  | None => false
  | Some (Bytes s) => negb (bool_decide (s = ""))
  | Some (FileLike _) => true
  | Some (ResponseStream r) =>
      negb (bool_decide (400 ≤ resp_status r < 600))
  end.

(** [graph.value(s, p)]: an object of some triple with this subject and
    predicate, [None] when there is none. *)
Definition graph_value (g : Graph) (s p : Term) : option Term :=
  (λ t : Triple, t.2) <$>
    head (elements (filter (λ t : Triple, t.1.1 = s ∧ t.1.2 = p) g)).

Definition toPython (t : Term) : string :=
  match t with
  | URIRef i => i
  | BNode b => b
  | Literal l _ => l
  end.

(** [getattr(self.rdf.prefixes, prefix)] followed by an attribute access
    on the [Namespace]: the URI of the namespace with [name] appended. *)
Definition prefix_term (prefix name : string) : M Resource Term :=
  rd ← the_rdf "prefixes";
  match prefixes rd !! prefix with
  | Some ns => mret (URIRef (ns ++ name))
  | None =>
      raise (AttributeError ("'types.SimpleNamespace' object has no attribute '"
                             ++ prefix ++ "'"))
  end.

(** [NonRDFSource.parse_binary] *)
Definition parse_binary : M Resource unit :=
  self ← get_self;
  rd ← the_rdf "graph";
  hasMimeType ← prefix_term "ebucore" "hasMimeType";
  match graph_value (graph rd) (URIRef (uri self)) hasMimeType with
  | None => raise (AttributeError "'NoneType' object has no attribute 'toPython'")
  | Some v =>
      b ← the_binary;
      modify_self (set_binary (Some
        {| delivery := delivery b; bdata := bdata b; bstream := bstream b;
           mimetype := Some (toPython v); location := location b |}));;
      response ← http_request (repo self) GET (uri self) None
                   (Some {["Content-Type" := toPython v]}) None false true;
      b ← the_binary;
      modify_self (set_binary (Some
        {| delivery := delivery b; bdata := Some (ResponseStream response);
           bstream := bstream b; mimetype := mimetype b;
           location := location b |}))
  end.

(** [NonRDFSource._prep_binary_mimetype] *)
Definition _prep_binary_mimetype : M Resource unit :=
  self ← get_self;
  b ← the_binary;
  if negb (truthy_str (mimetype b))
     && bool_decide (headers self !! "Content-Type" = None)
  then raise (Exception
    "to create/update NonRDFSource, mimetype or Content-Type header is required")
  else if truthy_str (mimetype b)
          && bool_decide (headers self !! "Content-Type" = None)
  then modify_self (set_headers
         (<["Content-Type" := default "" (mimetype b)]> (headers self)))
  else mret tt.

Definition set_delivery (d : string) : M Resource unit :=
  b ← the_binary;
  modify_self (set_binary (Some
    {| delivery := Some d; bdata := bdata b; bstream := bstream b;
       mimetype := mimetype b; location := location b |})).

(** [NonRDFSource._prep_binary_content] *)
Definition _prep_binary_content : M Resource unit :=
  self ← get_self;
  b ← the_binary;
  let has_location_header :=
    bool_decide (is_Some (headers self !! "Content-Location")) in
  if negb (truthy_payload (bdata b)) && negb (truthy_str (location b))
     && negb has_location_header
  then raise (Exception
    "creating/updating NonRDFSource requires content from self.binary.data, self.binary.location, or the Content-Location header")
  else if has_location_header then set_delivery "header"
  else if truthy_str (location b) then
    modify_self (set_headers
      (<["Content-Location" := default "" (location b)]> (headers self)));;
    set_delivery "header"
  else if truthy_payload (bdata b) then set_delivery "payload"
  else mret tt.

(** [NonRDFSource._prep_binary_data] *)
Definition _prep_binary_data : M Resource unit :=
  _prep_binary_mimetype;;
  _prep_binary_content.

(** *** Constructors of the four classes *)

(** Truth value of an argument, as [if membershipResource:] takes it.
    [None], the empty string and zero are false; a [float] is given by its
    [repr], and zero is [0.0] or [-0.0]. A [URIRef] and a [BNode] are
    strings. An rdflib [Literal] decides by [Literal.__bool__], the truth
    value of the Python value its datatype gives it: that is rdflib's, and
    comes in as [literal_bool] (lexical form and datatype to truth
    value). *)
Definition truthy_obj (literal_bool : string → option string → bool)
    (o : option PyObj) : bool :=
  match o with
  | None => false
  | Some (PyStrObj s) => negb (bool_decide (s = ""))
  | Some (PyIntObj n) => negb (bool_decide (n = 0))
  | Some (PyFloatObj l) => negb (bool_decide (l ∈ ["0.0"; "-0.0"]))
  | Some (PyDatetimeObj _) => true
  | Some (PyTermObj (URIRef i)) => negb (bool_decide (i = ""))
  | Some (PyTermObj (BNode b)) => negb (bool_decide (b = ""))
  | Some (PyTermObj (Literal l d)) => literal_bool l d
  end.

(** [self.add_triple(self.rdf.prefixes.ldp.<name>, value)] when [value]
    is given. *)
Definition add_ldp_triple_if (literal_bool : string → option string → bool)
    (name : string) (value : option PyObj) : M Resource unit :=
  if truthy_obj literal_bool value then
    p ← prefix_term "ldp" name;
    add_triple p (default (PyStrObj "") value) true
  else mret tt.

(** [NonRDFSource.__init__] *)
Definition NonRDFSource_init (u : PyUri) (payload : option string)
    (hdrs : gmap string string) (status : option Z) : M Resource unit :=
  Resource_init u payload hdrs status;;
  _build_binary;;
  self ← get_self;
  if exists_ self then parse_binary else mret tt.

(** [DirectContainer.__init__] *)
Definition DirectContainer_init
    (literal_bool : string → option string → bool)
    (u : PyUri) (payload : option string)
    (hdrs : gmap string string) (status : option Z)
    (membershipResource hasMemberRelation : option PyObj) : M Resource unit :=
  Resource_init u payload hdrs status;;
  rdf_type ← prefix_term "rdf" "type";
  cls ← prefix_term "ldp" "DirectContainer";
  add_triple rdf_type (PyTermObj cls) true;;
  add_ldp_triple_if literal_bool "membershipResource" membershipResource;;
  add_ldp_triple_if literal_bool "hasMemberRelation" hasMemberRelation.

(** [IndirectContainer.__init__] *)
Definition IndirectContainer_init
    (literal_bool : string → option string → bool)
    (u : PyUri) (payload : option string)
    (hdrs : gmap string string) (status : option Z)
    (membershipResource hasMemberRelation insertedContentRelation : option PyObj)
    : M Resource unit :=
  Resource_init u payload hdrs status;;
  rdf_type ← prefix_term "rdf" "type";
  cls ← prefix_term "ldp" "IndirectContainer";
  add_triple rdf_type (PyTermObj cls) true;;
  add_ldp_triple_if literal_bool "membershipResource" membershipResource;;
  add_ldp_triple_if literal_bool "hasMemberRelation" hasMemberRelation;;
  add_ldp_triple_if literal_bool "insertedContentRelation"
                    insertedContentRelation.

(** With the relation arguments left at [None] no literal is asked for
    its truth value: [None] is false whatever rdflib says of literals. *)
Definition no_literal_asked : string → option string → bool := λ _ _, false.

(** [resource_type(repo, uri, data=..., headers=..., status_code=...)]:
    the constructor call with the optional relation arguments left out. *)
Definition class_init (t : ResourceType) (u : PyUri) (payload : option string)
    (hdrs : gmap string string) (status : option Z) : M Resource unit :=
  match t with
  | NonRDFSource => NonRDFSource_init u payload hdrs status
  | BasicContainer => Resource_init u payload hdrs status
  | DirectContainer =>
      DirectContainer_init no_literal_asked u payload hdrs status None None
  | IndirectContainer =>
      IndirectContainer_init no_literal_asked u payload hdrs status
                             None None None
  end.

Definition construct {O} (t : ResourceType) (rp : Repository) (u : PyUri)
    (payload : option string) (hdrs : gmap string string) (status : option Z)
    : M O Resource :=
  res ← on_object (blank_resource t rp) (class_init t u payload hdrs status);
  mret res.2.

(** *** Repository.get_resource *)

(** The first lines of [get_resource]: a trailing [/fcr:metadata] is
    removed with [rstrip]. *)
Definition probe_uri (u : string) : string :=
  if PyStr.endswith "/fcr:metadata" u
  then PyStr.rstrip "/fcr:metadata" u else u.

(** [None] is the [False] returned for a 404. *)
Definition get_resource {O} (rp : Repository) (u : PyUri)
    (response_format : option string) : M O (option Resource) :=
  let u := parse_uri rp u in
  let u := probe_uri u in
  head_response ← http_request rp HEAD u None None None true false;
  if decide (resp_status head_response = 404) then mret None
  else if decide (resp_status head_response = 200) then
    resource_type ← parse_resource_type head_response;
    get_response ← http_request rp GET (u ++ "/fcr:metadata") None None
                     response_format true false;
    match resource_type with
    | None => raise (TypeError "'bool' object is not callable")
    | Some t =>
        r ← construct t rp (RefUri u) (Some (content get_response))
              (resp_headers get_response) (Some (resp_status get_response));
        mret (Some r)
    end
  else raise (Exception ("HTTP " ++ pretty (resp_status head_response)
                         ++ ", error retrieving resource uri " ++ u)).

(** *** SparqlUpdate *)

#[global] Instance Result_ret : MRet Result := λ A a, Ok a.
#[global] Instance Result_bind : MBind Result := λ A B f r,
  match r with
  | Ok a => f a
  | Raise e => Raise e
  end.

Definition lift_result {O A} (r : Result A) : M O A :=
  match r with
  | Ok a => mret a
  | Raise e => raise e
  end.

Definition newline : string := String (ascii_of_nat 10) "".

(** The namespace URI [compute_qname] finds for the predicate of a triple. *)
Definition predicate_namespace (t : Triple) : Result string :=
  match compute_qname (t.1.2) with
  | Some (_, ns_uri, _) => Ok ns_uri
  | None => Raise (Exception "Can't split predicate")
  end.

(** First loop of [SparqlUpdate._derive_namespaces]: the set
    [self.update_namespaces] of the namespace URIs of all predicates of
    the three graphs. *)
Definition derive_update_namespaces (d : Diffs) : Result (gset string) :=
  uris ← mapM predicate_namespace
            (elements (overlap d) ++ elements (removed d) ++ elements (added d));
  mret (list_to_set uris).

(** Inner loop of the second part of [SparqlUpdate._derive_namespaces],
    for one namespace URI: every prefix bound to exactly that URI is copied
    to [self.update_prefixes]. *)
Definition copy_bound_prefixes (prefixes : gmap string string)
    (ns_uri : string) (update_prefixes : gmap string string)
    : gmap string string :=
  foldl (λ update_prefixes kv,
           if decide (ns_uri = kv.2)
           then <[kv.1 := kv.2]> update_prefixes
           else update_prefixes)
        update_prefixes (map_to_list prefixes).

(** Second loop of [SparqlUpdate._derive_namespaces], over
    [self.update_namespaces]; a URI no prefix is bound to adds nothing. *)
Definition derive_update_prefixes (prefixes : gmap string string)
    (update_namespaces : gset string) : gmap string string :=
  foldl (λ update_prefixes ns_uri,
           copy_bound_prefixes prefixes ns_uri update_prefixes)
        ∅ (elements update_namespaces).

(** [SparqlUpdate._derive_namespaces] *)
Definition _derive_namespaces (prefixes : gmap string string) (d : Diffs)
    : Result (gset string * gmap string string) :=
  update_namespaces ← derive_update_namespaces d;
  mret (update_namespaces, derive_update_prefixes prefixes update_namespaces).

Definition serialize_nt (g : Graph) : Result string :=
  match rdf_serialize "nt" g with
  | Some s => Ok s
  | None => Raise CodecError
  end.

(** The [PREFIX] lines of the query, one per entry of
    [self.update_prefixes]. *)
Definition prefix_lines (update_prefixes : gmap string string) : string :=
  foldr (λ kv rest,
           "PREFIX " ++ kv.1 ++ ": <" ++ kv.2 ++ ">" ++ newline ++ rest)
        "" (map_to_list update_prefixes).

(** [SparqlUpdate.build_query] *)
Definition build_query (prefixes : gmap string string) (d : Diffs)
    : Result string :=
  ns ← _derive_namespaces prefixes d;
  removed_serialized ← serialize_nt (removed d);
  added_serialized ← serialize_nt (added d);
  mret (prefix_lines ns.2
        ++ newline ++ "DELETE {" ++ newline ++ removed_serialized ++ "}"
        ++ newline ++ newline
        ++ newline ++ "INSERT {" ++ newline ++ added_serialized ++ "}"
        ++ newline ++ newline
        ++ "WHERE {}").

(** *** Resource lifecycle *)

(** [Resource.check_exists] *)
Definition check_exists : M Resource bool :=
  self ← get_self;
  response ← http_request (repo self) HEAD (uri self) None None None true false;
  modify_self (set_status_code (Some (resp_status response)));;
  (if decide (resp_status response = 200) then modify_self (set_exists true)
   else if decide (resp_status response = 410) then modify_self (set_exists false)
   else if decide (resp_status response = 404) then modify_self (set_exists false)
   else mret tt);;
  self ← get_self;
  mret (exists_ self).

(** [Resource._empty_resource_attributes]. The statement
    [self.rdf = self._build_rdf()] first runs [_build_rdf], which rebuilds
    [self.rdf] and returns [None], and then stores that [None]. *)
Definition _empty_resource_attributes : M Resource unit :=
  modify_self (set_status_code (Some 404));;
  modify_self (set_headers ∅);;
  modify_self (set_exists false);;
  _build_rdf None;;
  modify_self (set_rdf None);;
  self ← get_self;
  if decide (rtype self = NonRDFSource) then _build_binary else mret tt.

(** Python's [type(x)] for what [get_resource] returns. *)
Inductive PyType :=
| bool_type
| class_type (t : ResourceType).

#[global] Instance PyType_eq_dec : EqDecision PyType.
Proof. solve_decision. Defined.

Definition type_of (r : option Resource) : PyType :=
  match r with
  | None => bool_type
  | Some u => class_type (rtype u)
  end.

Definition type_repr (t : PyType) : string :=
  match t with
  | bool_type => "<class 'bool'>"
  | class_type NonRDFSource => "<class 'pyfc4.models.NonRDFSource'>"
  | class_type BasicContainer => "<class 'pyfc4.models.BasicContainer'>"
  | class_type DirectContainer => "<class 'pyfc4.models.DirectContainer'>"
  | class_type IndirectContainer => "<class 'pyfc4.models.IndirectContainer'>"
  end.

(** [Resource.refresh] *)
Definition refresh : M Resource unit :=
  self ← get_self;
  updated_self ← get_resource (repo self) (RefUri (uri self)) None;
  if decide (type_of updated_self ≠ class_type (rtype self)) then
    raise (Exception ("Instantiated " ++ type_repr (type_of updated_self)
                      ++ ", but repository reports this resource is "
                      ++ type_repr (class_type (rtype self))))
  else
    match updated_self with
    | Some updated =>
        modify_self (set_status_code (status_code updated));;
        rd ← the_rdf "data";
        match rdf updated with
        | None => raise (AttributeError "'NoneType' object has no attribute 'data'")
        | Some urd =>
            modify_self (set_rdf (Some
              {| data := data urd; prefixes := prefixes rd; graph := graph rd;
                 _orig_graph := _orig_graph rd; diffs := diffs rd |}))
        end;;
        modify_self (set_headers (headers updated));;
        modify_self (set_exists (exists_ updated));;
        (if decide (rtype self ≠ NonRDFSource) then _parse_graph else mret tt);;
        modify_self (set_versions [])
    | None => _empty_resource_attributes
    end.

(** [Resource._handle_create]; [retry] is the call [self.create()]. *)
Definition _handle_create (retry : M Resource bool) (response : Response)
    (ignore_tombstone refresh_after : bool) : M Resource bool :=
  (if decide (resp_status response = 201) then
     self ← get_self;
     modify_self (set_uri (parse_uri (repo self) (StrUri (text response))));;
     if refresh_after then refresh else mret tt
   else if decide (resp_status response = 404) then
     raise (Exception "HTTP 404, for this POST request target location does not exist")
   else if decide (resp_status response = 409) then
     raise (Exception "HTTP 409, resource already exists")
   else if decide (resp_status response = 410) then
     self ← get_self;
     if ignore_tombstone then
       response ← http_request (repo self) DELETE (uri self ++ "/fcr:tombstone")
                    None None None true false;
       if decide (resp_status response = 204) then
         retry;; mret tt
       else raise (Exception ("HTTP " ++ pretty (resp_status response)
                              ++ ", Could not remove tombstone for " ++ uri self))
     else raise (Exception ("tombstone for " ++ uri self ++ " detected, aborting"))
   else if decide (resp_status response = 415) then
     raise (Exception "HTTP 415, unsupported media type")
   else
     raise (Exception ("HTTP " ++ pretty (resp_status response)
                       ++ ", unknown error creating resource")));;
  mret true.

(** [Resource.create]. The method and [_handle_create] call each other;
    [fuel] bounds the nesting, and running out of it is Python's
    [RecursionError]. *)
Fixpoint create (fuel : nat) (specify_uri ignore_tombstone : bool)
    (serialization_format : option string) (stream refresh_after : bool)
    : M Resource bool :=
  match fuel with
  | O => raise RecursionError
  | S fuel' =>
      self ← get_self;
      if exists_ self then
        raise (Exception "resource exists attribute True, aborting")
      else
        let verb := if specify_uri then PUT else POST in
        payload ←
          (if decide (rtype self = NonRDFSource) then
             _prep_binary_data;;
             b ← the_binary;
             mret (bdata b)
           else
             let serialization_format :=
               if truthy_str serialization_format
               then default "" serialization_format
               else default_serialization (repo self) in
             rd ← the_rdf "graph";
             match rdf_serialize serialization_format (graph rd) with
             | None => raise CodecError
             | Some s =>
                 modify_self (λ r, set_headers
                   (<["Content-Type" := serialization_format]> (headers r)) r);;
                 mret (Some (Bytes s))
             end);
        self ← get_self;
        response ← http_request (repo self) verb (uri self) payload
                     (Some (headers self)) None true stream;
        _handle_create (create fuel' false false None false true)
                       response ignore_tombstone refresh_after
  end.

(** [Resource.move] *)
Definition move (destination : PyUri) (remove_tombstone : bool)
    : M Resource string :=
  self ← get_self;
  let destination_uri := parse_uri (repo self) destination in
  response ← http_request (repo self) MOVE (uri self) None
               (Some {["Destination" := destination_uri]}) None true false;
  if decide (resp_status response = 201) then
    modify_self (set_exists false);;
    (if remove_tombstone then
       http_request (repo self) DELETE (uri self ++ "/fcr:tombstone")
                    None None None true false;;
       mret tt
     else mret tt);;
    mret destination_uri
  else raise (Exception ("HTTP " ++ pretty (resp_status response)
                         ++ ", could not move resource " ++ uri self
                         ++ " to " ++ destination_uri)).

(** [Resource.copy] *)
Definition copy (destination : PyUri) : M Resource string :=
  self ← get_self;
  let destination_uri := parse_uri (repo self) destination in
  response ← http_request (repo self) COPY (uri self) None
               (Some {["Destination" := destination_uri]}) None true false;
  if decide (resp_status response = 201) then mret destination_uri
  else raise (Exception ("HTTP " ++ pretty (resp_status response)
                         ++ ", could not move resource " ++ uri self
                         ++ " to " ++ destination_uri)).

(** [Resource.delete] *)
Definition delete (remove_tombstone : bool) : M Resource bool :=
  self ← get_self;
  response ← http_request (repo self) DELETE (uri self) None None None true false;
  (if decide (resp_status response = 204) then _empty_resource_attributes
   else mret tt);;
  (if remove_tombstone then
     self ← get_self;
     http_request (repo self) DELETE (uri self ++ "/fcr:tombstone")
                  None None None true false;;
     mret tt
   else mret tt);;
  mret true.

(** What [Resource.update] returns: [True], the query string (with
    [sparql_query_only]), or nothing ([None]). *)
Inductive UpdateResult :=
| update_True
| update_query (q : string)
| update_None.

(** [self.rdf.diffs] after [_diff_graph] *)
Definition the_diffs : M Resource Diffs :=
  rd ← the_rdf "diffs";
  match diffs rd with
  | Some d => mret d
  | None => raise (AttributeError "object has no attribute 'diffs'")
  end.

(** [Resource.update] *)
Definition update (sparql_query_only refresh_after : bool)
    : M Resource UpdateResult :=
  _diff_graph;;
  rd ← the_rdf "prefixes";
  d ← the_diffs;
  if sparql_query_only then
    q ← lift_result (build_query (prefixes rd) d);
    mret (update_query q)
  else
    self ← get_self;
    q ← lift_result (build_query (prefixes rd) d);
    response ← http_request (repo self) PATCH (uri self) (Some (Bytes q))
                 (Some {["Content-Type" := "application/sparql-update"]})
                 None true false;
    (if decide (rtype self = NonRDFSource) then
       _prep_binary_data;;
       b ← the_binary;
       http_request (repo self) PUT (uri self) (bdata b)
         (Some (match mimetype b with
                | Some m => {["Content-Type" := m]}
                | None => ∅
                end)) None true false;;
       mret tt
     else mret tt);;
    if decide (resp_status response = 204) then
      (if refresh_after then refresh else mret tt);;
      mret update_True
    else mret update_None.

(** *** Transaction *)

(** A [Transaction]: a [Repository] whose root is the transaction URI,
    with a name, the [Expires] value and the [active] flag. *)
Record Transaction := mkTransaction {
  txn_repo : Repository;
  name : string;
  expires : option string;
  active : bool
}.

(** [Transaction.__init__] *)
Definition Transaction_init (rp : Repository) (txn_name txn_uri : string)
    (expires : option string) : Transaction :=
  {| txn_repo := Repository_init (context rp) txn_uri (context rp)
                                 (default_serialization rp);
     name := txn_name; expires := expires; active := true |}.

Definition set_active (v : bool) (t : Transaction) : Transaction :=
  mkTransaction (txn_repo t) (name t) (expires t) v.
Definition set_expires (v : option string) (t : Transaction) : Transaction :=
  mkTransaction (txn_repo t) (name t) v (active t).

(** [Transaction.keep_alive] *)
Definition keep_alive : M Transaction bool :=
  self ← get_self;
  txn_response ← http_request (txn_repo self) POST
                   (root (txn_repo self) ++ "fcr:tx") None None None true false;
  if decide (resp_status txn_response = 204) then
    modify_self (set_active true);;
    e ← getitem (resp_headers txn_response) "Expires";
    modify_self (set_expires (Some e));;
    mret true
  else if decide (resp_status txn_response = 410) then
    modify_self (set_active false);;
    mret false
  else raise (Exception ("HTTP " ++ pretty (resp_status txn_response)
                         ++ ", could not continue transaction")).

(** [Transaction._close] *)
Definition _close (close_type : string) : M Transaction bool :=
  self ← get_self;
  txn_response ← http_request (txn_repo self) POST
                   (root (txn_repo self) ++ "fcr:tx/fcr:" ++ close_type)
                   None None None true false;
  if decide (resp_status txn_response = 204) then
    modify_self (set_active false);;
    mret true
  else if bool_decide (resp_status txn_response ∈ [404; 410]) then
    modify_self (set_active false);;
    mret false
  else raise (Exception ("HTTP " ++ pretty (resp_status txn_response)
                         ++ ", could not commit transaction")).

(** [Transaction.commit] *)
Definition commit : M Transaction bool := _close "commit".

(** [Transaction.rollback] *)
Definition rollback : M Transaction bool := _close "rollback".

(** *** Repository: transactions *)

(** A [Repository] object together with its dictionary [self.txns]. *)
Record RepositoryObject := mkRepositoryObject {
  this : Repository;
  txns : gmap string Transaction
}.

Definition set_txns (v : gmap string Transaction) (r : RepositoryObject)
    : RepositoryObject :=
  mkRepositoryObject (this r) v.

(** [Repository.start_txn]; [uuid4_hex] is what [uuid.uuid4().hex] gives
    when no name is passed. The method has no [else]: [None] is the [None]
    Python returns when the status is not 201. *)
Definition start_txn (uuid4_hex : string) (txn_name : option string)
    : M RepositoryObject (option Transaction) :=
  self ← get_self;
  let txn_name :=
    if truthy_str txn_name then default "" txn_name else uuid4_hex in
  txn_response ← http_request (this self) POST (root (this self) ++ "/fcr:tx")
                   None None None true false;
  if decide (resp_status txn_response = 201) then
    txn_uri ← getitem (resp_headers txn_response) "Location";
    e ← getitem (resp_headers txn_response) "Expires";
    let txn := Transaction_init (this self) txn_name txn_uri (Some e) in
    modify_self (λ r, set_txns (<[txn_name := txn]> (txns r)) r);;
    mret (Some txn)
  else mret None.

(** [Repository.get_txn]; [None] is the [False] returned for 404 and
    410. *)
Definition get_txn (txn_name : string) (txn_uri : PyUri)
    : M RepositoryObject (option Transaction) :=
  self ← get_self;
  let txn_uri := parse_uri (this self) txn_uri in
  txn_response ← http_request (this self) GET txn_uri None None None true false;
  if decide (resp_status txn_response = 200) then
    let txn := Transaction_init (this self) txn_name txn_uri None in
    modify_self (λ r, set_txns (<[txn_name := txn]> (txns r)) r);;
    mret (Some txn)
  else if bool_decide (resp_status txn_response ∈ [404; 410]) then mret None
  else raise (Exception ("HTTP " ++ pretty (resp_status txn_response)
                         ++ ", could not retrieve transaction")).

(** *** Frame conditions *)

(** [m] leaves the observation [f] of [self] as it was, whether it returns
    or raises. *)
Definition preserves {O A X} (f : O → X) (m : M O A) : Prop :=
  ∀ o w, f (m o w).1.2 = f o.

End Transport.

(** ** The [Link] header as the protocol writes it

    What [parse_resource_type] is to recover: a [Link] header is a list of
    link-values, each a target in angle brackets followed by parameters
    ([<http://www.w3.org/ns/ldp#BasicContainer>;rel="type"]); [requests]
    joins the values of repeated headers with a comma and a space. *)

(** The text of [s] before its first semicolon. *)
Fixpoint before_semicolon (s : string) : string :=
  match s with
  | EmptyString => EmptyString
  | String c s' =>
      if Ascii.ascii_dec ";" c then EmptyString
      else String c (before_semicolon s')
  end.

Record LinkValue := mkLinkValue {
  target : string;
  params : list string
}.

Definition render_link_value (l : LinkValue) : string :=
  "<" ++ target l ++ ">" ++ String.concat "" ((λ p, ";" ++ p) <$> params l).

Definition render_link_header (ls : list LinkValue) : string :=
  String.concat ", " (render_link_value <$> ls).

(** A link-value the naive splitting of the source reads back: its text
    holds no comma followed by a space, and its target no [>] (which a URI
    cannot contain). *)
Definition well_formed_link (l : LinkValue) : Prop :=
  PyStr.contains ", " (render_link_value l) = false ∧
  PyStr.contains ">" (target l) = false.

(** The header declares the LDP type [name]. *)
Definition declares (name : string) (ls : list LinkValue) : bool :=
  bool_decide (Exists (λ l, target l = "http://www.w3.org/ns/ldp#" ++ name) ls).

(** The resolution the specification describes: the first declared type in
    the order NonRDFSource, BasicContainer, DirectContainer,
    IndirectContainer; "unknown" when none is declared. *)
Definition resolve_by_priority (ls : list LinkValue) : option ResourceType :=
  if declares "NonRDFSource" ls then Some NonRDFSource
  else if declares "BasicContainer" ls then Some BasicContainer
  else if declares "DirectContainer" ls then Some DirectContainer
  else if declares "IndirectContainer" ls then Some IndirectContainer
  else None.

(** ** A test double: a small Fedora-like repository

    Used only to run the client on concrete scenarios. It follows the
    interface table of the repository (PUT to assign a URI, POST to mint one
    under an existing parent, DELETE leaving a tombstone that answers 410
    until [fcr:tombstone] is deleted). Its codec knows only the empty
    payload. *)

Module Fedora.

Record State := mkState {
  resources : gset string;
  tombstones : gset string;
  minted : nat
}.

Definition dquote : string := String (ascii_of_nat 34) "".

(** The [Link] header of a basic container. *)
Definition basic_container_links : string :=
  "<http://www.w3.org/ns/ldp#Resource>;rel=" ++ dquote ++ "type" ++ dquote
  ++ ", <http://www.w3.org/ns/ldp#Container>;rel=" ++ dquote ++ "type" ++ dquote
  ++ ", <http://www.w3.org/ns/ldp#BasicContainer>;rel=" ++ dquote ++ "type" ++ dquote.

Definition reply (status : Z) (hdrs : gmap string string) (body : string)
    (s : State) : Response * State :=
  ({| resp_status := status; resp_headers := hdrs; content := body |}, s).

Definition strip_suffix (suffix s : string) : string :=
  String.substring 0 (String.length s - String.length suffix) s.

Definition send (s : State) (rq : Request) : Response * State :=
  let u := req_uri rq in
  match verb rq with
  | PUT =>
      if bool_decide (u ∈ tombstones s) then reply 410 ∅ "" s
      else if bool_decide (u ∈ resources s) then reply 409 ∅ "" s
      else reply 201 ∅ u (mkState ({[u]} ∪ resources s) (tombstones s) (minted s))
  | POST =>
      if bool_decide (u ∈ tombstones s) then reply 410 ∅ "" s
      else if bool_decide (u ∈ resources s) then
        let child := u ++ "/" ++ pretty (minted s) in
        reply 201 {["Location" := child]} child
              (mkState ({[child]} ∪ resources s) (tombstones s) (S (minted s)))
      else reply 404 ∅ "" s
  | DELETE =>
      if PyStr.endswith "/fcr:tombstone" u then
        let target := strip_suffix "/fcr:tombstone" u in
        if bool_decide (target ∈ tombstones s)
        then reply 204 ∅ "" (mkState (resources s) (tombstones s ∖ {[target]}) (minted s))
        else reply 404 ∅ "" s
      else if bool_decide (u ∈ resources s)
      then reply 204 ∅ "" (mkState (resources s ∖ {[u]}) ({[u]} ∪ tombstones s) (minted s))
      else if bool_decide (u ∈ tombstones s) then reply 410 ∅ "" s
      else reply 404 ∅ "" s
  | HEAD =>
      if bool_decide (u ∈ resources s)
      then reply 200 {["Link" := basic_container_links]} "" s
      else if bool_decide (u ∈ tombstones s) then reply 410 ∅ "" s
      else reply 404 ∅ "" s
  | GET =>
      if bool_decide (strip_suffix "/fcr:metadata" u ∈ resources s)
      then reply 200 {["Content-Type" := "application/rdf+xml"]} "" s
      else reply 404 ∅ "" s
  | _ => reply 405 ∅ "" s
  end.

(** A server that answers every request with the same status and no
    headers. *)
Definition always (status : Z) (s : unit) (rq : Request) : Response * unit :=
  ({| resp_status := status; resp_headers := ∅; content := "" |}, s).

Definition rdf_parse (format payload : string) : option ParsedGraph :=
  if decide (payload = "") then Some new_graph else None.

Definition term_nt (t : Term) : string :=
  match t with
  | URIRef i => "<" ++ i ++ ">"
  | BNode b => "_:" ++ b
  | Literal l None => dquote ++ l ++ dquote
  | Literal l (Some d) => dquote ++ l ++ dquote ++ "^^<" ++ d ++ ">"
  end.

Definition rdf_serialize (format : string) (g : gset Triple) : option string :=
  Some (foldr (λ t rest,
                 term_nt (t.1.1) ++ " " ++ term_nt (t.1.2) ++ " " ++ term_nt (t.2)
                 ++ " ." ++ newline ++ rest)
              "" (elements g)).

Definition namespaces_after_bind (prefixes : gmap string string)
    (g : ParsedGraph) : list (string * string) :=
  map_to_list prefixes ++ pg_namespaces g.

(** Splits after the last ['#'] or ['/'] of a URI. *)
Fixpoint split_uri_go (ns local : string) (rest : string) : string * string :=
  match rest with
  | EmptyString => (ns, local)
  | String c rest' =>
      if bool_decide (c = "#"%char ∨ c = "/"%char)
      then split_uri_go (ns ++ local ++ String c "") "" rest'
      else split_uri_go ns (local ++ String c "") rest'
  end.

Definition compute_qname (p : Term) : option (string * string * string) :=
  match p with
  | URIRef i =>
      let '(ns, local) := split_uri_go "" "" i in
      if decide (ns = "") then None else Some ("ns1", ns, local)
  | _ => None
  end.

Definition bnode_labels (g : gset Triple) (b : string) : string := b.

Definition repository : Repository :=
  Repository_init default_context "http://localhost:8080/rest" ∅
                  "application/rdf+xml".

Definition empty_state : State := mkState {[ root repository ]} ∅ 0.

Definition world (s : State) : World := {| server := s; log := [] |}.

(** [BasicContainer(repo, u)] *)
Definition new_basic_container (u : string) (s : State)
    : Result Resource * unit * World :=
  construct send rdf_parse namespaces_after_bind compute_qname
            BasicContainer repository (StrUri u) None ∅ None tt (world s).

(** Concrete data for the scenarios below. *)

(** A basic container object for the path [u], as a retrieved one
    ([present]) or as a not yet created one. *)
Definition container (u : string) (present : bool) : Resource :=
  {| rtype := BasicContainer; repo := repository;
     uri := root repository ++ u; headers := ∅;
     status_code := if present then Some 200 else None;
     exists_ := present;
     rdf := Some {| data := None; prefixes := ∅; graph := ∅;
                    _orig_graph := ∅; diffs := None |};
     binary := None; versions := [] |}.

Definition rel_type : string := "rel=" ++ dquote ++ "type" ++ dquote.

(** The link-values behind [basic_container_links]. *)
Definition basic_container_link_values : list LinkValue :=
  [ {| target := "http://www.w3.org/ns/ldp#Resource"; params := [rel_type] |};
    {| target := "http://www.w3.org/ns/ldp#Container"; params := [rel_type] |};
    {| target := "http://www.w3.org/ns/ldp#BasicContainer"; params := [rel_type] |} ].

Definition transaction : Transaction :=
  Transaction_init repository "txn" "http://localhost:8080/rest/tx:1" None.

Definition dc_title : Term := URIRef "http://purl.org/dc/elements/1.1/title".

(** [(x, dc:title, "t")] *)
Definition titled : Triple :=
  (URIRef "http://localhost:8080/rest/x", dc_title, Literal "t" None).

(** The state of the repository after [x] was created and then deleted
    with its tombstone left in place. *)
Definition tombstoned_state : State :=
  mkState {[ root repository ]} {[ root repository ++ "x" ]} 0.

(** [r.create(specify_uri=..., ignore_tombstone=...)] against this
    repository, with room for the one nested call. *)
Definition create_on (r : Resource) (specify_uri ignore_tombstone : bool)
    (w : World) : Result bool * Resource * World :=
  create send rdf_parse rdf_serialize namespaces_after_bind compute_qname
         2 specify_uri ignore_tombstone None false true r w.

(** [r.delete(remove_tombstone=...)] against this repository. *)
Definition delete_on (r : Resource) (remove_tombstone : bool) (w : World)
    : Result bool * Resource * World :=
  delete send rdf_parse namespaces_after_bind compute_qname
         remove_tombstone r w.

(** Create [x] by PUT, delete it leaving the tombstone, then create [x]
    again from a new object with [specify_uri=True] and
    [ignore_tombstone=True]. The result is that of the last call. *)
Definition tombstone_scenario : Result bool * Resource * World :=
  let '(_, first, w1) := create_on (container "x" false) true false
                                   (world empty_state) in
  let '(_, _, w2) := delete_on first false w1 in
  create_on (container "x" false) true true w2.

End Fedora.

(** ** Vocabulary of the further properties *)

(** Every character of [s] occurs in [chars]. *)
Fixpoint all_chars_in (chars s : string) : bool :=
  match s with
  | EmptyString => true
  | String c s' => PyStr.contains (String c "") chars && all_chars_in chars s'
  end.

(** The format [API.http_request] negotiates for a [GET] of RDF: the
    requested one, or the repository default when none (or an empty one)
    is given. *)
Definition negotiated_format (rp : Repository) (response_format : option string)
    : string :=
  match response_format with
  | Some f => if decide (f = "") then default_serialization rp else f
  | None => default_serialization rp
  end.

(** What [Graph().parse] gives [parse_rdf_payload]: the graph, or the
    parser's exception. *)
Definition parser_outcome (g : option ParsedGraph) : Result ParsedGraph :=
  match g with
  | Some g => Ok g
  | None => Raise CodecError
  end.

(** Concrete data for the further properties. *)

(** The container [x] of the test repository as retrieved, holding the
    one triple [Fedora.titled]. *)
Definition titled_container : Resource :=
  {| rtype := BasicContainer; repo := Fedora.repository;
     uri := root Fedora.repository ++ "x"; headers := ∅;
     status_code := Some 200; exists_ := true;
     rdf := Some {| data := None; prefixes := ∅;
                    graph := {[ Fedora.titled ]};
                    _orig_graph := {[ Fedora.titled ]}; diffs := None |};
     binary := None; versions := [] |}.

Definition ebucore : string :=
  "http://www.ebu.ch/metadata/ontologies/ebucore/ebucore#".

(** A binary resource [f] that is still to be created, with a mimetype and
    content, and with the [ebucore:hasMimeType] triple in its graph. *)
Definition text_file : Resource :=
  {| rtype := NonRDFSource; repo := Fedora.repository;
     uri := root Fedora.repository ++ "f"; headers := ∅;
     status_code := None; exists_ := false;
     rdf := Some {| data := None; prefixes := {[ "ebucore" := ebucore ]};
                    graph := {[ (URIRef (root Fedora.repository ++ "f"),
                                 URIRef (ebucore ++ "hasMimeType"),
                                 Literal "text/plain" None) ]};
                    _orig_graph := ∅; diffs := None |};
     binary := Some {| delivery := None; bdata := Some (Bytes "hello");
                       bstream := false; mimetype := Some "text/plain";
                       location := None |};
     versions := [] |}.

(** A world whose server has no state. *)
Definition stateless : @World unit := {| server := tt; log := [] |}.

(** The N-Triples text of the graph that holds [Fedora.titled] alone. *)
Definition titled_nt : string :=
  Fedora.term_nt (Fedora.titled.1.1) ++ " "
  ++ Fedora.term_nt (Fedora.titled.1.2) ++ " "
  ++ Fedora.term_nt (Fedora.titled.2) ++ " ." ++ newline.

(** A codec that reads [titled_nt] as N-Triples, and otherwise what
    [Fedora.rdf_parse] reads. *)
Definition titled_parse (format payload : string) : option ParsedGraph :=
  if decide (format = "application/n-triples" ∧ payload = titled_nt)
  then Some {| pg_triples := {[ Fedora.titled ]}; pg_namespaces := [] |}
  else Fedora.rdf_parse format payload.

(** A repository in which every path is a basic container whose metadata
    is [titled_nt], sent as [text/plain]. *)
Definition titled_server (s : unit) (rq : Request) : Response * unit :=
  match verb rq with
  | HEAD =>
      ({| resp_status := 200;
          resp_headers := {[ "Link" := Fedora.basic_container_links ]};
          content := "" |}, s)
  | GET =>
      ({| resp_status := 200;
          resp_headers := {[ "Content-Type" := "text/plain;charset=utf-8" ]};
          content := titled_nt |}, s)
  | _ => ({| resp_status := 405; resp_headers := ∅; content := "" |}, s)
  end.

(** [(x, dc:title, "draft")], a title that was never sent. *)
Definition draft : Triple :=
  (URIRef "http://localhost:8080/rest/x", Fedora.dc_title,
   Literal "draft" None).

(** The container [x] as retrieved from [titled_server], with the title
    [draft] added since and not yet sent. *)
Definition edited_container : Resource :=
  {| rtype := BasicContainer; repo := Fedora.repository;
     uri := root Fedora.repository ++ "x";
     headers := {[ "Content-Type" := "text/plain;charset=utf-8" ]};
     status_code := Some 200; exists_ := true;
     rdf := Some {| data := Some titled_nt; prefixes := ∅;
                    graph := {[ Fedora.titled ]} ∪ {[ draft ]};
                    _orig_graph := {[ Fedora.titled ]}; diffs := None |};
     binary := None; versions := [] |}.

(** ** Properties *)

(** [tauto], kept from reading the functions of the context as
    implications. *)
Ltac clear_functions :=
  repeat match goal with
         | f : ?T |- _ =>
             lazymatch type of T with Prop => fail | _ => idtac end; clear f
         end.

Ltac ptauto := clear_functions; tauto.

(** Unfolds one layer of the monad. *)
Ltac msimpl :=
  unfold mbind, M_bind, mret, M_ret, raise, get_self, modify_self, getitem,
         lift_result in *;
  cbn [fst snd] in *.

Section Properties.

Context {Server : Type}.
Variable send : Server → Request → Response * Server.
Variable rdf_parse : string → string → option ParsedGraph.
Variable rdf_serialize : string → Graph → option string.
Variable namespaces_after_bind :
  gmap string string → ParsedGraph → list (string * string).
Variable compute_qname : Term → option (string * string * string).
Variable bnode_labels : Graph → string → string.

#[local] Abbreviation TheWorld := (@World Server).
#[local] Abbreviation keeps := (preserves (Server:=Server)).

Lemma http_request_other {O} (rp : Repository) (v : Verb) (u : string)
    payload hdrs fmt is_rdf stream (o : O) (w : World) :
  v ≠ GET →
  let rq := {| verb := v; req_uri := u; req_data := payload;
               req_headers := hdrs; req_stream := stream |} in
  http_request send rp v u payload hdrs fmt is_rdf stream o w
  = (Ok (send (server w) rq).1, o,
     {| server := (send (server w) rq).2; log := log w ++ [rq] |}).
Proof.
  intros Hv rq. unfold http_request.
  rewrite (bool_decide_eq_false_2 _ Hv), andb_false_r. fold rq.
  by destruct (send _ _).
Qed.

Lemma http_request_plain {O} (rp : Repository) (v : Verb) (u : string)
    (o : O) (w : World) :
  v ≠ GET →
  http_request send rp v u None None None true false o w
  = (Ok (send (server w) (plain_request v u)).1, o,
     {| server := (send (server w) (plain_request v u)).2;
        log := log w ++ [plain_request v u] |}).
Proof.
  intros Hv. unfold http_request, plain_request.
  rewrite (bool_decide_eq_false_2 _ Hv), andb_false_r.
  by destruct (send _ _).
Qed.

(** *** check_exists *)

Lemma check_exists_unfold (self : Resource) (w : World) :
  let response := (send (server w) (plain_request HEAD (uri self))).1 in
  let self1 := set_status_code (Some (resp_status response)) self in
  let self2 :=
    if decide (resp_status response = 200) then set_exists true self1
    else if decide (resp_status response = 410) then set_exists false self1
    else if decide (resp_status response = 404) then set_exists false self1
    else self1 in
  check_exists send self w
  = (Ok (exists_ self2), self2,
     {| server := (send (server w) (plain_request HEAD (uri self))).2;
        log := log w ++ [plain_request HEAD (uri self)] |}).
Proof.
  intros. unfold check_exists. msimpl.
  rewrite http_request_plain by done. subst self2 self1 response.
  repeat case_decide; reflexivity.
Qed.

(** *** Transactions *)

Lemma keep_alive_unfold (self : Transaction) (w : World) :
  let rq := plain_request POST (root (txn_repo self) ++ "fcr:tx") in
  let response := (send (server w) rq).1 in
  let w' := {| server := (send (server w) rq).2; log := log w ++ [rq] |} in
  keep_alive send self w
  = if decide (resp_status response = 204) then
      match resp_headers response !! "Expires" with
      | Some e => (Ok true, set_expires (Some e) (set_active true self), w')
      | None => (Raise (KeyError "Expires"), set_active true self, w')
      end
    else if decide (resp_status response = 410) then
      (Ok false, set_active false self, w')
    else
      (Raise (Exception ("HTTP " ++ pretty (resp_status response)
                         ++ ", could not continue transaction")), self, w').
Proof.
  intros. unfold keep_alive. msimpl.
  rewrite http_request_plain by done. fold rq response w'.
  repeat case_decide; try reflexivity.
  by destruct (resp_headers response !! "Expires").
Qed.

Lemma close_unfold (close_type : string) (self : Transaction) (w : World) :
  let rq := plain_request POST
              (root (txn_repo self) ++ "fcr:tx/fcr:" ++ close_type) in
  let response := (send (server w) rq).1 in
  let w' := {| server := (send (server w) rq).2; log := log w ++ [rq] |} in
  _close send close_type self w
  = if decide (resp_status response = 204) then
      (Ok true, set_active false self, w')
    else if decide (resp_status response = 404 ∨ resp_status response = 410) then
      (Ok false, set_active false self, w')
    else
      (Raise (Exception ("HTTP " ++ pretty (resp_status response)
                         ++ ", could not commit transaction")), self, w').
Proof.
  intros. unfold _close. msimpl.
  rewrite http_request_plain by done. fold rq response w'.
  destruct (decide (resp_status response = 204)) as [|H204]; [done|].
  destruct (decide (_ ∨ _)) as [Hor|Hor].
  - rewrite bool_decide_eq_true_2; [done|].
    rewrite !elem_of_cons, elem_of_nil. ptauto.
  - rewrite bool_decide_eq_false_2; [done|].
    rewrite !elem_of_cons, elem_of_nil. ptauto.
Qed.

(** *** Emptying a resource *)

Lemma parse_object_like_triples_empty (self : Resource) (w : TheWorld) (rd : Rdf) :
  rdf self = Some rd → graph rd = ∅ →
  parse_object_like_triples compute_qname self w = (Ok tt, self, w).
Proof.
  intros Hrdf Hg. unfold parse_object_like_triples, the_rdf. msimpl.
  rewrite Hrdf, Hg, elements_empty. reflexivity.
Qed.

Lemma _build_rdf_absent (payload : option string) (self : Resource) (w : TheWorld) :
  exists_ self = false →
  _build_rdf rdf_parse namespaces_after_bind compute_qname payload self w
  = (Ok tt, set_rdf (Some (fresh_rdf namespaces_after_bind payload self)) self, w).
Proof.
  intros Hex. unfold _build_rdf, _parse_graph, the_rdf. msimpl.
  destruct self; cbn in *; subst. msimpl.
  erewrite parse_object_like_triples_empty; done.
Qed.

Lemma _empty_resource_attributes_unfold (self : Resource) (w : TheWorld) :
  _empty_resource_attributes rdf_parse namespaces_after_bind compute_qname self w
  = (Ok tt,
     {| rtype := rtype self; repo := repo self; uri := uri self;
        headers := ∅; status_code := Some 404; exists_ := false;
        rdf := None;
        binary := if decide (rtype self = NonRDFSource)
                  then Some {| delivery := None; bdata := None; bstream := false;
                               mimetype := None; location := None |}
                  else binary self;
        versions := versions self |}, w).
Proof.
  unfold _empty_resource_attributes. msimpl.
  rewrite _build_rdf_absent by done.
  destruct self; cbn. unfold _build_binary. msimpl.
  by case_decide.
Qed.

(** *** delete *)

Lemma delete_unfold (remove_tombstone : bool) (self : Resource) (w : TheWorld) :
  let rq := plain_request DELETE (uri self) in
  let response := (send (server w) rq).1 in
  let w1 := {| server := (send (server w) rq).2; log := log w ++ [rq] |} in
  let self' :=
    if decide (resp_status response = 204) then
      (_empty_resource_attributes rdf_parse namespaces_after_bind
                                  compute_qname self w1).1.2
    else self in
  let rq2 := plain_request DELETE (uri self ++ "/fcr:tombstone") in
  let w2 :=
    if remove_tombstone
    then {| server := (send (server w1) rq2).2; log := log w1 ++ [rq2] |}
    else w1 in
  delete send rdf_parse namespaces_after_bind compute_qname
         remove_tombstone self w
  = (Ok true, self', w2).
Proof.
  intros. unfold delete. msimpl.
  rewrite http_request_plain by done. fold rq response w1.
  subst self' w2. case_decide.
  - rewrite _empty_resource_attributes_unfold. cbn.
    destruct remove_tombstone; [|done].
    rewrite http_request_plain by done. reflexivity.
  - destruct remove_tombstone; [|done].
    rewrite http_request_plain by done. reflexivity.
Qed.

(** *** refresh *)

Lemma get_resource_404 {O} (rp : Repository) (u : PyUri) (o : O) (w : TheWorld) :
  let target := probe_uri (parse_uri rp u) in
  resp_status (send (server w) (plain_request HEAD target)).1 = 404 →
  get_resource send rdf_parse namespaces_after_bind compute_qname
               rp u None o w
  = (Ok None, o,
     {| server := (send (server w) (plain_request HEAD target)).2;
        log := log w ++ [plain_request HEAD target] |}).
Proof.
  intros target H404. unfold get_resource. fold target. msimpl.
  rewrite http_request_plain by done.
  rewrite decide_True by done. reflexivity.
Qed.

Lemma refresh_404 (self : Resource) (w : TheWorld) :
  resp_status (send (server w) (plain_request HEAD (probe_uri (parse_uri (repo self) (RefUri (uri self)))))).1 = 404 →
  refresh send rdf_parse namespaces_after_bind compute_qname self w
  = (Raise (Exception ("Instantiated <class 'bool'>, but repository reports this resource is "
                       ++ type_repr (class_type (rtype self)))),
     self,
     {| server := (send (server w) (plain_request HEAD (probe_uri (parse_uri (repo self) (RefUri (uri self)))))).2;
        log := log w ++ [plain_request HEAD (probe_uri (parse_uri (repo self) (RefUri (uri self))))] |}).
Proof.
  intros H404. unfold refresh. msimpl.
  rewrite get_resource_404 by done.
  rewrite decide_True by done. reflexivity.
Qed.

(** *** Frame conditions *)

Lemma preserves_ret {O A X} (f : O → X) (a : A) : keeps f (mret a).
Proof. by intros o w. Qed.

Lemma preserves_raise {O A X} (f : O → X) (e : Exn) :
  keeps f (raise e : M O A).
Proof. by intros o w. Qed.

Lemma preserves_get_self {O X} (f : O → X) : keeps f get_self.
Proof. by intros o w. Qed.

Lemma preserves_modify {O X} (f : O → X) (g : O → O) :
  (∀ o, f (g o) = f o) → keeps f (modify_self g).
Proof. intros Hg o w. apply Hg. Qed.

Lemma preserves_bind {O A B X} (f : O → X) (m : M O A) (k : A → M O B) :
  keeps f m → (∀ a, keeps f (k a)) → keeps f (m ≫= k).
Proof.
  intros Hm Hk o w. specialize (Hm o w). msimpl.
  destruct (m o w) as [[[a|e] o'] w']; cbn in *; [|done].
  by rewrite Hk.
Qed.

Lemma preserves_getitem {O X} (f : O → X) (d : gmap string string) (k : string) :
  keeps f (getitem d k).
Proof. intros o w. unfold getitem. by destruct (d !! k). Qed.

Lemma preserves_http_request {O X} (f : O → X) rp v u payload hdrs fmt is_rdf stream :
  keeps f (http_request send rp v u payload hdrs fmt is_rdf stream).
Proof. intros o w. unfold http_request. by destruct (send _ _). Qed.

(** Splits a frame goal along the structure of the method. *)
Ltac frame :=
  repeat first
    [ apply preserves_ret
    | apply preserves_raise
    | apply preserves_get_self
    | apply preserves_getitem
    | apply preserves_http_request
    | apply preserves_modify; intros []; reflexivity
    | apply preserves_bind; [|intros]
    | match goal with
      | |- preserves _ (if ?b then _ else _) => destruct b
      | |- preserves _ (match ?x with _ => _ end) => destruct x
      end ].

Lemma preserves_the_rdf {X} (f : Resource → X) attr : keeps f (the_rdf attr).
Proof. unfold the_rdf. frame. Qed.

Lemma preserves_parse_rdf_payload {O X} (f : O → X) payload hdrs :
  keeps f (parse_rdf_payload rdf_parse payload hdrs).
Proof. unfold parse_rdf_payload. frame. Qed.

Lemma preserves_parse_object_like_triples {X} (f : Resource → X) :
  keeps f (parse_object_like_triples compute_qname).
Proof. unfold parse_object_like_triples. frame. Qed.

(** [_build_rdf] writes [self.rdf] and nothing else. *)
Lemma preserves_build_rdf {X} (f : Resource → X) payload :
  (∀ v r, f (set_rdf v r) = f r) →
  keeps f (_build_rdf rdf_parse namespaces_after_bind compute_qname payload).
Proof.
  intros Hf. unfold _build_rdf, _parse_graph.
  repeat first
    [ apply preserves_the_rdf
    | apply preserves_parse_rdf_payload
    | apply preserves_parse_object_like_triples
    | apply preserves_modify; intros; apply Hf
    | apply preserves_get_self
    | apply preserves_ret
    | apply preserves_bind; [|intros]
    | match goal with
      | |- preserves _ (if ?b then _ else _) => destruct b
      end ].
Qed.

Lemma Resource_init_sets_status u payload hdrs status (self : Resource) (w : TheWorld) :
  let self' := (Resource_init rdf_parse namespaces_after_bind compute_qname
                              u payload hdrs status self w).1.2 in
  exists_ self' = bool_decide (status = Some 200) ∧ status_code self' = status.
Proof.
  cbn zeta. unfold Resource_init. msimpl.
  set (self0 := set_exists _ _).
  pose proof (preserves_build_rdf exists_ payload (λ _ _, eq_refl) self0 w) as Hex.
  pose proof (preserves_build_rdf status_code payload (λ _ _, eq_refl) self0 w) as Hst.
  destruct (_build_rdf _ _ _ _ _ _) as [[[[]|e] o'] w']; cbn in *;
    rewrite Hex, Hst; by destruct self.
Qed.

(** *** The graph diff *)

Lemma canonicalize_bnodes_ground (g : Graph) (t : Triple) :
  triple_ground t = true → canonicalize_bnodes bnode_labels g t = t.
Proof.
  destruct t as [[s p] o].
  destruct s, p, o; cbn; intros Hg; try discriminate Hg; reflexivity.
Qed.

Lemma to_canonical_graph_ground (g : Graph) :
  ground g → to_canonical_graph bnode_labels g = g.
Proof.
  intros Hg. apply set_eq. intros t. unfold to_canonical_graph.
  rewrite elem_of_map. split.
  - intros (t' & -> & Hin). rewrite canonicalize_bnodes_ground; auto.
  - intros Hin. exists t. split; [|done].
    symmetry. apply canonicalize_bnodes_ground. auto.
Qed.

Lemma difference_union_intersection (a b : Graph) : a ∖ b ∪ b ∩ a = a.
Proof.
  apply set_eq. intros x.
  rewrite elem_of_union, elem_of_difference, elem_of_intersection.
  destruct (decide (x ∈ b)); ptauto.
Qed.

Lemma _diff_graph_unfold (self : Resource) (w : TheWorld) (rd : Rdf) :
  rdf self = Some rd →
  _diff_graph bnode_labels self w
  = (Ok tt,
     set_rdf (Some {| data := data rd; prefixes := prefixes rd;
                      graph := graph rd; _orig_graph := _orig_graph rd;
                      diffs := Some (diff_of_graphs bnode_labels
                                       (_orig_graph rd) (graph rd)) |}) self,
     w).
Proof. intros Hrdf. unfold _diff_graph, the_rdf. msimpl. by rewrite Hrdf. Qed.

(** *** The SPARQL update builder *)

Lemma mapM_predicate_namespace (l : list Triple) :
  (∀ t, t ∈ l → is_Some (compute_qname (t.1.2))) →
  ∃ uris, mapM (predicate_namespace compute_qname) l = Ok uris ∧
    ∀ ns, ns ∈ uris ↔
      ∃ t pfx nm, t ∈ l ∧ compute_qname (t.1.2) = Some (pfx, ns, nm).
Proof.
  induction l as [|t l IH]; intros Hall.
  - exists []. split; [done|]. intros ns. split.
    + intros Hin. by apply elem_of_nil in Hin.
    + intros (t & _ & _ & Hin & _). by apply elem_of_nil in Hin.
  - destruct IH as (uris & Hmap & Huris).
    { intros t' Ht'. apply Hall. by right. }
    destruct (Hall t) as [[[pfx ns0] nm] Hq]; [by left|].
    exists (ns0 :: uris). split.
    + cbn. rewrite Hmap. unfold predicate_namespace. by rewrite Hq.
    + intros ns. rewrite elem_of_cons, Huris. split.
      * intros [->|(t' & pfx' & nm' & Hin & Hq')].
        -- exists t, pfx, nm. split; [by left|done].
        -- exists t', pfx', nm'. split; [by right|done].
      * intros (t' & pfx' & nm' & Hin & Hq').
        apply elem_of_cons in Hin as [->|Hin].
        -- left. congruence.
        -- right. eauto 6.
Qed.

Lemma copy_bound_prefixes_list (prefixes : gmap string string)
    (ns_uri : string) (l : list (string * string))
    (acc : gmap string string) (k v : string) :
  (∀ k v, (k, v) ∈ l → prefixes !! k = Some v) →
  (∀ k v, acc !! k = Some v → prefixes !! k = Some v) →
  foldl (λ update_prefixes kv,
           if decide (ns_uri = kv.2)
           then <[kv.1 := kv.2]> update_prefixes
           else update_prefixes) acc l !! k = Some v ↔
    acc !! k = Some v ∨ ((k, v) ∈ l ∧ v = ns_uri).
Proof.
  revert acc. induction l as [|[k0 v0] l IH]; intros acc Hl Hacc; cbn.
  - split; [by left|]. intros [?|[Hin _]]; [done|]. by apply elem_of_nil in Hin.
  - assert (Hk0 : prefixes !! k0 = Some v0) by (apply Hl; by left).
    assert (Hl' : ∀ k v, (k, v) ∈ l → prefixes !! k = Some v)
      by (intros ???; apply Hl; by right).
    case_decide as Hns; cbn in Hns.
    + subst v0. rewrite IH; [|done|].
      2:{ intros k' v'. rewrite lookup_insert. case_decide; [|by auto].
          intros [= <-]. by subst. }
      rewrite lookup_insert, elem_of_cons. case_decide as Hk.
      * subst k0. split.
        -- intros [[= <-]|[Hin ->]]; right; (split; [by left|done]).
        -- intros [Hin|[[[= -> ]|Hin] Hv]].
           ++ left. apply Hacc in Hin. congruence.
           ++ by left.
           ++ subst. by left.
      * split.
        -- intros [?|[??]]; [by left|]. right. split; [by right|done].
        -- intros [?|[[[= ??]|?] ?]]; [by left|by subst|]. right. done.
    + rewrite IH by done. rewrite elem_of_cons. split.
      * intros [?|[??]]; [by left|]. right. split; [by right|done].
      * intros [?|[[[= ??]|?] ?]]; [by left| |by right].
        subst. done.
Qed.

Lemma copy_bound_prefixes_lookup (prefixes : gmap string string)
    (ns_uri : string) (acc : gmap string string) (k v : string) :
  (∀ k v, acc !! k = Some v → prefixes !! k = Some v) →
  copy_bound_prefixes prefixes ns_uri acc !! k = Some v ↔
    acc !! k = Some v ∨ (prefixes !! k = Some v ∧ v = ns_uri).
Proof.
  intros Hacc. unfold copy_bound_prefixes.
  rewrite (copy_bound_prefixes_list prefixes); [|intros ??; apply elem_of_map_to_list|done].
  by rewrite elem_of_map_to_list.
Qed.

Lemma derive_outer_lookup (prefixes : gmap string string) (nss : list string)
    (acc : gmap string string) (k v : string) :
  (∀ k v, acc !! k = Some v → prefixes !! k = Some v) →
  foldl (λ update_prefixes ns_uri,
           copy_bound_prefixes prefixes ns_uri update_prefixes) acc nss !! k
    = Some v ↔
  acc !! k = Some v ∨ (prefixes !! k = Some v ∧ v ∈ nss).
Proof.
  revert acc. induction nss as [|ns nss IH]; intros acc Hacc; cbn.
  - split; [by left|]. intros [?|[_ Hin]]; [done|]. by apply elem_of_nil in Hin.
  - rewrite IH.
    2:{ intros k' v'. rewrite copy_bound_prefixes_lookup by done.
        intros [?|[??]]; auto. }
    rewrite copy_bound_prefixes_lookup by done.
    rewrite elem_of_cons. ptauto.
Qed.

Lemma derive_update_prefixes_lookup (prefixes : gmap string string)
    (update_namespaces : gset string) (k v : string) :
  derive_update_prefixes prefixes update_namespaces !! k = Some v ↔
    prefixes !! k = Some v ∧ v ∈ update_namespaces.
Proof.
  unfold derive_update_prefixes.
  rewrite derive_outer_lookup by (intros ??; by rewrite lookup_empty).
  rewrite lookup_empty, elem_of_elements.
  split; [intros [?|?]; [discriminate|done]|by right].
Qed.

(** *** The claims that hold for every server *)

(** C1 (as amended). The diff taken before an update splits the triples
    into three pairwise disjoint sets, [overlap], [removed] and [added];
    [added] with [overlap] is the canonical form of the working graph and
    [removed] with [overlap] is the canonical form of the snapshot graph.
    The canonical form renames blank nodes; when neither graph has a blank
    node the two unions are the working graph and the snapshot graph
    themselves. *)
Theorem diff_graph_partitions_canonical (G G2 : Graph) :
  let d := diff_of_graphs bnode_labels G G2 in
  overlap d ## removed d ∧ overlap d ## added d ∧ removed d ## added d ∧
  added d ∪ overlap d = to_canonical_graph bnode_labels G2 ∧
  removed d ∪ overlap d = to_canonical_graph bnode_labels G ∧
  (ground G → ground G2 →
   added d ∪ overlap d = G2 ∧ removed d ∪ overlap d = G).
Proof.
  cbn zeta. unfold diff_of_graphs, graph_diff, to_isomorphic. cbn.
  set (cg1 := to_canonical_graph bnode_labels G).
  set (cg2 := to_canonical_graph bnode_labels G2).
  assert (Hadded : cg2 ∖ cg1 ∪ cg1 ∩ cg2 = cg2)
    by apply difference_union_intersection.
  assert (Hremoved : cg1 ∖ cg2 ∪ cg1 ∩ cg2 = cg1).
  { apply set_eq. intros x.
    rewrite elem_of_union, elem_of_difference, elem_of_intersection.
    destruct (decide (x ∈ cg2)); ptauto. }
  repeat split.
  - intros x. rewrite elem_of_intersection, elem_of_difference. ptauto.
  - intros x. rewrite elem_of_intersection, elem_of_difference. ptauto.
  - intros x. rewrite !elem_of_difference. ptauto.
  - exact Hadded.
  - exact Hremoved.
  - rewrite Hadded. subst cg2. by apply to_canonical_graph_ground.
  - rewrite Hremoved. subst cg1. by apply to_canonical_graph_ground.
Qed.

(** C4 (as amended). [exists] is set from an HTTP status in two places.
    The constructor makes it true exactly when the status it is given is
    200 (a resource constructed from a 201 response has [exists = false]),
    and records that status. [check_exists] leaves it true exactly when the
    probe answered 200, or answered something other than 200, 404 and 410
    while it was true before. *)
Theorem exists_true_iff_status_200 (u : PyUri) (payload : option string)
    (hdrs : gmap string string) (status : option Z)
    (self : Resource) (w : TheWorld) :
  let constructed :=
    (Resource_init rdf_parse namespaces_after_bind compute_qname
                   u payload hdrs status self w).1.2 in
  let response := (send (server w) (plain_request HEAD (uri self))).1 in
  let checked := (check_exists send self w).1.2 in
  (exists_ constructed = true ↔ status = Some 200) ∧
  status_code constructed = status ∧
  (exists_ checked = true ↔
     (resp_status response = 200 ∨
      ((resp_status response ∉ [200; 404; 410]) ∧ exists_ self = true))).
Proof.
  cbn zeta. split; [|split].
  - destruct (Resource_init_sets_status u payload hdrs status self w) as [-> _].
    apply bool_decide_eq_true.
  - apply Resource_init_sets_status.
  - rewrite check_exists_unfold. cbn zeta.
    set (st := resp_status _).
    rewrite !not_elem_of_cons.
    pose proof (not_elem_of_nil st) as Hnil.
    repeat case_decide; destruct self;
      cbn [snd fst exists_ set_exists set_status_code];
      clear_functions; intuition (first [lia|discriminate|done]).
Qed.

(** C5. With the type probe answering 404, [get_resource] returns [False];
    [refresh] compares [type(False)] with the class of the resource before it
    looks at the value, so it raises and leaves the resource as it was: the
    branch that would empty the attributes is never reached. *)
Theorem refresh_gone_raises (self : Resource) (w : TheWorld) :
  let target := probe_uri (parse_uri (repo self) (RefUri (uri self))) in
  resp_status (send (server w) (plain_request HEAD target)).1 = 404 →
  refresh send rdf_parse namespaces_after_bind compute_qname self w
  = (Raise (Exception
       ("Instantiated <class 'bool'>, but repository reports this resource is "
        ++ type_repr (class_type (rtype self)))),
     self,
     {| server := (send (server w) (plain_request HEAD target)).2;
        log := log w ++ [plain_request HEAD target] |}).
Proof. intros target. apply refresh_404. Qed.

(** C6. After a [delete] that the server confirmed with 204 the resource
    has [exists = false], empty headers and status 404, but [self.rdf] is
    [None]: there is no snapshot graph and no working graph any more. *)
Theorem delete_confirmed_leaves_rdf_None (remove_tombstone : bool)
    (self : Resource) (w : TheWorld) :
  resp_status (send (server w) (plain_request DELETE (uri self))).1 = 204 →
  let '(result, self', _) :=
    delete send rdf_parse namespaces_after_bind compute_qname
           remove_tombstone self w in
  result = Ok true ∧ exists_ self' = false ∧ headers self' = ∅ ∧
  status_code self' = Some 404 ∧ rdf self' = None.
Proof.
  intros H204. rewrite delete_unfold. cbn zeta.
  rewrite decide_True by done.
  rewrite _empty_resource_attributes_unfold. cbn. done.
Qed.

(** C8. [delete] returns [True] whatever the server answered, and never
    raises; [update] of an RDF resource whose query could be built returns
    [None] when the answer to the [PATCH] is not 204. *)
Theorem delete_and_update_swallow_status (self : Resource) (w : TheWorld) :
  (∀ remove_tombstone,
     (delete send rdf_parse namespaces_after_bind compute_qname
             remove_tombstone self w).1.1 = Ok true) ∧
  (∀ rd q refresh_after,
     rtype self ≠ NonRDFSource →
     rdf self = Some rd →
     build_query rdf_serialize compute_qname (prefixes rd)
       (diff_of_graphs bnode_labels (_orig_graph rd) (graph rd)) = Ok q →
     resp_status (send (server w)
       {| verb := PATCH; req_uri := uri self; req_data := Some (Bytes q);
          req_headers := Some {["Content-Type" := "application/sparql-update"]};
          req_stream := false |}).1 ≠ 204 →
     (update send rdf_parse rdf_serialize namespaces_after_bind compute_qname
             bnode_labels false refresh_after self w).1.1 = Ok update_None).
Proof.
  split.
  - intros remove_tombstone. by rewrite delete_unfold.
  - intros rd q refresh_after Htype Hrdf Hq Hstatus.
    unfold update. msimpl.
    rewrite (_diff_graph_unfold _ _ rd Hrdf).
    unfold the_diffs, the_rdf. msimpl. destruct self; cbn in *. subst.
    rewrite Hq. cbn.
    rewrite http_request_other by done. cbn.
    rewrite decide_False by done. msimpl.
    by rewrite decide_False by done.
Qed.

(** C9. [keep_alive] against a transaction root that answers 404 raises;
    the [active] flag keeps its value. *)
Theorem keep_alive_404_raises (self : Transaction) (w : TheWorld) :
  let rq := plain_request POST (root (txn_repo self) ++ "fcr:tx") in
  resp_status (send (server w) rq).1 = 404 →
  keep_alive send self w
  = (Raise (Exception "HTTP 404, could not continue transaction"), self,
     {| server := (send (server w) rq).2; log := log w ++ [rq] |}).
Proof.
  intros rq H404. rewrite keep_alive_unfold. cbn zeta. fold rq.
  rewrite H404. reflexivity.
Qed.

(** What does hold of C9: on 410 [keep_alive] returns [False] and
    deactivates; [commit] and [rollback] go through [_close], which returns
    [False] on 404 and 410, [True] on 204, and deactivates in all three. *)
Lemma transaction_gone_or_closed (self : Transaction) (w : TheWorld)
    (close_type : string) :
  let alive := plain_request POST (root (txn_repo self) ++ "fcr:tx") in
  let closing := plain_request POST
                   (root (txn_repo self) ++ "fcr:tx/fcr:" ++ close_type) in
  (resp_status (send (server w) alive).1 = 410 →
   (keep_alive send self w).1 = (Ok false, set_active false self)) ∧
  (resp_status (send (server w) closing).1 ∈ [404; 410] →
   (_close send close_type self w).1 = (Ok false, set_active false self)) ∧
  (resp_status (send (server w) closing).1 = 204 →
   (_close send close_type self w).1 = (Ok true, set_active false self)) ∧
  commit send = _close send "commit" ∧
  rollback send = _close send "rollback".
Proof.
  cbn zeta. repeat split.
  - intros H. rewrite keep_alive_unfold. cbn zeta. rewrite H. reflexivity.
  - intros H. rewrite close_unfold. cbn zeta.
    rewrite !elem_of_cons, elem_of_nil in H.
    destruct H as [H|[H|[]]]; rewrite H; reflexivity.
  - intros H. rewrite close_unfold. cbn zeta. rewrite H. reflexivity.
Qed.

(** C10. [check_exists] returns for every response status. It records the
    status and issues one [HEAD]; when the status is none of 200, 404 and
    410 the [exists] flag keeps its value, and that value is returned. *)
Theorem check_exists_other_status_keeps_exists (self : Resource) (w : TheWorld) :
  let response := (send (server w) (plain_request HEAD (uri self))).1 in
  let '(result, self', w') := check_exists send self w in
  is_ok result = true ∧
  status_code self' = Some (resp_status response) ∧
  log w' = (log w ++ [plain_request HEAD (uri self)])%list ∧
  (resp_status response ∉ [200; 404; 410] →
   exists_ self' = exists_ self ∧ result = Ok (exists_ self)).
Proof.
  cbn zeta. rewrite check_exists_unfold. cbn zeta.
  split; [done|]. split; [by repeat case_decide; destruct self|].
  split; [done|].
  rewrite !elem_of_cons, elem_of_nil. intros Hother.
  rewrite !decide_False by ptauto. by destruct self.
Qed.

Lemma derive_update_namespaces_ok (d : Diffs) :
  (∀ t, t ∈ overlap d ∪ removed d ∪ added d → is_Some (compute_qname (t.1.2))) →
  ∃ update_namespaces,
    derive_update_namespaces compute_qname d = Ok update_namespaces ∧
    ∀ ns, ns ∈ update_namespaces ↔
      ∃ t pfx nm, t ∈ overlap d ∪ removed d ∪ added d ∧
                  compute_qname (t.1.2) = Some (pfx, ns, nm).
Proof.
  intros Hall.
  assert (Hmem : ∀ t, t ∈ (elements (overlap d) ++ elements (removed d)
                             ++ elements (added d))%list
                      ↔ t ∈ overlap d ∪ removed d ∪ added d).
  { intros t. rewrite !elem_of_app, !elem_of_elements, !elem_of_union. ptauto. }
  destruct (mapM_predicate_namespace
              (elements (overlap d) ++ elements (removed d)
               ++ elements (added d))%list)
    as (uris & Hmap & Huris).
  { intros t Ht. apply Hall. by apply Hmem. }
  exists (list_to_set uris). split.
  - unfold derive_update_namespaces. by rewrite Hmap.
  - intros ns. rewrite elem_of_list_to_set, Huris.
    split; intros (t & pfx & nm & Hin & Hq); exists t, pfx, nm;
      (split; [by apply Hmem|done]).
Qed.

(** C7 (as amended). Building the update document does not look for missing
    prefix bindings. Whenever rdflib can split every predicate of the three
    partitions and can serialize the removed and the added partition, the
    document is built: its [PREFIX] lines are exactly the entries of the
    prefix table whose namespace URI some predicate refers to, followed by
    the [DELETE] and [INSERT] blocks and the empty [WHERE]. A referenced
    namespace URI that no prefix is bound to contributes no line and causes
    no failure. *)
Theorem build_query_skips_unbound_namespaces (prefixes : gmap string string)
    (d : Diffs) :
  (∀ t, t ∈ overlap d ∪ removed d ∪ added d → is_Some (compute_qname (t.1.2))) →
  is_Some (rdf_serialize "nt" (removed d)) →
  is_Some (rdf_serialize "nt" (added d)) →
  ∃ update_namespaces update_prefixes removed_serialized added_serialized,
    _derive_namespaces compute_qname prefixes d
      = Ok (update_namespaces, update_prefixes) ∧
    rdf_serialize "nt" (removed d) = Some removed_serialized ∧
    rdf_serialize "nt" (added d) = Some added_serialized ∧
    build_query rdf_serialize compute_qname prefixes d
      = Ok (prefix_lines update_prefixes
            ++ newline ++ "DELETE {" ++ newline ++ removed_serialized ++ "}"
            ++ newline ++ newline
            ++ newline ++ "INSERT {" ++ newline ++ added_serialized ++ "}"
            ++ newline ++ newline
            ++ "WHERE {}") ∧
    (∀ ns, ns ∈ update_namespaces ↔
       ∃ t pfx nm, t ∈ overlap d ∪ removed d ∪ added d ∧
                   compute_qname (t.1.2) = Some (pfx, ns, nm)) ∧
    (∀ k v, update_prefixes !! k = Some v ↔
       prefixes !! k = Some v ∧ v ∈ update_namespaces).
Proof.
  intros Hall [removed_serialized Hremoved] [added_serialized Hadded].
  destruct (derive_update_namespaces_ok d Hall) as (update_namespaces & Hns & Hchar).
  exists update_namespaces, (derive_update_prefixes prefixes update_namespaces),
         removed_serialized, added_serialized.
  assert (Hderive : _derive_namespaces compute_qname prefixes d
            = Ok (update_namespaces,
                  derive_update_prefixes prefixes update_namespaces)).
  { unfold _derive_namespaces. by rewrite Hns. }
  split; [done|]. split; [done|]. split; [done|]. split; [|split].
  - unfold build_query, serialize_nt. rewrite Hderive, Hremoved, Hadded.
    reflexivity.
  - exact Hchar.
  - intros k v. apply derive_update_prefixes_lookup.
Qed.

(** *** Splitting strings *)

Lemma append_cons (c : ascii) (s r : string) :
  String c s ++ r = String c (s ++ r).
Proof. reflexivity. Qed.

Lemma append_empty_r (s : string) : s ++ "" = s.
Proof. induction s as [|c s IH]; [done|]. by rewrite append_cons, IH. Qed.

Lemma append_assoc (s1 s2 s3 : string) : (s1 ++ s2) ++ s3 = s1 ++ s2 ++ s3.
Proof.
  induction s1 as [|c s1 IH]; [done|]. by rewrite !append_cons, IH.
Qed.

Lemma prefix_empty (s : string) : String.prefix "" s = true.
Proof. by destruct s. Qed.

Lemma prefix_cons (a b : ascii) (p s : string) :
  String.prefix (String a p) (String b s)
  = if Ascii.ascii_dec a b then String.prefix p s else false.
Proof. reflexivity. Qed.

Lemma contains_tail (sub : string) (c : ascii) (s : string) :
  PyStr.contains sub (String c s) = false → PyStr.contains sub s = false.
Proof. cbn. intros H. by apply orb_false_iff in H as [_ H]. Qed.

Lemma contains_head (sub s : string) :
  PyStr.contains sub s = false → PyStr.startswith sub s = false.
Proof. destruct s; cbn; intros H; by apply orb_false_iff in H as [H _]. Qed.

(** A piece without [", "] in it, followed by the separator. *)
Lemma split_go_comma_piece (x cur rest : string) :
  PyStr.contains ", " x = false →
  PyStr.split_go ", " 0 cur (x ++ ", " ++ rest)
  = (cur ++ x) :: PyStr.split_go ", " 0 "" rest.
Proof.
  revert cur. induction x as [|c x IH]; intros cur Hx.
  - change ("" ++ ", " ++ rest) with (String "," (String " " rest)).
    cbn. rewrite prefix_empty. by rewrite append_empty_r.
  - pose proof (contains_head _ _ Hx) as Hhead.
    apply contains_tail in Hx.
    rewrite append_cons.
    cbn [PyStr.split_go].
    assert (Hno : PyStr.startswith ", " (String c (x ++ ", " ++ rest)) = false).
    { unfold PyStr.startswith in *. rewrite prefix_cons in *.
      destruct (Ascii.ascii_dec "," c); [|done].
      destruct x as [|c' x].
      - change ("" ++ ", " ++ rest) with (String "," (String " " rest)).
        rewrite prefix_cons. by destruct (Ascii.ascii_dec " " ",").
      - rewrite append_cons. rewrite prefix_cons in *.
        destruct (Ascii.ascii_dec " " c'); [|done].
        by rewrite prefix_empty in Hhead. }
    rewrite Hno, IH by done.
    by rewrite append_assoc.
Qed.

(** The last piece: no separator up to the end of the string. *)
Lemma split_go_comma_last (x cur : string) :
  PyStr.contains ", " x = false →
  PyStr.split_go ", " 0 cur x = [cur ++ x].
Proof.
  revert cur. induction x as [|c x IH]; intros cur Hx.
  - cbn. by rewrite append_empty_r.
  - pose proof (contains_head _ _ Hx) as Hhead.
    apply contains_tail in Hx.
    cbn [PyStr.split_go]. rewrite Hhead, IH by done.
    by rewrite append_assoc.
Qed.

(** [', '.join(pieces).split(', ')] gives the pieces back. *)
Lemma split_concat_comma (pieces : list string) :
  pieces ≠ [] →
  Forall (λ x, PyStr.contains ", " x = false) pieces →
  PyStr.split ", " (String.concat ", " pieces) = pieces.
Proof.
  unfold PyStr.split.
  induction pieces as [|x pieces IH]; intros Hne Hall; [done|].
  apply Forall_cons in Hall as [Hx Hall].
  destruct pieces as [|y pieces].
  - cbn [String.concat]. by rewrite split_go_comma_last.
  - change (String.concat ", " (x :: y :: pieces))
      with (x ++ ", " ++ String.concat ", " (y :: pieces)).
    rewrite split_go_comma_piece by done.
    change ("" ++ x) with x.
    by rewrite IH.
Qed.

Lemma split_go_semicolon_head (s cur : string) :
  head (PyStr.split_go ";" 0 cur s) = Some (cur ++ before_semicolon s).
Proof.
  revert cur. induction s as [|c s IH]; intros cur.
  - cbn. by rewrite append_empty_r.
  - cbn [PyStr.split_go before_semicolon].
    unfold PyStr.startswith. rewrite prefix_cons.
    destruct (Ascii.ascii_dec ";" c).
    + rewrite prefix_empty. cbn. by rewrite append_empty_r.
    + rewrite IH. by rewrite append_assoc.
Qed.

Lemma before_semicolon_app_no (s r : string) :
  PyStr.contains ";" s = false →
  before_semicolon (s ++ r) = s ++ before_semicolon r.
Proof.
  induction s as [|c s IH]; intros Hs; [done|].
  pose proof (contains_head _ _ Hs) as Hhead.
  apply contains_tail in Hs.
  rewrite append_cons. cbn [before_semicolon].
  unfold PyStr.startswith in Hhead. rewrite prefix_cons in Hhead.
  destruct (Ascii.ascii_dec ";" c); [by rewrite prefix_empty in Hhead|].
  by rewrite IH.
Qed.

(** *** Reading a rendered [Link] header back *)

Lemma startswith_app (p s r : string) :
  PyStr.startswith p s = true → PyStr.startswith p (s ++ r) = true.
Proof.
  unfold PyStr.startswith. revert s.
  induction p as [|a p IH]; intros s Hs; [apply prefix_empty|].
  destruct s as [|b s]; [done|].
  rewrite append_cons, prefix_cons in *.
  destruct (Ascii.ascii_dec a b); [by apply IH|done].
Qed.

Lemma before_semicolon_params (ps : list string) :
  before_semicolon (String.concat "" ((λ p, ";" ++ p) <$> ps)) = "".
Proof.
  destruct ps as [|p ps]; [done|].
  rewrite fmap_cons. cbn [String.concat].
  destruct ((λ p, ";" ++ p) <$> ps); reflexivity.
Qed.

(** The text before the first semicolon of a link-value whose target has
    no [>] is [<T>] only when the target is [T]. *)
Lemma before_semicolon_target (t T rest : string) :
  PyStr.contains ">" t = false →
  PyStr.contains ">" T = false →
  before_semicolon (t ++ ">" ++ rest) = T ++ ">" →
  t = T.
Proof.
  revert T. induction t as [|c t IH]; intros T Ht HT Heq.
  - change ("" ++ ">" ++ rest) with (String ">" rest) in Heq.
    cbn [before_semicolon] in Heq.
    destruct (Ascii.ascii_dec ";" ">") as [e|_]; [discriminate e|].
    destruct T as [|a T]; [done|]. rewrite append_cons in Heq.
    injection Heq as <- _.
    apply contains_head in HT. unfold PyStr.startswith in HT.
    rewrite prefix_cons, prefix_empty in HT.
    by destruct (Ascii.ascii_dec ">" ">").
  - pose proof (contains_head _ _ Ht) as Hhead.
    apply contains_tail in Ht.
    rewrite append_cons in Heq. cbn [before_semicolon] in Heq.
    destruct (Ascii.ascii_dec ";" c) as [_|_].
    + destruct T; discriminate Heq.
    + destruct T as [|a T].
      * change ("" ++ ">") with (String ">" "") in Heq.
        injection Heq as -> _.
        unfold PyStr.startswith in Hhead.
        rewrite prefix_cons, prefix_empty in Hhead.
        by destruct (Ascii.ascii_dec ">" ">").
      * pose proof (contains_tail _ _ _ HT) as HT'.
        rewrite append_cons in Heq. injection Heq as -> Heq.
        f_equal. by apply IH.
Qed.

Lemma parse_links_rendered (ls : list LinkValue) :
  Forall well_formed_link ls →
  parse_links (render_link_header ls)
  = (λ l, before_semicolon (render_link_value l)) <$>
      filter (λ l, PyStr.startswith "<http://www.w3.org/ns/ldp#"
                                    (render_link_value l) = true) ls.
Proof.
  intros Hwf. unfold parse_links, render_link_header.
  destruct ls as [|l ls]; [done|].
  rewrite split_concat_comma.
  - generalize (l :: ls). intros ls'. clear.
    induction ls' as [|l' ls' IH]; [done|].
    rewrite fmap_cons, !filter_cons.
    destruct (decide (PyStr.startswith _ (render_link_value l') = true)).
    + rewrite !fmap_cons, IH. f_equal.
      unfold PyStr.split. by rewrite split_go_semicolon_head.
    + exact IH.
  - done.
  - apply Forall_fmap. eapply Forall_impl; [exact Hwf|]. by intros ? [? _].
Qed.

Lemma render_link_value_target (P name : string) (l : LinkValue) :
  target l = P ++ name →
  render_link_value l
  = (String "<" P ++ name ++ ">")
    ++ String.concat "" ((λ p, ";" ++ p) <$> params l).
Proof.
  intros Ht. unfold render_link_value. rewrite Ht.
  rewrite !append_cons. change ("" ++ ?x) with x.
  by rewrite !append_assoc.
Qed.

Lemma render_link_value_before_semicolon (P name : string) (l : LinkValue) :
  PyStr.contains ">" (target l) = false →
  PyStr.contains ">" (P ++ name) = false →
  before_semicolon (render_link_value l) = String "<" P ++ name ++ ">" →
  target l = P ++ name.
Proof.
  intros Ht HT Heq. unfold render_link_value in Heq.
  rewrite !append_cons in Heq. change ("" ++ ?x) with x in Heq.
  cbn [before_semicolon] in Heq.
  destruct (Ascii.ascii_dec ";" "<") as [e|_]; [discriminate e|].
  injection Heq as Heq. rewrite <- append_assoc in Heq.
  by apply before_semicolon_target in Heq.
Qed.

(** One of the four type URIs is among the parsed links exactly when a
    link-value of the header has it as target. *)
Lemma parsed_link_iff_declared (name : string) (ls : list LinkValue) :
  Forall well_formed_link ls →
  PyStr.contains ">" ("http://www.w3.org/ns/ldp#" ++ name) = false →
  PyStr.contains ";" ("<http://www.w3.org/ns/ldp#" ++ name ++ ">") = false →
  py_in ("<http://www.w3.org/ns/ldp#" ++ name ++ ">")
        (parse_links (render_link_header ls))
  = declares name ls.
Proof.
  intros Hwf Hgt Hsemi. unfold py_in, declares.
  apply bool_decide_ext.
  rewrite parse_links_rendered by done.
  rewrite list_elem_of_fmap, Exists_exists.
  split.
  - intros (l & Heq & Hin). apply list_elem_of_filter in Hin as [_ Hin].
    exists l. split; [done|].
    rewrite Forall_forall in Hwf. destruct (Hwf l Hin) as [_ Ht].
    symmetry in Heq.
    by apply (render_link_value_before_semicolon "http://www.w3.org/ns/ldp#").
  - intros (l & Hin & Ht). exists l.
    apply (render_link_value_target "http://www.w3.org/ns/ldp#") in Ht as Hrender.
    split.
    + rewrite Hrender, before_semicolon_app_no by done.
      by rewrite before_semicolon_params, append_empty_r.
    + apply list_elem_of_filter. split; [|done].
      rewrite Hrender. apply startswith_app.
      apply (startswith_app _ "<http://www.w3.org/ns/ldp#"). reflexivity.
Qed.

Lemma select_resource_type_rendered (ls : list LinkValue) :
  Forall well_formed_link ls →
  select_resource_type (parse_links (render_link_header ls))
  = resolve_by_priority ls.
Proof.
  intros Hwf. unfold select_resource_type, resolve_by_priority.
  unfold ldp_NonRDFSource, ldp_BasicContainer, ldp_DirectContainer,
         ldp_IndirectContainer.
  rewrite <- !(parsed_link_iff_declared _ ls Hwf) by reflexivity.
  reflexivity.
Qed.

(** C2 (as amended). For a response that carries a [Link] header made of
    well-formed link-values, the resolver returns the first declared type
    in the order NonRDFSource, BasicContainer, DirectContainer,
    IndirectContainer: the matching class when exactly one of the four is
    declared, the higher-priority one when several are, and [False] ("type
    unknown") when none is. *)
Theorem parse_resource_type_resolves_by_priority {O} (response : Response)
    (ls : list LinkValue) (o : O) (w : TheWorld) :
  resp_headers response !! "Link" = Some (render_link_header ls) →
  Forall well_formed_link ls →
  let result := resolve_by_priority ls in
  parse_resource_type response o w = (Ok result, o, w) ∧
  (declares "NonRDFSource" ls = true → result = Some NonRDFSource) ∧
  (declares "NonRDFSource" ls = false → declares "BasicContainer" ls = true →
   result = Some BasicContainer) ∧
  (declares "NonRDFSource" ls = false → declares "BasicContainer" ls = false →
   declares "DirectContainer" ls = true → result = Some DirectContainer) ∧
  (declares "NonRDFSource" ls = false → declares "BasicContainer" ls = false →
   declares "DirectContainer" ls = false →
   declares "IndirectContainer" ls = true → result = Some IndirectContainer) ∧
  (declares "NonRDFSource" ls = false → declares "BasicContainer" ls = false →
   declares "DirectContainer" ls = false →
   declares "IndirectContainer" ls = false → result = None).
Proof.
  intros Hlink Hwf result. split.
  - unfold parse_resource_type. msimpl. rewrite Hlink. msimpl.
    by rewrite select_resource_type_rendered.
  - subst result. unfold resolve_by_priority.
    repeat split; intros; by repeat match goal with H : _ = _ |- _ => rewrite H end.
Qed.

(** *** create *)

(** An RDF resource that does not exist yet sends its serialized graph
    with the verb chosen by [specify_uri]; what follows is
    [_handle_create] on the response. *)
Lemma create_unfold (fuel : nat) (specify_uri ignore_tombstone : bool)
    (serialization_format : option string) (stream refresh_after : bool)
    (self : Resource) (w : TheWorld) (rd : Rdf) (body : string) :
  exists_ self = false → rtype self ≠ NonRDFSource → rdf self = Some rd →
  let fmt := if truthy_str serialization_format
             then default "" serialization_format
             else default_serialization (repo self) in
  rdf_serialize fmt (graph rd) = Some body →
  let self1 := set_headers (<["Content-Type" := fmt]> (headers self)) self in
  let rq := {| verb := if specify_uri then PUT else POST;
               req_uri := uri self; req_data := Some (Bytes body);
               req_headers := Some (headers self1); req_stream := stream |} in
  create send rdf_parse rdf_serialize namespaces_after_bind compute_qname
         (S fuel) specify_uri ignore_tombstone serialization_format stream
         refresh_after self w
  = _handle_create send rdf_parse namespaces_after_bind compute_qname
      (create send rdf_parse rdf_serialize namespaces_after_bind compute_qname
              fuel false false None false true)
      (send (server w) rq).1 ignore_tombstone refresh_after self1
      {| server := (send (server w) rq).2; log := log w ++ [rq] |}.
Proof.
  intros Hex Htype Hrdf fmt Hbody self1 rq.
  cbn [create]. unfold the_rdf. msimpl.
  rewrite Hex, decide_False by done. msimpl. rewrite Hrdf.
  fold fmt. rewrite Hbody. msimpl.
  rewrite http_request_other by (by destruct specify_uri).
  reflexivity.
Qed.

Lemma _handle_create_404 (retry : M Resource bool) (response : Response)
    (ignore_tombstone refresh_after : bool) (self : Resource) (w : TheWorld) :
  resp_status response = 404 →
  _handle_create send rdf_parse namespaces_after_bind compute_qname
                 retry response ignore_tombstone refresh_after self w
  = (Raise (Exception
       "HTTP 404, for this POST request target location does not exist"),
     self, w).
Proof.
  intros H404. unfold _handle_create. msimpl. rewrite H404.
  rewrite decide_False by done. rewrite decide_True by done. reflexivity.
Qed.

Lemma _handle_create_tombstone_cleared (retry : M Resource bool)
    (response : Response) (refresh_after : bool) (self : Resource)
    (w : TheWorld) :
  let clearing := plain_request DELETE (uri self ++ "/fcr:tombstone") in
  let w2 := {| server := (send (server w) clearing).2;
               log := log w ++ [clearing] |} in
  resp_status response = 410 →
  resp_status (send (server w) clearing).1 = 204 →
  _handle_create send rdf_parse namespaces_after_bind compute_qname
                 retry response true refresh_after self w
  = match retry self w2 with
    | (Ok _, self', w') => (Ok true, self', w')
    | (Raise e, self', w') => (Raise e, self', w')
    end.
Proof.
  intros clearing w2 H410 H204. unfold _handle_create. msimpl. rewrite H410.
  do 3 (rewrite decide_False by done). rewrite decide_True by done.
  rewrite http_request_plain by done. fold clearing w2.
  rewrite H204, decide_True by done.
  by destruct (retry self w2) as [[[?|?] ?] ?].
Qed.

(** C3. A create with an explicit URI ([PUT]) and [ignore_tombstone] that
    is answered 410 clears the tombstone once and, when that is confirmed
    with 204, retries once; but the retry is [self.create()] with every
    argument at its default, so the request it sends is a [POST] to the
    same URI in the default serialization, not the original [PUT]. When the
    repository answers that [POST] with 404 (nothing exists at the URI to
    post to) the call raises and the resource keeps [exists = false]. *)
Theorem create_retry_after_tombstone_is_a_POST (fuel : nat)
    (serialization_format : option string) (stream refresh_after : bool)
    (self : Resource) (w : TheWorld) (rd : Rdf) (body retry_body : string) :
  exists_ self = false → rtype self ≠ NonRDFSource → rdf self = Some rd →
  let fmt := if truthy_str serialization_format
             then default "" serialization_format
             else default_serialization (repo self) in
  rdf_serialize fmt (graph rd) = Some body →
  rdf_serialize (default_serialization (repo self)) (graph rd)
    = Some retry_body →
  let headers1 := <["Content-Type" := fmt]> (headers self) in
  let headers3 := <["Content-Type" := default_serialization (repo self)]> headers1 in
  let original :=
    {| verb := PUT; req_uri := uri self;
       req_data := Some (Bytes body);
       req_headers := Some headers1; req_stream := stream |} in
  let clearing := plain_request DELETE (uri self ++ "/fcr:tombstone") in
  let retried :=
    {| verb := POST; req_uri := uri self;
       req_data := Some (Bytes retry_body);
       req_headers := Some headers3; req_stream := false |} in
  let answer1 := send (server w) original in
  let answer2 := send answer1.2 clearing in
  let answer3 := send answer2.2 retried in
  resp_status answer1.1 = 410 →
  resp_status answer2.1 = 204 →
  resp_status answer3.1 = 404 →
  create send rdf_parse rdf_serialize namespaces_after_bind compute_qname
         (S (S fuel)) true true serialization_format stream refresh_after
         self w
  = (Raise (Exception
       "HTTP 404, for this POST request target location does not exist"),
     set_headers headers3 self,
     {| server := answer3.2;
        log := log w ++ [original; clearing; retried] |}).
Proof.
  intros Hex Htype Hrdf fmt Hbody Hretry headers1 headers3 original clearing
         retried answer1 answer2 answer3 H410 H204 H404.
  rewrite (create_unfold _ _ _ _ _ _ _ _ rd body) by done.
  fold fmt. cbn zeta.
  change (set_headers (<["Content-Type" := fmt]> (headers self)) self)
    with (set_headers headers1 self).
  change (headers (set_headers headers1 self)) with headers1.
  fold original answer1.
  rewrite _handle_create_tombstone_cleared by done.
  change (uri (set_headers headers1 self)) with (uri self).
  cbn [server log]. fold clearing answer2.
  rewrite (create_unfold _ _ _ _ _ _ _ _ rd retry_body)
    by (try done; destruct self; done).
  cbn zeta. cbn [truthy_str server log].
  change (set_headers _ (set_headers headers1 self))
    with (set_headers headers3 self).
  change (headers (set_headers headers3 self)) with headers3.
  change (uri (set_headers headers1 self)) with (uri self).
  fold retried answer3.
  rewrite _handle_create_404 by done.
  by rewrite <- !app_assoc.
Qed.

(** *** Further properties: strings and URIs *)

Lemma rev_app_append (s acc : string) :
  String.rev_app s acc = String.rev_app s "" ++ acc.
Proof.
  revert acc. induction s as [|c s IH]; intros acc; [done|].
  cbn [String.rev_app]. rewrite (IH (String c acc)), (IH (String c "")).
  by rewrite append_assoc.
Qed.

Lemma rev_cons (c : ascii) (s : string) :
  String.rev (String c s) = String.rev s ++ String c "".
Proof. unfold String.rev. cbn [String.rev_app]. apply rev_app_append. Qed.

Lemma rev_append (a b : string) :
  String.rev (a ++ b) = String.rev b ++ String.rev a.
Proof.
  induction a as [|c a IH].
  - change ("" ++ b) with b. by rewrite append_empty_r.
  - rewrite append_cons, !rev_cons, IH. by rewrite append_assoc.
Qed.

Lemma rev_involutive (s : string) : String.rev (String.rev s) = s.
Proof.
  induction s as [|c s IH]; [done|].
  by rewrite rev_cons, rev_append, IH.
Qed.

Lemma prefix_refl (p : string) : String.prefix p p = true.
Proof.
  induction p as [|c p IH]; [done|].
  rewrite prefix_cons. by destruct (Ascii.ascii_dec c c).
Qed.

Lemma endswith_append (p s : string) : PyStr.endswith p (s ++ p) = true.
Proof.
  unfold PyStr.endswith. rewrite rev_append.
  apply startswith_app. apply prefix_refl.
Qed.

Lemma endswith_nonempty (p s : string) :
  p ≠ "" → PyStr.endswith p s = true → s ≠ "".
Proof.
  intros Hp Hend ->. unfold PyStr.endswith, PyStr.startswith in Hend.
  assert (String.rev p ≠ "") as Hrev.
  { intros Hrev. apply Hp. by rewrite <- (rev_involutive p), Hrev. }
  by destruct (String.rev p).
Qed.

Lemma append_nonempty (a b : string) : a ≠ "" → a ++ b ≠ "".
Proof. destruct a; [done|]. by rewrite append_cons. Qed.

Lemma Repository_init_root (shared : gmap string string) (r : string)
    (c : gmap string string) (d : string) :
  PyStr.endswith "/" (root (Repository_init shared r c d)) = true.
Proof.
  unfold Repository_init. cbn [root].
  destruct (PyStr.endswith "/" r) eqn:Hend; [done|].
  apply endswith_append.
Qed.

(** X1. The constructor keeps a root that ends with a slash as it is and
    appends one slash to a root that does not, so the stored root always
    ends with a slash. A context that is given is merged into the shared
    class-level dictionary, its entries winning and the other entries of
    the dictionary staying; constructing again with the same arguments from
    the constructed root, in the same process, gives the same repository.
    A transaction is a repository rooted, by the same rule, at the
    transaction URI it is given; it reads the context and the default
    serialization of the repository it was started from, carries the name
    and the expiry it is given, and starts active. *)
Theorem repository_root_ends_with_slash (shared : gmap string string)
    (r : string) (c : gmap string string) (d : string)
    (txn_name txn_uri : string) (e : option string) :
  let rp := Repository_init shared r c d in
  let txn := Transaction_init rp txn_name txn_uri e in
  (PyStr.endswith "/" r = true → root rp = r) ∧
  (PyStr.endswith "/" r = false → root rp = r ++ "/") ∧
  PyStr.endswith "/" (root rp) = true ∧
  default_serialization rp = d ∧
  (∀ k v, c !! k = Some v → context rp !! k = Some v) ∧
  (∀ k, c !! k = None → context rp !! k = shared !! k) ∧
  Repository_init (context rp) (root rp) c d = rp ∧
  (PyStr.endswith "/" txn_uri = true → root (txn_repo txn) = txn_uri) ∧
  (PyStr.endswith "/" txn_uri = false →
   root (txn_repo txn) = txn_uri ++ "/") ∧
  PyStr.endswith "/" (root (txn_repo txn)) = true ∧
  context (txn_repo txn) = context rp ∧
  default_serialization (txn_repo txn) = d ∧
  name txn = txn_name ∧ expires txn = e ∧ active txn = true.
Proof.
  cbn zeta. unfold Transaction_init. cbn [txn_repo name expires active].
  repeat split.
  - intros Hend. unfold Repository_init. cbn [root]. by rewrite Hend.
  - intros Hend. unfold Repository_init. cbn [root]. by rewrite Hend.
  - apply Repository_init_root.
  - intros k v Hk. unfold Repository_init. cbn [context].
    by apply lookup_union_Some_l.
  - intros k Hk. unfold Repository_init. cbn [context].
    by apply lookup_union_r.
  - unfold Repository_init at 1.
    rewrite Repository_init_root. unfold Repository_init. cbn [context root].
    f_equal. rewrite (assoc_L (∪)). by rewrite (idemp_L (∪)).
  - intros Hend. unfold Repository_init. cbn [root]. by rewrite Hend.
  - intros Hend. unfold Repository_init. cbn [root]. by rewrite Hend.
  - apply Repository_init_root.
  - unfold Repository_init. cbn [context]. by rewrite (idemp_L (∪)).
Qed.

(** X2. On a constructed repository [parse_uri] never returns the empty
    URI, and parsing its own result again (as the [URIRef] a resource
    keeps) gives the same URI. A string that does not start with [http] is
    taken as a path under the root; one that does is taken as it is, also
    when it is a relative path such as [httpdocs]. *)
Theorem parse_uri_absolute_and_stable (shared : gmap string string)
    (r : string) (c : gmap string string) (d : string) (u : PyUri) :
  let rp := Repository_init shared r c d in
  parse_uri rp u ≠ "" ∧
  parse_uri rp (RefUri (parse_uri rp u)) = parse_uri rp u ∧
  (∀ s, PyStr.startswith "http" s = false → s ≠ "" →
        parse_uri rp (StrUri s) = root rp ++ s) ∧
  (∀ s, PyStr.startswith "http" s = true → parse_uri rp (StrUri s) = s).
Proof.
  intros rp.
  assert (Hroot : root rp ≠ "").
  { apply (endswith_nonempty "/"); [done|apply Repository_init_root]. }
  assert (Hne : parse_uri rp u ≠ "").
  { destruct u as [|s|s]; cbn [parse_uri]; [done| |].
    - destruct (decide (s = "")); [done|].
      destruct (PyStr.startswith "http" s); cbn [negb]; [done|].
      by apply append_nonempty.
    - by destruct (decide (s = "")). }
  split; [done|]. split; [|split].
  - cbn [parse_uri]. by rewrite decide_False.
  - intros s Hs Hne'. cbn [parse_uri]. rewrite decide_False by done.
    by rewrite Hs.
  - intros s Hs. cbn [parse_uri].
    destruct (decide (s = "")) as [->|]; [done|]. by rewrite Hs.
Qed.

Lemma lstrip_chars_outside (chars : string) (c : ascii) (rest : string) :
  PyStr.contains (String c "") chars = false →
  PyStr.lstrip_chars chars (String c rest) = String c rest.
Proof. intros Hc. cbn [PyStr.lstrip_chars]. by rewrite Hc. Qed.

Lemma lstrip_chars_inside (chars t rest : string) :
  all_chars_in chars t = true →
  PyStr.lstrip_chars chars (t ++ rest) = PyStr.lstrip_chars chars rest.
Proof.
  induction t as [|c t IH]; intros Hall; [done|].
  cbn [all_chars_in] in Hall. apply andb_true_iff in Hall as [Hc Hall].
  rewrite append_cons. cbn [PyStr.lstrip_chars]. rewrite Hc. by apply IH.
Qed.

Lemma all_chars_in_append (chars a b : string) :
  all_chars_in chars (a ++ b)
  = all_chars_in chars a && all_chars_in chars b.
Proof.
  induction a as [|c a IH]; [done|].
  rewrite append_cons. cbn [all_chars_in]. by rewrite IH, andb_assoc.
Qed.

Lemma all_chars_in_rev (chars s : string) :
  all_chars_in chars (String.rev s) = all_chars_in chars s.
Proof.
  induction s as [|c s IH]; [done|].
  rewrite rev_cons, all_chars_in_append, IH. cbn [all_chars_in].
  by rewrite andb_true_r, andb_comm.
Qed.

(** X3. [get_resource] removes a trailing [/fcr:metadata] with [rstrip],
    which strips a set of characters and not a suffix: every trailing
    character that occurs in [/fcr:metadata] goes, so a last path segment
    spelled with those characters only (such as [/data]) is removed with
    it, and the probe goes to the URI before that segment. *)
Theorem probe_uri_strips_a_character_set (base : string) (c : ascii)
    (segment : string) :
  PyStr.contains (String c "") "/fcr:metadata" = false →
  all_chars_in "/fcr:metadata" segment = true →
  probe_uri ((base ++ String c "") ++ segment ++ "/fcr:metadata")
  = base ++ String c "".
Proof.
  intros Hc Hseg. unfold probe_uri.
  rewrite <- (append_assoc _ segment), endswith_append.
  unfold PyStr.rstrip.
  rewrite (append_assoc _ segment), rev_append.
  rewrite lstrip_chars_inside.
  - rewrite rev_append. change (String.rev (String c "")) with (String c "").
    rewrite append_cons. change ("" ++ ?x) with x.
    rewrite lstrip_chars_outside by done.
    by rewrite rev_cons, rev_involutive.
  - rewrite all_chars_in_rev, all_chars_in_append, Hseg. reflexivity.
Qed.

(** X4. An RDF [GET] always goes out with an [Accept] header holding the
    negotiated format. Headers the caller passed are kept beside it only
    when they hold no [Accept] of their own; when they do, the caller's
    [Accept] is replaced by the negotiated format and every other header
    the caller passed is dropped. *)
Theorem http_request_GET_sends_negotiated_Accept {O} (rp : Repository)
    (u : string) (payload : option Payload)
    (hdrs : option (gmap string string)) (response_format : option string)
    (stream : bool) (o : O) (w : TheWorld) :
  let accept := negotiated_format rp response_format in
  ∃ sent,
    let rq := {| verb := GET; req_uri := u; req_data := payload;
                 req_headers := Some sent; req_stream := stream |} in
    http_request send rp GET u payload hdrs response_format true stream o w
    = (Ok (send (server w) rq).1, o,
       {| server := (send (server w) rq).2; log := log w ++ [rq] |}) ∧
    sent !! "Accept" = Some accept ∧
    (∀ h, hdrs = Some h → h !! "Accept" = None →
          ∀ k, k ≠ "Accept" → sent !! k = h !! k) ∧
    (∀ h, hdrs = Some h → is_Some (h !! "Accept") →
          sent = {["Accept" := accept]}).
Proof.
  intros accept. unfold http_request.
  rewrite bool_decide_eq_true_2 by done. cbn [andb].
  fold (negotiated_format rp response_format). fold accept.
  destruct hdrs as [h|].
  - destruct (decide (h = ∅)) as [->|Hne].
    + rewrite (bool_decide_eq_false_2 (∅ ≠ ∅)) by (intros H; by apply H).
      cbn [andb]. exists {["Accept" := accept]}. cbn zeta.
      split; [by destruct (send _ _)|]. split; [apply lookup_singleton_eq|].
      split; [|done].
      intros h [= <-] _ k Hk. by rewrite lookup_singleton_ne, lookup_empty.
    + rewrite (bool_decide_eq_true_2 (h ≠ ∅)) by done. cbn [andb].
      destruct (h !! "Accept") as [a|] eqn:Haccept.
      * rewrite bool_decide_eq_false_2 by done.
        exists {["Accept" := accept]}. cbn zeta.
        split; [by destruct (send _ _)|]. split; [apply lookup_singleton_eq|].
        split; [|done].
        intros h' [= <-] Hnone. by rewrite Hnone in Haccept.
      * rewrite bool_decide_eq_true_2 by done.
        exists (<["Accept" := accept]> h). cbn zeta.
        split; [by destruct (send _ _)|]. split; [apply lookup_insert_eq|].
        split.
        -- intros h' [= <-] _ k Hk. by rewrite lookup_insert_ne.
        -- intros h' [= <-] [a Ha]. by rewrite Ha in Haccept.
  - exists {["Accept" := accept]}. cbn zeta.
    split; [by destruct (send _ _)|]. split; [apply lookup_singleton_eq|].
    split; intros h [=].
Qed.

Lemma contains_of_startswith (sub s : string) :
  PyStr.startswith sub s = true → PyStr.contains sub s = true.
Proof. intros H. destruct s; cbn [PyStr.contains]; by rewrite H. Qed.

Lemma contains_infix (sub a b : string) :
  PyStr.contains sub (a ++ sub ++ b) = true.
Proof.
  induction a as [|c a IH].
  - change (PyStr.contains sub (sub ++ b) = true).
    apply contains_of_startswith, startswith_app, prefix_refl.
  - rewrite append_cons. cbn [PyStr.contains]. rewrite IH. apply orb_true_r.
Qed.

(** X5. [parse_rdf_payload] chooses the parser from the [Content-Type]
    header: without that header it raises [KeyError]; a [text/plain]
    payload, with or without parameters, is parsed as N-Triples; a
    [;charset] parameter is cut off (with everything after the first
    semicolon) before the media type is handed to the parser; any other
    value is handed over as it is. A missing payload raises
    [AttributeError], but only after the header was read. *)
Theorem parse_rdf_payload_chooses_parser {O} (payload : option string)
    (hdrs : gmap string string) (o : O) (w : TheWorld) :
  let outcome := parse_rdf_payload rdf_parse payload hdrs o w in
  (hdrs !! "Content-Type" = None →
   outcome = (Raise (KeyError "Content-Type"), o, w)) ∧
  (∀ content_type, hdrs !! "Content-Type" = Some content_type →
     payload = None →
     outcome = (Raise (AttributeError
                  "'NoneType' object has no attribute 'decode'"), o, w)) ∧
  (∀ content_type d, hdrs !! "Content-Type" = Some content_type →
     payload = Some d →
     (PyStr.startswith "text/plain" content_type = true →
      outcome = (parser_outcome (rdf_parse "application/n-triples" d), o, w)) ∧
     (∀ media rest,
        content_type = media ++ ";charset" ++ rest →
        PyStr.contains ";" media = false →
        PyStr.startswith "text/plain" content_type = false →
        outcome = (parser_outcome (rdf_parse media d), o, w)) ∧
     (PyStr.startswith "text/plain" content_type = false →
      PyStr.contains ";charset" content_type = false →
      outcome = (parser_outcome (rdf_parse content_type d), o, w))).
Proof.
  cbn zeta. unfold parse_rdf_payload. msimpl. split; [|split].
  - by intros ->.
  - by intros content_type -> ->.
  - intros content_type d -> ->. msimpl. split; [|split].
    + intros ->.
      change (PyStr.contains ";charset" "application/n-triples") with false.
      cbv iota. by destruct (rdf_parse _ d).
    + intros media rest -> Hmedia ->.
      rewrite contains_infix. unfold PyStr.split.
      rewrite split_go_semicolon_head. cbn [default].
      change ("" ++ ?x) with x.
      rewrite before_semicolon_app_no by done.
      change (before_semicolon (";charset" ++ rest)) with "".
      rewrite append_empty_r. unfold id. by destruct (rdf_parse media d).
    + intros -> ->. by destruct (rdf_parse content_type d).
Qed.

(** *** Further properties: the working graph *)

Lemma the_rdf_None (attr : string) (self : Resource) (w : TheWorld) :
  rdf self = None →
  the_rdf attr self w
  = (Raise (AttributeError
       ("'NoneType' object has no attribute '" ++ attr ++ "'")), self, w).
Proof. intros Hrdf. unfold the_rdf. msimpl. by rewrite Hrdf. Qed.

Lemma the_rdf_Some (attr : string) (self : Resource) (w : TheWorld) (rd : Rdf) :
  rdf self = Some rd → the_rdf attr self w = (Ok rd, self, w).
Proof. intros Hrdf. unfold the_rdf. msimpl. by rewrite Hrdf. Qed.

Lemma patch_sets (before after : Graph) :
  before ∖ after ⊆ before ∧ (after ∖ before) ## before ∧
  (before ∖ (before ∖ after)) ∪ (after ∖ before) = after ∧
  (before ∖ after = ∅ ∧ after ∖ before = ∅ ↔ before = after).
Proof.
  split; [|split; [|split]].
  - intros x. rewrite elem_of_difference. ptauto.
  - intros x. rewrite elem_of_difference. ptauto.
  - apply set_eq. intros x.
    rewrite elem_of_union, !elem_of_difference.
    destruct (decide (x ∈ before)), (decide (x ∈ after)); ptauto.
  - split.
    + intros [Hr Ha]. apply set_eq. intros x.
      assert (x ∉ before ∖ after) as H1 by (rewrite Hr; apply not_elem_of_empty).
      assert (x ∉ after ∖ before) as H2 by (rewrite Ha; apply not_elem_of_empty).
      rewrite elem_of_difference in H1, H2.
      destruct (decide (x ∈ before)), (decide (x ∈ after)); ptauto.
    + intros ->. split; apply set_eq; intros x;
        rewrite elem_of_difference, elem_of_empty; ptauto.
Qed.

(** X6. The diff is a patch. Without [self.rdf] the method raises and
    changes nothing. With it, the method writes [self.rdf.diffs] and nothing
    else, sends nothing, and the diff it stores turns the canonical snapshot
    graph into the canonical working graph: every removed triple is in the
    snapshot, no added triple is, taking the removed triples out and putting
    the added ones in gives the working graph, and both partitions are empty
    exactly when the two canonical graphs are equal. *)
Theorem diff_graph_is_a_patch (self : Resource) (w : TheWorld) :
  match rdf self with
  | None =>
      _diff_graph bnode_labels self w
      = (Raise (AttributeError
           "'NoneType' object has no attribute '_orig_graph'"), self, w)
  | Some rd =>
      let before := to_canonical_graph bnode_labels (_orig_graph rd) in
      let after := to_canonical_graph bnode_labels (graph rd) in
      ∃ d,
        _diff_graph bnode_labels self w
        = (Ok tt,
           set_rdf (Some {| data := data rd; prefixes := prefixes rd;
                            graph := graph rd; _orig_graph := _orig_graph rd;
                            diffs := Some d |}) self, w) ∧
        removed d ⊆ before ∧ added d ## before ∧
        (before ∖ removed d) ∪ added d = after ∧
        (removed d = ∅ ∧ added d = ∅ ↔ before = after)
  end.
Proof.
  destruct (rdf self) as [rd|] eqn:Hrdf.
  - intros before after. eexists. split; [by apply _diff_graph_unfold|].
    unfold diff_of_graphs, graph_diff, to_isomorphic.
    cbn [removed added]. apply patch_sets.
  - unfold _diff_graph. msimpl. by rewrite the_rdf_None.
Qed.

(** [parse_object_like_triples] returns or raises, and leaves [self] and
    the world as they are. *)
Lemma parse_object_like_triples_frame (self : Resource) (w : TheWorld) :
  ∃ r, parse_object_like_triples compute_qname self w = (r, self, w).
Proof.
  unfold parse_object_like_triples, the_rdf. msimpl.
  destruct (rdf self); [|by eexists].
  destruct (head _); by eexists.
Qed.

(** What [_parse_graph] has done when it returns: the graph it stores, as
    working graph and as snapshot, is the parse of [self.rdf.data] under
    [self.headers] when the resource exists, and a new empty graph when it
    does not. *)
Lemma _parse_graph_result (self self' : Resource) (w w' : TheWorld) :
  _parse_graph rdf_parse namespaces_after_bind compute_qname self w
  = (Ok tt, self', w') →
  w' = w ∧
  ∃ rd g,
    rdf self = Some rd ∧
    (if exists_ self
     then parse_rdf_payload rdf_parse (data rd) (headers self) self w
          = (Ok g, self, w)
     else g = new_graph) ∧
    self' = set_rdf (Some
      {| data := data rd;
         prefixes := foldl (λ acc kv, <[kv.1:=kv.2]> acc) (prefixes rd)
                           (namespaces_after_bind (prefixes rd) g);
         graph := pg_triples g; _orig_graph := pg_triples g;
         diffs := diffs rd |}) self.
Proof.
  unfold _parse_graph. msimpl.
  destruct (rdf self) as [rd|] eqn:Hrdf.
  2:{ rewrite the_rdf_None by done. discriminate. }
  rewrite (the_rdf_Some _ _ _ rd) by done.
  assert (∀ self1,
    parse_object_like_triples compute_qname self1 w = (Ok tt, self', w') →
    w' = w ∧ self' = self1) as Hend.
  { intros self1.
    destruct (parse_object_like_triples_frame self1 w) as [r ->].
    by intros [= _ <- <-]. }
  destruct (exists_ self).
  - destruct (parse_rdf_payload rdf_parse (data rd) (headers self) self w)
      as [[[g|e] self1] w1] eqn:Hparse; [|discriminate].
    assert (self1 = self ∧ w1 = w) as [-> ->].
    { revert Hparse. unfold parse_rdf_payload. msimpl.
      destruct (headers self !! "Content-Type"); [|discriminate].
      destruct (data rd) as [d|]; [|discriminate]. msimpl.
      destruct (rdf_parse _ d); [|discriminate]. by intros [= _ <- <-]. }
    intros Hview. apply Hend in Hview as [-> ->].
    split; [done|]. by exists rd, g.
  - intros Hview. apply Hend in Hview as [-> ->].
    split; [done|]. by exists rd, new_graph.
Qed.

Lemma _parse_graph_ok (self self' : Resource) (w w' : TheWorld) :
  _parse_graph rdf_parse namespaces_after_bind compute_qname self w
  = (Ok tt, self', w') →
  w' = w ∧ ∃ rd, rdf self' = Some rd ∧ graph rd = _orig_graph rd.
Proof.
  intros Hparsed.
  apply _parse_graph_result in Hparsed as (-> & rd & g & _ & _ & ->).
  split; [done|]. eexists. split; [reflexivity|done].
Qed.

(** X7. A graph that was just parsed has nothing to update. When
    [_parse_graph] returns, the working graph and the snapshot are the same
    graph and nothing was sent; the diff taken next has no removed and no
    added triple, and its overlap is the canonical form of the whole
    graph. *)
Theorem parsed_graph_has_empty_diff (self : Resource) (w : TheWorld) :
  let parsed :=
    _parse_graph rdf_parse namespaces_after_bind compute_qname self w in
  is_ok parsed.1.1 = true →
  parsed.2 = w ∧
  ∃ rd d,
    rdf parsed.1.2 = Some rd ∧ graph rd = _orig_graph rd ∧
    (rdf (_diff_graph bnode_labels parsed.1.2 parsed.2).1.2 ≫= diffs) = Some d ∧
    removed d = ∅ ∧ added d = ∅ ∧
    overlap d = to_canonical_graph bnode_labels (graph rd).
Proof.
  intros parsed Hok.
  destruct parsed as [[[[]|e] self'] w'] eqn:Hparsed; [|discriminate].
  cbn [fst snd]. apply _parse_graph_ok in Hparsed as (-> & rd & Hrdf & Hsame).
  split; [done|]. exists rd. eexists. split; [done|]. split; [done|].
  rewrite (_diff_graph_unfold _ _ rd Hrdf). cbn [fst snd].
  split; [by destruct self'|].
  unfold diff_of_graphs, graph_diff, to_isomorphic. cbn [removed added overlap].
  rewrite Hsame. repeat split; apply set_eq; intros x.
  - rewrite elem_of_difference, elem_of_empty. ptauto.
  - rewrite elem_of_difference, elem_of_empty. ptauto.
  - rewrite elem_of_intersection. ptauto.
Qed.

Lemma set_rdf_same (self : Resource) (rd : Rdf) :
  rdf self = Some rd → set_rdf (Some rd) self = self.
Proof. intros <-. by destruct self. Qed.

Lemma set_graph_same (rd : Rdf) (g : Graph) :
  g = graph rd → set_graph g rd = rd.
Proof. intros ->. by destruct rd. Qed.

Lemma set_rdf_twice (v v' : option Rdf) (self : Resource) :
  set_rdf v' (set_rdf v self) = set_rdf v' self.
Proof. done. Qed.

Lemma set_graph_twice (g g' : Graph) (rd : Rdf) :
  set_graph g' (set_graph g rd) = set_graph g' rd.
Proof. done. Qed.

Lemma add_triple_unfold (p : Term) (o : PyObj) (refresh_quick_triples : bool)
    (self : Resource) (w : TheWorld) (rd : Rdf) :
  rdf self = Some rd →
  let self' :=
    set_rdf (Some (set_graph
      (graph rd ∪ {[ (URIRef (uri self), p, _handle_object o) ]}) rd)) self in
  add_triple compute_qname p o refresh_quick_triples self w
  = if refresh_quick_triples
    then parse_object_like_triples compute_qname self' w
    else (Ok tt, self', w).
Proof.
  intros Hrdf self'. unfold add_triple. msimpl.
  rewrite (the_rdf_Some _ _ _ rd Hrdf). fold self'.
  by destruct refresh_quick_triples.
Qed.

Lemma remove_triple_unfold (p : Term) (o : PyObj) (refresh_quick_triples : bool)
    (self : Resource) (w : TheWorld) (rd : Rdf) :
  rdf self = Some rd →
  let self' :=
    set_rdf (Some (set_graph
      (graph rd ∖ {[ (URIRef (uri self), p, _handle_object o) ]}) rd)) self in
  remove_triple compute_qname p o refresh_quick_triples self w
  = if refresh_quick_triples
    then parse_object_like_triples compute_qname self' w
    else (Ok tt, self', w).
Proof.
  intros Hrdf self'. unfold remove_triple. msimpl.
  rewrite (the_rdf_Some _ _ _ rd Hrdf). fold self'.
  by destruct refresh_quick_triples.
Qed.



(** X9. With the refresh of the object-like view switched off,
    [remove_triple] undoes an [add_triple] of a triple the graph did not
    hold, and [add_triple] undoes a [remove_triple] of one it held: the
    resource is back as it was. *)
Theorem add_and_remove_triple_undo_each_other (p : Term) (o : PyObj)
    (self : Resource) (w : TheWorld) (rd : Rdf) :
  rdf self = Some rd →
  let t := (URIRef (uri self), p, _handle_object o) in
  (t ∉ graph rd →
   (add_triple compute_qname p o false;;
    remove_triple compute_qname p o false) self w = (Ok tt, self, w)) ∧
  (t ∈ graph rd →
   (remove_triple compute_qname p o false;;
    add_triple compute_qname p o false) self w = (Ok tt, self, w)).
Proof.
  intros Hrdf t. split; intros Ht; msimpl.
  - rewrite (add_triple_unfold _ _ _ _ _ rd Hrdf). cbn zeta. fold t.
    erewrite remove_triple_unfold by (by destruct self). cbn zeta.
    replace (uri (set_rdf _ self)) with (uri self) by (by destruct self).
    fold t. rewrite set_graph_twice, set_rdf_twice. cbn [graph set_graph].
    rewrite set_graph_same, set_rdf_same; [done..|].
    apply set_eq. intros x.
    rewrite elem_of_difference, elem_of_union, elem_of_singleton.
    split; [ptauto|]. intros Hx. split; [by left|]. by intros ->.
  - rewrite (remove_triple_unfold _ _ _ _ _ rd Hrdf). cbn zeta. fold t.
    erewrite add_triple_unfold by (by destruct self). cbn zeta.
    replace (uri (set_rdf _ self)) with (uri self) by (by destruct self).
    fold t. rewrite set_graph_twice, set_rdf_twice. cbn [graph set_graph].
    rewrite set_graph_same, set_rdf_same; [done..|].
    apply set_eq. intros x.
    rewrite elem_of_union, elem_of_difference, elem_of_singleton.
    destruct (decide (x = t)) as [->|]; ptauto.
Qed.



Lemma ground_union_singleton (g : Graph) (t : Triple) :
  ground g → triple_ground t = true → ground (g ∪ {[ t ]}).
Proof.
  intros Hg Ht x. rewrite elem_of_union, elem_of_singleton.
  intros [Hx| ->]; [by apply Hg|done].
Qed.

Lemma ground_difference (g h : Graph) : ground g → ground (g ∖ h).
Proof.
  intros Hg x. rewrite elem_of_difference. intros [Hx _]. by apply Hg.
Qed.

Lemma canonicalize_bnodes_keeps_ground (g : Graph) (t : Triple) :
  triple_ground (canonicalize_bnodes bnode_labels g t) = triple_ground t.
Proof. destruct t as [[s p] o]. by destruct s, p, o. Qed.

(** The canonical form of a graph without blank nodes that gets one more
    triple: only the new triple can change. *)
Lemma to_canonical_graph_one_more (g : Graph) (t : Triple) :
  ground g →
  to_canonical_graph bnode_labels (g ∪ {[ t ]})
  = g ∪ {[ canonicalize_bnodes bnode_labels (g ∪ {[ t ]}) t ]}.
Proof.
  intros Hg. apply set_eq. intros x. unfold to_canonical_graph.
  rewrite elem_of_map, elem_of_union, elem_of_singleton. split.
  - intros (y & -> & Hy). apply elem_of_union in Hy as [Hy|Hy].
    + left. rewrite canonicalize_bnodes_ground; auto.
    + apply elem_of_singleton in Hy as ->. by right.
  - intros [Hx| ->].
    + exists x. split; [|apply elem_of_union; by left].
      symmetry. apply canonicalize_bnodes_ground. auto.
    + exists t. split; [done|]. apply elem_of_union. right.
      by apply elem_of_singleton.
Qed.

(** X11. From an edit to the patch, on a resource whose working graph is
    still its snapshot and holds no blank node. Adding one triple the graph
    does not hold and taking the diff gives exactly one added triple and
    nothing removed, the overlap being the old graph. The added triple is
    the new one in canonical form: the triple itself when neither its
    predicate nor its object is a blank node, and otherwise the triple with
    each blank node renamed to its canonical label. Removing one triple the
    graph holds gives exactly that triple as removed and nothing as added,
    the overlap being the rest. *)
Theorem one_edit_gives_a_one_triple_patch (p : Term) (o : PyObj)
    (self : Resource) (w : TheWorld) (rd : Rdf) :
  rdf self = Some rd → graph rd = _orig_graph rd → ground (graph rd) →
  let t := (URIRef (uri self), p, _handle_object o) in
  (t ∉ graph rd →
   ∃ d,
     rdf ((add_triple compute_qname p o false;;
           _diff_graph bnode_labels) self w).1.2 ≫= diffs = Some d ∧
     removed d = ∅ ∧
     added d = {[ canonicalize_bnodes bnode_labels (graph rd ∪ {[ t ]}) t ]} ∧
     overlap d = graph rd ∧
     (is_bnode p = false → is_bnode (_handle_object o) = false →
      added d = {[ t ]})) ∧
  (t ∈ graph rd →
   ∃ d,
     rdf ((remove_triple compute_qname p o false;;
           _diff_graph bnode_labels) self w).1.2 ≫= diffs = Some d ∧
     removed d = {[ t ]} ∧ added d = ∅ ∧ overlap d = graph rd ∖ {[ t ]}).
Proof.
  intros Hrdf Hsame Hground t.
  split; intros Hin; eexists; msimpl.
  - rewrite (add_triple_unfold _ _ _ _ _ rd Hrdf). cbn zeta. fold t.
    erewrite _diff_graph_unfold by (by destruct self).
    cbn [fst snd set_graph graph _orig_graph].
    split; [by destruct self|].
    unfold diff_of_graphs, graph_diff, to_isomorphic.
    cbn [removed added overlap].
    rewrite <- Hsame, to_canonical_graph_one_more by done.
    rewrite to_canonical_graph_ground by done.
    remember (canonicalize_bnodes bnode_labels (graph rd ∪ {[ t ]}) t)
      as ct eqn:Ect.
    assert (Hct : ct ∉ graph rd).
    { intros Hct. pose proof (Hground _ Hct) as Hg.
      rewrite Ect, canonicalize_bnodes_keeps_ground in Hg.
      rewrite Ect, canonicalize_bnodes_ground in Hct by done. done. }
    split; [|split; [|split]].
    + apply set_eq. intros x.
      rewrite elem_of_difference, elem_of_union, elem_of_empty. ptauto.
    + apply set_eq. intros x.
      rewrite elem_of_difference, elem_of_union, !elem_of_singleton.
      split.
      * intros [[Hx|Hx] Hn]; [done|]. rewrite Ect. exact Hx.
      * intros ->. split; [right; rewrite Ect; reflexivity|done].
    + apply set_eq. intros x.
      rewrite elem_of_intersection, elem_of_union. ptauto.
    + intros Hp Ho.
      assert (Ht : triple_ground t = true)
        by (subst t; cbn; by rewrite Hp, Ho).
      assert (ct = t) as Heq
        by (rewrite Ect; by apply canonicalize_bnodes_ground).
      rewrite Heq in Hct. apply set_eq. intros x.
      rewrite elem_of_difference, elem_of_union, !elem_of_singleton.
      split.
      * intros [[Hx|Hx] Hn]; [done|]. rewrite <- Heq, Ect. exact Hx.
      * intros ->. split; [|done].
        right. rewrite <- Heq at 1. rewrite Ect. reflexivity.
  - rewrite (remove_triple_unfold _ _ _ _ _ rd Hrdf). cbn zeta. fold t.
    erewrite _diff_graph_unfold by (by destruct self).
    cbn [fst snd set_graph graph _orig_graph].
    split; [by destruct self|].
    unfold diff_of_graphs, graph_diff, to_isomorphic.
    cbn [removed added overlap].
    rewrite !to_canonical_graph_ground
      by (rewrite <- ?Hsame; auto using ground_difference).
    rewrite <- Hsame. repeat split; apply set_eq; intros x.
    + rewrite !elem_of_difference, elem_of_singleton.
      destruct (decide (x = t)) as [->|]; ptauto.
    + rewrite !elem_of_difference, elem_of_empty. ptauto.
    + rewrite elem_of_intersection, elem_of_difference. ptauto.
Qed.

(** *** Further properties: creating a resource *)

Lemma the_binary_Some (self : Resource) (w : TheWorld) (b : Binary) :
  binary self = Some b → the_binary self w = (Ok b, self, w).
Proof. intros Hb. unfold the_binary. msimpl. by rewrite Hb. Qed.

(** X12. What [create] refuses without asking the repository. A resource
    whose [exists] flag is set is refused at once. A [NonRDFSource] that has
    neither a mimetype nor a [Content-Type] header is refused unchanged; one
    that has no data, no location and no [Content-Location] header is
    refused as well. An RDF resource whose [self.rdf] is [None] (as after a
    confirmed [delete]) fails on reading the graph. In all four cases not a
    single request is sent. *)
Theorem create_refusals_send_nothing (fuel : nat)
    (specify_uri ignore_tombstone : bool) (serialization_format : option string)
    (stream refresh_after : bool) (self : Resource) (w : TheWorld) :
  let run :=
    create send rdf_parse rdf_serialize namespaces_after_bind compute_qname
           (S fuel) specify_uri ignore_tombstone serialization_format stream
           refresh_after self w in
  (exists_ self = true →
   run = (Raise (Exception "resource exists attribute True, aborting"),
          self, w)) ∧
  (exists_ self = false → rtype self = NonRDFSource →
   ∀ b, binary self = Some b →
     (truthy_str (mimetype b) = false →
      headers self !! "Content-Type" = None →
      run = (Raise (Exception
               "to create/update NonRDFSource, mimetype or Content-Type header is required"),
             self, w)) ∧
     (truthy_payload (bdata b) = false → truthy_str (location b) = false →
      headers self !! "Content-Location" = None →
      is_ok run.1.1 = false ∧ run.2 = w)) ∧
  (exists_ self = false → rtype self ≠ NonRDFSource → rdf self = None →
   run = (Raise (AttributeError
            "'NoneType' object has no attribute 'graph'"), self, w)).
Proof.
  cbn zeta. cbn [create]. msimpl. split; [|split].
  - by intros ->.
  - intros -> Htype b Hb. rewrite decide_True by done.
    unfold _prep_binary_data, _prep_binary_mimetype, _prep_binary_content.
    msimpl. rewrite (the_binary_Some _ _ b Hb). split.
    + intros -> ->. by rewrite bool_decide_eq_true_2.
    + intros Hdata Hloc Hheader.
      destruct (negb (truthy_str (mimetype b)) && _); [done|].
      destruct (truthy_str (mimetype b) && _).
      * rewrite (the_binary_Some _ _ b) by (by destruct self).
        cbn [headers set_headers].
        rewrite lookup_insert_ne by done.
        rewrite Hdata, Hloc, Hheader.
        by rewrite (bool_decide_eq_false_2 (is_Some None))
          by (by intros [? ?]).
      * rewrite (the_binary_Some _ _ b Hb).
        rewrite Hdata, Hloc, Hheader.
        by rewrite (bool_decide_eq_false_2 (is_Some None))
          by (by intros [? ?]).
  - intros -> Htype Hrdf. rewrite decide_False by done.
    by rewrite the_rdf_None.
Qed.

(** X13. A [create] the repository refuses. For an RDF resource that does
    not exist yet, any answer other than 201 (and other than a 410 that
    [ignore_tombstone] asks to clear) makes [create] raise after exactly one
    request. The resource keeps [exists = false] and its URI, but its
    headers now carry the [Content-Type] of the serialization. The message
    depends on the status only: the one for 404 speaks of a [POST] whatever
    the verb was. *)
Theorem create_refused_raises_after_one_request (fuel : nat)
    (specify_uri ignore_tombstone : bool) (serialization_format : option string)
    (stream refresh_after : bool) (self : Resource) (w : TheWorld)
    (rd : Rdf) (body : string) :
  exists_ self = false → rtype self ≠ NonRDFSource → rdf self = Some rd →
  let fmt := if truthy_str serialization_format
             then default "" serialization_format
             else default_serialization (repo self) in
  rdf_serialize fmt (graph rd) = Some body →
  let self1 := set_headers (<["Content-Type" := fmt]> (headers self)) self in
  let rq := {| verb := if specify_uri then PUT else POST;
               req_uri := uri self; req_data := Some (Bytes body);
               req_headers := Some (headers self1); req_stream := stream |} in
  let status := resp_status (send (server w) rq).1 in
  status ≠ 201 → (status = 410 → ignore_tombstone = false) →
  ∃ msg,
    create send rdf_parse rdf_serialize namespaces_after_bind compute_qname
           (S fuel) specify_uri ignore_tombstone serialization_format stream
           refresh_after self w
    = (Raise (Exception msg), self1,
       {| server := (send (server w) rq).2; log := log w ++ [rq] |}) ∧
    (status = 404 →
     msg = "HTTP 404, for this POST request target location does not exist") ∧
    (status = 409 → msg = "HTTP 409, resource already exists") ∧
    (status = 410 → msg = "tombstone for " ++ uri self ++ " detected, aborting") ∧
    (status = 415 → msg = "HTTP 415, unsupported media type") ∧
    (status ∉ [404; 409; 410; 415] →
     msg = "HTTP " ++ pretty status ++ ", unknown error creating resource").
Proof.
  intros Hex Htype Hrdf fmt Hbody self1 rq status H201 H410.
  rewrite (create_unfold fuel specify_uri ignore_tombstone serialization_format
             stream refresh_after self w rd body Hex Htype Hrdf Hbody).
  cbn zeta. fold fmt self1 rq. unfold _handle_create. msimpl. fold status.
  rewrite (decide_False (P := status = 201)) by done.
  assert (Hother : ∀ n : Z, n ∈ [404; 409; 410; 415] ↔
                            n = 404 ∨ n = 409 ∨ n = 410 ∨ n = 415).
  { intros n. rewrite !elem_of_cons, elem_of_nil. ptauto. }
  destruct (decide (status = 404)) as [E404|N404].
  { eexists. split; [reflexivity|]. rewrite Hother.
    repeat split; intros; first [done|lia|exfalso; clear_functions; tauto]. }
  destruct (decide (status = 409)) as [E409|N409].
  { eexists. split; [reflexivity|]. rewrite Hother.
    repeat split; intros; first [done|lia|exfalso; clear_functions; tauto]. }
  destruct (decide (status = 410)) as [E410|N410].
  { rewrite (H410 E410). replace (uri self1) with (uri self) by (by destruct self).
    eexists. split; [reflexivity|]. rewrite Hother.
    repeat split; intros; first [done|lia|exfalso; clear_functions; tauto]. }
  destruct (decide (status = 415)) as [E415|N415].
  { eexists. split; [reflexivity|]. rewrite Hother.
    repeat split; intros; first [done|lia|exfalso; clear_functions; tauto]. }
  eexists. split; [reflexivity|]. repeat split; intros; done.
Qed.

(** X14. A [create] answered 201 with [refresh] switched off returns
    [True] after that one request and takes its URI from the body of the
    response, read as [parse_uri] reads a string: an empty body makes the
    URI the root of the repository, a path is put under the root. The
    [exists] flag is left false. *)
Theorem create_without_refresh_adopts_the_body_as_uri (fuel : nat)
    (specify_uri ignore_tombstone : bool) (serialization_format : option string)
    (stream : bool) (self : Resource) (w : TheWorld)
    (rd : Rdf) (body : string) :
  exists_ self = false → rtype self ≠ NonRDFSource → rdf self = Some rd →
  let fmt := if truthy_str serialization_format
             then default "" serialization_format
             else default_serialization (repo self) in
  rdf_serialize fmt (graph rd) = Some body →
  let self1 := set_headers (<["Content-Type" := fmt]> (headers self)) self in
  let rq := {| verb := if specify_uri then PUT else POST;
               req_uri := uri self; req_data := Some (Bytes body);
               req_headers := Some (headers self1); req_stream := stream |} in
  let response := (send (server w) rq).1 in
  resp_status response = 201 →
  let run :=
    create send rdf_parse rdf_serialize namespaces_after_bind compute_qname
           (S fuel) specify_uri ignore_tombstone serialization_format stream
           false self w in
  run = (Ok true,
         set_uri (parse_uri (repo self) (StrUri (text response))) self1,
         {| server := (send (server w) rq).2; log := log w ++ [rq] |}) ∧
  exists_ run.1.2 = false ∧
  (text response = "" → uri run.1.2 = root (repo self)).
Proof.
  intros Hex Htype Hrdf fmt Hbody self1 rq response H201 run.
  assert (Hrun : run = (Ok true,
         set_uri (parse_uri (repo self) (StrUri (text response))) self1,
         {| server := (send (server w) rq).2; log := log w ++ [rq] |})).
  { subst run.
    rewrite (create_unfold fuel specify_uri ignore_tombstone
               serialization_format stream false self w rd body
               Hex Htype Hrdf Hbody).
    cbn zeta. fold fmt self1 rq response. unfold _handle_create. msimpl.
    rewrite decide_True by done. msimpl. by destruct self. }
  rewrite Hrun. split; [done|]. cbn [fst snd]. split.
  - by destruct self.
  - intros ->. by destruct self.
Qed.

(** *** Further properties: retrieving a resource *)

Lemma http_request_GET_default {O} (rp : Repository) (u : string)
    (response_format : option string) (o : O) (w : TheWorld) :
  let rq := {| verb := GET; req_uri := u; req_data := None;
               req_headers :=
                 Some {["Accept" := negotiated_format rp response_format]};
               req_stream := false |} in
  http_request send rp GET u None None response_format true false o w
  = (Ok (send (server w) rq).1, o,
     {| server := (send (server w) rq).2; log := log w ++ [rq] |}).
Proof.
  intros rq. unfold http_request. rewrite bool_decide_eq_true_2 by done.
  cbn [andb]. fold (negotiated_format rp response_format). fold rq.
  by destruct (send _ _).
Qed.

(** X15. How [get_resource] fails. The type probe is a [HEAD] of the
    cleaned URI. On 404 the method returns [False], on any status other
    than 200 and 404 it raises; in both cases the metadata is never asked
    for. On 200 without a [Link] header it raises [KeyError] before the
    metadata request; on 200 with a [Link] header that names none of the
    four LDP types, the metadata is fetched (with the negotiated [Accept]
    header) and only then the call of [False] raises [TypeError]. The
    caller's object is never touched. *)
Theorem get_resource_failures {O} (rp : Repository) (u : PyUri)
    (response_format : option string) (o : O) (w : TheWorld) :
  let target := probe_uri (parse_uri rp u) in
  let probe := plain_request HEAD target in
  let head_response := (send (server w) probe).1 in
  let status := resp_status head_response in
  let w1 := {| server := (send (server w) probe).2;
               log := log w ++ [probe] |} in
  let fetch := {| verb := GET; req_uri := target ++ "/fcr:metadata";
                  req_data := None;
                  req_headers :=
                    Some {["Accept" := negotiated_format rp response_format]};
                  req_stream := false |} in
  let w2 := {| server := (send (server w1) fetch).2;
               log := log w1 ++ [fetch] |} in
  let run := get_resource send rdf_parse namespaces_after_bind compute_qname
                          rp u response_format o w in
  (status = 404 → run = (Ok None, o, w1)) ∧
  (status ∉ [200; 404] →
   run = (Raise (Exception ("HTTP " ++ pretty status
                            ++ ", error retrieving resource uri " ++ target)),
          o, w1)) ∧
  (status = 200 →
   match resp_headers head_response !! "Link" with
   | None => run = (Raise (KeyError "Link"), o, w1)
   | Some link =>
       select_resource_type (parse_links link) = None →
       run = (Raise (TypeError "'bool' object is not callable"), o, w2)
   end).
Proof.
  cbn zeta. unfold get_resource. msimpl.
  rewrite http_request_plain by done.
  set (target := probe_uri (parse_uri rp u)).
  set (probe := plain_request HEAD target).
  split; [|split].
  - intros H404. by rewrite decide_True.
  - rewrite !not_elem_of_cons. intros (H200 & H404 & _).
    by rewrite !decide_False.
  - intros H200. rewrite decide_False by (rewrite H200; done).
    rewrite decide_True by done.
    unfold parse_resource_type. msimpl.
    destruct (resp_headers _ !! "Link") as [link|]; [|done].
    intros Hnone. msimpl. rewrite http_request_GET_default. by rewrite Hnone.
Qed.

(** *** Further properties: deleting, moving, copying *)

(** X16. What [delete] sends. It sends a [DELETE] for the resource and,
    when [remove_tombstone] is set, a second one for the tombstone of the
    same URI, whatever the first was answered: also when the resource could
    not be deleted. When the first answer is not 204 the resource is left
    exactly as it was; in every case it keeps its URI, its repository and
    its class. *)
Theorem delete_always_asks_for_the_tombstone (remove_tombstone : bool)
    (self : Resource) (w : TheWorld) :
  let first := plain_request DELETE (uri self) in
  let second := plain_request DELETE (uri self ++ "/fcr:tombstone") in
  let run := delete send rdf_parse namespaces_after_bind compute_qname
                    remove_tombstone self w in
  log run.2 = (log w ++ first :: (if remove_tombstone then [second] else []))%list ∧
  (resp_status (send (server w) first).1 ≠ 204 → run.1.2 = self) ∧
  uri run.1.2 = uri self ∧ repo run.1.2 = repo self ∧
  rtype run.1.2 = rtype self.
Proof.
  cbn zeta. rewrite delete_unfold. cbn zeta. cbn [fst snd].
  split; [|split].
  - destruct remove_tombstone; cbn [log]; [|done].
    by rewrite <- app_assoc.
  - intros H204. by rewrite decide_False.
  - case_decide; [|done].
    by rewrite _empty_resource_attributes_unfold.
Qed.

(** X17. [copy] never changes the resource it is called on, and [move]
    changes only its [exists] flag: after a move that was answered 201 the
    object still carries the old URI, and the tombstone that is cleared is
    the one of the old URI. Both send one request with the parsed
    destination in the [Destination] header, return that destination on
    201, and raise the same message ("could not move") on any other
    status, when nothing else is sent. *)
Theorem move_and_copy_keep_the_uri (destination : PyUri)
    (remove_tombstone : bool) (self : Resource) (w : TheWorld) :
  let destination_uri := parse_uri (repo self) destination in
  let request v := {| verb := v; req_uri := uri self; req_data := None;
                      req_headers := Some {["Destination" := destination_uri]};
                      req_stream := false |} in
  let after v := {| server := (send (server w) (request v)).2;
                    log := log w ++ [request v] |} in
  let status v := resp_status (send (server w) (request v)).1 in
  let failure v :=
    Exception ("HTTP " ++ pretty (status v) ++ ", could not move resource "
               ++ uri self ++ " to " ++ destination_uri) in
  let clearing := plain_request DELETE (uri self ++ "/fcr:tombstone") in
  let copied := copy send destination self w in
  let moved := move send destination remove_tombstone self w in
  copied = (if decide (status COPY = 201) then Ok destination_uri
            else Raise (failure COPY), self, after COPY) ∧
  (status MOVE ≠ 201 → moved = (Raise (failure MOVE), self, after MOVE)) ∧
  (status MOVE = 201 →
   moved.1 = (Ok destination_uri, set_exists false self) ∧
   log moved.2 = (log w ++ request MOVE ::
                   (if remove_tombstone then [clearing] else []))%list).
Proof.
  cbn zeta. unfold copy, move. msimpl.
  rewrite !http_request_other by done. cbn zeta.
  split; [|split].
  - by case_decide.
  - intros Hstatus. by rewrite decide_False.
  - intros Hstatus. rewrite decide_True by done. msimpl.
    destruct remove_tombstone; [|done]. msimpl.
    rewrite http_request_plain by done. cbn [fst snd log].
    split; [done|]. by rewrite <- app_assoc.
Qed.

(** *** Further properties: binary resources *)

(** X18. What [_prep_binary_data] guarantees when it returns. It returns
    exactly when there is a content type (a mimetype or a [Content-Type]
    header) and a content (data, a location or a [Content-Location]
    header). Afterwards the [Content-Type] header is set, a header that was
    there before is kept as it was (the header wins over the mimetype), and
    the delivery is ["header"] exactly when a [Content-Location] header is
    now present and ["payload"] exactly when there is none. The data itself
    is untouched and nothing is sent. *)
Theorem prep_binary_data_postconditions (self : Resource) (w : TheWorld)
    (b : Binary) :
  binary self = Some b →
  let run := _prep_binary_data self w in
  let self' := run.1.2 in
  run.2 = w ∧
  (is_ok run.1.1 = true ↔
     (truthy_str (mimetype b) = true ∨ is_Some (headers self !! "Content-Type")) ∧
     (truthy_payload (bdata b) = true ∨ truthy_str (location b) = true ∨
      is_Some (headers self !! "Content-Location"))) ∧
  (is_ok run.1.1 = true →
   is_Some (headers self' !! "Content-Type") ∧
   (∀ v, headers self !! "Content-Type" = Some v →
         headers self' !! "Content-Type" = Some v) ∧
   (∀ v, headers self !! "Content-Location" = Some v →
         headers self' !! "Content-Location" = Some v) ∧
   ∃ b', binary self' = Some b' ∧ bdata b' = bdata b ∧
         mimetype b' = mimetype b ∧
         (delivery b' = Some "header" ↔
            is_Some (headers self' !! "Content-Location")) ∧
         (delivery b' = Some "payload" ↔
            headers self' !! "Content-Location" = None)).
Proof.
  intros Hb. cbn zeta.
  unfold _prep_binary_data, _prep_binary_mimetype, _prep_binary_content,
    set_delivery.
  msimpl. rewrite (the_binary_Some _ _ b Hb).
  destruct self as [t rp u hdrs st ex rdf0 bin vs]. cbn in Hb. subst bin.
  cbn [headers set_headers binary].
  destruct (truthy_str (mimetype b)) eqn:Hmime;
    destruct (hdrs !! "Content-Type") as [ct|] eqn:Hct;
    cbn [negb andb];
    rewrite ?(bool_decide_eq_true_2 (None = None)) by done;
    rewrite ?(bool_decide_eq_false_2 (Some ct = None)) by done;
    cbn [negb andb fst snd is_ok];
    unfold the_binary; msimpl; cbn [binary headers set_headers set_binary];
    repeat first [rewrite lookup_insert_eq|rewrite lookup_insert_ne by done];
    destruct (truthy_payload (bdata b)) eqn:Hdata;
    destruct (truthy_str (location b)) eqn:Hloc;
    destruct (hdrs !! "Content-Location") as [cl|] eqn:Hcl;
    cbn [negb andb];
    rewrite ?(bool_decide_eq_true_2 (is_Some (Some cl))) by (by eexists);
    rewrite ?(bool_decide_eq_false_2 (is_Some None)) by (by intros [? ?]);
    cbn [negb andb fst snd is_ok];
    msimpl; cbn [binary headers set_headers set_binary fst snd is_ok];
    repeat first [rewrite lookup_insert_eq|rewrite lookup_insert_ne by done];
    rewrite ?Hct, ?Hcl;
    (split; [done|]);
    rewrite ?is_Some_alt;
    (split; [clear_functions; intuition (first [discriminate|done])|]);
    intros Hok; try discriminate Hok;
    (split; [done|]);
    (split; [intros v Hv; first [discriminate Hv|done]|]);
    (split; [intros v Hv; first [discriminate Hv|done]|]);
    (eexists; split; [reflexivity|]);
    cbn [bdata mimetype delivery]; rewrite ?is_Some_alt;
    (split; [done|]); (split; [done|]);
    clear_functions; intuition (first [discriminate|done]).
Qed.

(** *** Further properties: updating *)


(** *** Further properties: transactions *)

Lemma prefix_append_both (r x y : string) :
  String.prefix (r ++ x) (r ++ y) = String.prefix x y.
Proof.
  induction r as [|a r IH]; [done|].
  rewrite !append_cons, prefix_cons.
  by destruct (Ascii.ascii_dec a a).
Qed.

Lemma endswith_append_both (a s b : string) :
  PyStr.endswith a s = true → PyStr.endswith (a ++ b) (s ++ b) = true.
Proof.
  unfold PyStr.endswith, PyStr.startswith.
  by rewrite !rev_append, prefix_append_both.
Qed.

(** X20. [start_txn] asks for a transaction with a [POST] to the root
    followed by [/fcr:tx]; as the root of a repository always ends with a
    slash, the URI ends in [//fcr:tx]. On 201 with [Location] and [Expires]
    headers the new transaction is rooted at the location, active, carries
    the expiry, and is stored in [txns] under its name (the given one, or
    the generated one when none or an empty one is given), replacing a
    transaction of that name. On 201 without one of the two headers the
    method raises [KeyError]; on any other status it returns [None] without
    raising. In both cases [txns] is unchanged. *)
Theorem start_txn_registers_the_transaction (shared : gmap string string)
    (r : string) (c : gmap string string) (ds : string)
    (known : gmap string Transaction)
    (uuid4_hex : string) (txn_name : option string) (w : TheWorld) :
  let rp := Repository_init shared r c ds in
  let self := {| this := rp; txns := known |} in
  let rq := plain_request POST (root rp ++ "/fcr:tx") in
  let response := (send (server w) rq).1 in
  let w' := {| server := (send (server w) rq).2; log := log w ++ [rq] |} in
  let chosen := if truthy_str txn_name then default "" txn_name
                else uuid4_hex in
  let run := start_txn send uuid4_hex txn_name self w in
  PyStr.endswith "//fcr:tx" (req_uri rq) = true ∧ run.2 = w' ∧
  (resp_status response ≠ 201 → run.1 = (Ok None, self)) ∧
  (resp_status response = 201 →
   match resp_headers response !! "Location",
         resp_headers response !! "Expires" with
   | Some location, Some e =>
       let txn := Transaction_init rp chosen location (Some e) in
       run.1 = (Ok (Some txn), set_txns (<[chosen := txn]> known) self) ∧
       txns run.1.2 !! chosen = Some txn ∧
       active txn = true ∧ expires txn = Some e ∧ name txn = chosen ∧
       PyStr.endswith "/" (root (txn_repo txn)) = true
   | None, _ => run.1 = (Raise (KeyError "Location"), self)
   | Some _, None => run.1 = (Raise (KeyError "Expires"), self)
   end).
Proof.
  intros rp self rq response w' chosen run. subst run self.
  unfold start_txn. msimpl. rewrite http_request_plain by done.
  cbn [this txns]. fold rq response w' chosen.
  split; [|split; [|split]].
  - cbn [req_uri plain_request].
    change "//fcr:tx" with ("/" ++ "/fcr:tx").
    apply endswith_append_both, Repository_init_root.
  - case_decide; [|done].
    destruct (resp_headers response !! "Location"); [|done]. msimpl.
    by destruct (resp_headers response !! "Expires").
  - intros Hstatus. by rewrite decide_False.
  - intros Hstatus. rewrite decide_True by done.
    destruct (resp_headers response !! "Location") as [location|]; [|done].
    msimpl.
    destruct (resp_headers response !! "Expires") as [e|]; [|done].
    cbn zeta. cbn [fst snd txns set_txns].
    split; [done|]. split; [apply lookup_insert_eq|].
    repeat split. apply Repository_init_root.
Qed.

(** X21. [get_txn] looks a transaction up with a [GET] of its parsed URI,
    sent with the [Accept] header of the repository's default
    serialization. On 200 the transaction is stored under the given name and
    returned, active and without an expiry; on 404 and 410 the method
    returns [False]; on any other status it raises. Only the 200 changes
    [txns]. *)
Theorem get_txn_registers_a_known_transaction (self : RepositoryObject)
    (txn_name : string) (txn_uri : PyUri) (w : TheWorld) :
  let target := parse_uri (this self) txn_uri in
  let rq := {| verb := GET; req_uri := target; req_data := None;
               req_headers :=
                 Some {["Accept" := default_serialization (this self)]};
               req_stream := false |} in
  let status := resp_status (send (server w) rq).1 in
  let w' := {| server := (send (server w) rq).2; log := log w ++ [rq] |} in
  let txn := Transaction_init (this self) txn_name target None in
  let run := get_txn send txn_name txn_uri self w in
  run.2 = w' ∧
  (status = 200 →
   run.1 = (Ok (Some txn), set_txns (<[txn_name := txn]> (txns self)) self) ∧
   active txn = true ∧ expires txn = None) ∧
  (status ∈ [404; 410] → run.1 = (Ok None, self)) ∧
  (status ∉ [200; 404; 410] →
   run.1 = (Raise (Exception ("HTTP " ++ pretty status
                              ++ ", could not retrieve transaction")), self)).
Proof.
  intros target rq status w' txn run. subst run.
  unfold get_txn. msimpl.
  rewrite (http_request_GET_default (this self) target None).
  cbn zeta. change (negotiated_format (this self) None)
    with (default_serialization (this self)).
  fold target rq status w' txn.
  split; [|split; [|split]].
  - case_decide; [done|]. by case_bool_decide.
  - intros Hstatus. by rewrite decide_True.
  - intros Hstatus. rewrite bool_decide_eq_true_2 by done.
    rewrite decide_False; [done|].
    intros H200. rewrite H200 in Hstatus.
    rewrite !elem_of_cons, elem_of_nil in Hstatus.
    clear_functions. intuition discriminate.
  - rewrite !not_elem_of_cons. intros (H200 & H404 & H410 & _).
    rewrite decide_False by done.
    rewrite bool_decide_eq_false_2; [done|].
    rewrite !elem_of_cons, elem_of_nil. clear_functions. tauto.
Qed.

(** X22. [keep_alive] answered 204 marks the transaction active, also one
    that was marked inactive before, and takes the new expiry from the
    [Expires] header. When the answer has no such header the method raises
    [KeyError], with the transaction already marked active. The one request
    is a [POST] to the transaction root followed by [fcr:tx]; name and root
    are never changed. *)
Theorem keep_alive_reactivates (self : Transaction) (w : TheWorld) :
  let rq := plain_request POST (root (txn_repo self) ++ "fcr:tx") in
  let response := (send (server w) rq).1 in
  let run := keep_alive send self w in
  log run.2 = (log w ++ [rq])%list ∧
  name run.1.2 = name self ∧ txn_repo run.1.2 = txn_repo self ∧
  (resp_status response = 204 →
   active run.1.2 = true ∧
   match resp_headers response !! "Expires" with
   | Some e => run.1.1 = Ok true ∧ expires run.1.2 = Some e
   | None => run.1.1 = Raise (KeyError "Expires") ∧
             expires run.1.2 = expires self
   end).
Proof.
  cbn zeta. rewrite keep_alive_unfold. cbn zeta.
  set (rq := plain_request POST _).
  destruct (decide (resp_status (send (server w) rq).1 = 204)) as [H204|H204].
  - destruct (resp_headers _ !! "Expires") as [e|]; cbn [fst snd log];
      by destruct self.
  - case_decide; cbn [fst snd log]; by destruct self.
Qed.

(** *** Further properties: refreshing *)

Lemma preserves_on_object {O O' A X} (f : O → X) (o' : O') (m : M O' A) :
  keeps f (on_object o' m).
Proof.
  intros o w. unfold on_object. by destruct (m o' w) as [[[?|?] ?] ?].
Qed.

Lemma preserves_get_resource {O X} (f : O → X) (rp : Repository) (u : PyUri)
    (response_format : option string) :
  keeps f (get_resource send rdf_parse namespaces_after_bind compute_qname
                        rp u response_format).
Proof.
  unfold get_resource, parse_resource_type, construct.
  repeat first
    [ apply preserves_ret
    | apply preserves_raise
    | apply preserves_getitem
    | apply preserves_http_request
    | apply preserves_on_object
    | apply preserves_bind; [|intros]
    | match goal with
      | |- preserves _ (if ?b then _ else _) => destruct b
      | |- preserves _ (match ?x with _ => _ end) => destruct x
      end ].
Qed.

(** [parse_rdf_payload] neither reads nor writes the object and the
    world it runs in. *)
Lemma parse_rdf_payload_pure {O O'} (payload : option string)
    (hdrs : gmap string string) (g : ParsedGraph) (o : O) (w : TheWorld)
    (o' : O') (w' : TheWorld) :
  parse_rdf_payload rdf_parse payload hdrs o w = (Ok g, o, w) →
  parse_rdf_payload rdf_parse payload hdrs o' w' = (Ok g, o', w').
Proof.
  unfold parse_rdf_payload. msimpl.
  destruct (hdrs !! "Content-Type"); [|discriminate].
  destruct payload as [d|]; [|discriminate]. msimpl.
  destruct (rdf_parse _ d); [|discriminate].
  by intros [= ->].
Qed.

(** X23. What a [refresh] that returns leaves behind. It returns only when
    [get_resource] found a resource of the same class. The resource keeps
    its URI, its repository and its class, takes status, headers, [exists]
    and the payload from the retrieved object, and its versions are
    emptied. For an RDF resource the working graph and the snapshot are
    both replaced by the parse of the retrieved payload under the retrieved
    headers (an empty graph when the retrieved object does not exist): the
    new graph does not depend on the old working graph, so edits that were
    not sent are gone. For a [NonRDFSource] the graph is not parsed again:
    working graph and snapshot stay as they were, whatever the repository
    sent. *)
Theorem refresh_discards_local_edits (self : Resource) (w : TheWorld) :
  let fetched :=
    get_resource send rdf_parse namespaces_after_bind compute_qname
                 (repo self) (RefUri (uri self)) None self w in
  let run := refresh send rdf_parse namespaces_after_bind compute_qname
                     self w in
  is_ok run.1.1 = true →
  ∃ updated urd rd',
    fetched.1.1 = Ok (Some updated) ∧ rtype updated = rtype self ∧
    rdf updated = Some urd ∧ run.2 = fetched.2 ∧
    uri run.1.2 = uri self ∧ repo run.1.2 = repo self ∧
    rtype run.1.2 = rtype self ∧ versions run.1.2 = [] ∧
    status_code run.1.2 = status_code updated ∧
    headers run.1.2 = headers updated ∧
    exists_ run.1.2 = exists_ updated ∧
    rdf run.1.2 = Some rd' ∧ data rd' = data urd ∧
    (rtype self ≠ NonRDFSource →
     ∃ g,
       (if exists_ updated
        then parse_rdf_payload rdf_parse (data urd) (headers updated) self w
             = (Ok g, self, w)
        else g = new_graph) ∧
       graph rd' = pg_triples g ∧ _orig_graph rd' = pg_triples g) ∧
    (rtype self = NonRDFSource →
     ∀ rd, rdf self = Some rd →
           graph rd' = graph rd ∧ _orig_graph rd' = _orig_graph rd).
Proof.
  cbn zeta. unfold refresh. msimpl.
  pose proof (preserves_get_resource (λ r : Resource, r) (repo self)
                (RefUri (uri self)) None self w) as Hkeep.
  destruct (get_resource _ _ _ _ _ _ _ _ _)
    as [[[updated_self|e] self0] w1]; [|discriminate].
  cbn [fst snd] in Hkeep. subst self0. cbn [fst snd].
  case_decide as Htype; [discriminate|].
  destruct updated_self as [updated|]; [|discriminate Htype].
  cbn [type_of] in Htype. injection Htype as Htype.
  msimpl. unfold the_rdf. msimpl. cbn [rdf set_status_code].
  destruct (rdf self) as [rd|] eqn:Hrdf; [|discriminate].
  destruct (rdf updated) as [urd|] eqn:Hurd; [|discriminate].
  msimpl. cbn [rtype set_exists set_headers set_rdf set_status_code].
  case_decide as Hclass.
  - set (self1 := set_exists _ _).
    destruct (_parse_graph _ _ _ self1 w1) as [[[[]|e] self2] w2] eqn:Hparse;
      [|discriminate].
    apply _parse_graph_result in Hparse as (-> & rd1 & g & Hrd1 & Hg & ->).
    assert (rd1 = {| data := data urd; prefixes := prefixes rd;
                     graph := graph rd; _orig_graph := _orig_graph rd;
                     diffs := diffs rd |}) as ->.
    { subst self1. destruct self. cbn in Hrd1. by injection Hrd1 as <-. }
    replace (exists_ self1) with (exists_ updated) in Hg
      by (subst self1; by destruct self).
    replace (headers self1) with (headers updated) in Hg
      by (subst self1; by destruct self).
    cbn [data] in Hg.
    intros _. exists updated, urd. eexists.
    cbn [fst snd]. subst self1.
    repeat split; try (by destruct self).
    + exists g. split; [|done].
      destruct (exists_ updated); [|done].
      by apply (parse_rdf_payload_pure _ _ _ _ _ _ _ Hg).
  - intros _. exists updated, urd. eexists. cbn [fst snd].
    repeat split; try (by destruct self).
    all: by simplify_eq.
Qed.




(** *** Further properties: tombstones and binaries *)

(** X25. A tombstone that cannot be cleared. When a [create] with
    [ignore_tombstone] is answered 410 and the [DELETE] of the tombstone is
    answered anything but 204, [create] raises with the status of that
    second answer; exactly two requests were sent and no retry is made. *)
Theorem create_gives_up_when_the_tombstone_stays (fuel : nat)
    (specify_uri : bool) (serialization_format : option string)
    (stream refresh_after : bool) (self : Resource) (w : TheWorld)
    (rd : Rdf) (body : string) :
  exists_ self = false → rtype self ≠ NonRDFSource → rdf self = Some rd →
  let fmt := if truthy_str serialization_format
             then default "" serialization_format
             else default_serialization (repo self) in
  rdf_serialize fmt (graph rd) = Some body →
  let self1 := set_headers (<["Content-Type" := fmt]> (headers self)) self in
  let rq := {| verb := if specify_uri then PUT else POST;
               req_uri := uri self; req_data := Some (Bytes body);
               req_headers := Some (headers self1); req_stream := stream |} in
  let w1 := {| server := (send (server w) rq).2; log := log w ++ [rq] |} in
  let clearing := plain_request DELETE (uri self ++ "/fcr:tombstone") in
  let cleared := resp_status (send (server w1) clearing).1 in
  resp_status (send (server w) rq).1 = 410 → cleared ≠ 204 →
  create send rdf_parse rdf_serialize namespaces_after_bind compute_qname
         (S fuel) specify_uri true serialization_format stream
         refresh_after self w
  = (Raise (Exception ("HTTP " ++ pretty cleared
                       ++ ", Could not remove tombstone for " ++ uri self)),
     self1,
     {| server := (send (server w1) clearing).2;
        log := log w ++ [rq; clearing] |}).
Proof.
  intros Hex Htype Hrdf fmt Hbody self1 rq w1 clearing cleared H410 Hcleared.
  rewrite (create_unfold fuel specify_uri true serialization_format
             stream refresh_after self w rd body Hex Htype Hrdf Hbody).
  cbn zeta. fold fmt self1 rq w1. unfold _handle_create. msimpl.
  rewrite H410. do 3 (rewrite decide_False by done).
  rewrite decide_True by done.
  rewrite http_request_plain by done.
  change (uri self1) with (uri self). fold clearing cleared.
  rewrite decide_False by done. cbn [log w1]. by rewrite <- app_assoc.
Qed.

(** X26. How the content of a retrieved binary is fetched. The mimetype
    is read from the [ebucore:hasMimeType] triple of the resource; without
    such a triple [parse_binary] raises before anything is sent. With it,
    the content is fetched by one [GET] of the resource URI that is
    streamed and not content-negotiated: it carries the mimetype as
    [Content-Type] and no [Accept] header. The response is kept as the data
    whatever its status. *)
Theorem parse_binary_fetches_without_negotiation (self : Resource)
    (w : TheWorld) (rd : Rdf) (b : Binary) (ns : string) :
  rdf self = Some rd → binary self = Some b →
  prefixes rd !! "ebucore" = Some ns →
  let found := graph_value (graph rd) (URIRef (uri self))
                           (URIRef (ns ++ "hasMimeType")) in
  (found = None →
   parse_binary send self w
   = (Raise (AttributeError
        "'NoneType' object has no attribute 'toPython'"), self, w)) ∧
  (∀ v, found = Some v →
     let rq := {| verb := GET; req_uri := uri self; req_data := None;
                  req_headers := Some {["Content-Type" := toPython v]};
                  req_stream := true |} in
     parse_binary send self w
     = (Ok tt,
        set_binary (Some
          {| delivery := delivery b;
             bdata := Some (ResponseStream (send (server w) rq).1);
             bstream := bstream b; mimetype := Some (toPython v);
             location := location b |}) self,
        {| server := (send (server w) rq).2; log := log w ++ [rq] |}) ∧
     req_headers rq ≫= (.!! "Accept") = None).
Proof.
  intros Hrdf Hb Hns found. subst found.
  unfold parse_binary, prefix_term. msimpl.
  rewrite !(the_rdf_Some _ _ _ rd Hrdf). msimpl.
  rewrite Hns. msimpl. split.
  - by intros ->.
  - intros v ->. rewrite (the_binary_Some _ _ b Hb). msimpl.
    unfold http_request. cbn [andb]. cbn zeta.
    split; [|done].
    destruct (send _ _) as [response server'] eqn:Hsend. cbn [fst snd].
    unfold the_binary. msimpl. by destruct self.
Qed.

(** *** Further properties: the container classes *)

Lemma invariant_bind {A B} (I : Resource → Prop) (m : M Resource A)
    (k : A → M Resource B) :
  (∀ o (w : TheWorld), I o → I (m o w).1.2) →
  (∀ a o (w : TheWorld), I o → I (k a o w).1.2) →
  ∀ o (w : TheWorld), I o → I ((m ≫= k) o w).1.2.
Proof.
  intros Hm Hk o w Ho. specialize (Hm o w Ho). msimpl.
  destruct (m o w) as [[[a|e] o'] w']; cbn [fst snd] in *; [|done].
  by apply Hk.
Qed.

Lemma add_triple_keeps (T : Triple) (O : Graph) (p : Term) (o : PyObj)
    (refresh_quick_triples : bool) (self : Resource) (w : TheWorld) :
  (∃ rd, rdf self = Some rd ∧ T ∈ graph rd ∧ _orig_graph rd = O) →
  ∃ rd, rdf (add_triple compute_qname p o refresh_quick_triples self w).1.2
        = Some rd ∧ T ∈ graph rd ∧ _orig_graph rd = O.
Proof.
  intros (rd & Hrdf & HT & HO).
  rewrite (add_triple_unfold _ _ _ _ _ rd Hrdf). cbn zeta.
  set (self' := set_rdf _ self).
  assert (Hstate :
    (if refresh_quick_triples
     then parse_object_like_triples compute_qname self' w
     else (Ok tt, self', w)).1.2 = self').
  { destruct refresh_quick_triples; [|done].
    by destruct (parse_object_like_triples_frame self' w) as [r ->]. }
  rewrite Hstate. eexists. split; [by destruct self|].
  cbn [graph set_graph _orig_graph]. split; [|done].
  apply elem_of_union. by left.
Qed.

Lemma add_ldp_triple_if_keeps (T : Triple) (O : Graph)
    (literal_bool : string → option string → bool) (name : string)
    (value : option PyObj) (self : Resource) (w : TheWorld) :
  (∃ rd, rdf self = Some rd ∧ T ∈ graph rd ∧ _orig_graph rd = O) →
  ∃ rd, rdf (add_ldp_triple_if compute_qname literal_bool name value
                               self w).1.2
        = Some rd ∧ T ∈ graph rd ∧ _orig_graph rd = O.
Proof.
  intros Hinv. unfold add_ldp_triple_if.
  destruct (truthy_obj literal_bool value); [|done].
  revert self w Hinv.
  apply (invariant_bind
    (λ r, ∃ rd, rdf r = Some rd ∧ T ∈ graph rd ∧ _orig_graph rd = O)).
  - intros o w (rd & Hrdf & HT & HO). unfold prefix_term. msimpl.
    rewrite (the_rdf_Some _ _ _ rd Hrdf).
    destruct (prefixes rd !! "ldp"); exists rd; done.
  - intros p o w. apply add_triple_keeps.
Qed.

(** X27. The container classes write their LDP type on construction. Once
    the parent constructor has returned and the prefixes [rdf] and [ldp] are
    known, a [DirectContainer] holds the triple
    [(self.uri, rdf:type, ldp:DirectContainer)] in its working graph and an
    [IndirectContainer] the one for [ldp:IndirectContainer], whether the
    resource exists or not and also when a later step of the constructor
    raises; the snapshot is the one the parent constructor left. *)
Theorem container_types_are_written_on_construction
    (literal_bool : string → option string → bool) (u : PyUri)
    (payload : option string) (hdrs : gmap string string) (status : option Z)
    (membershipResource hasMemberRelation insertedContentRelation : option PyObj)
    (self : Resource) (w : TheWorld) (rdf_ns ldp_ns : string) :
  let parent := Resource_init rdf_parse namespaces_after_bind compute_qname
                              u payload hdrs status self w in
  let type_triple name :=
    (URIRef (uri parent.1.2), URIRef (rdf_ns ++ "type"),
     URIRef (ldp_ns ++ name)) in
  is_ok parent.1.1 = true →
  rdf parent.1.2 ≫= (λ rd, prefixes rd !! "rdf") = Some rdf_ns →
  rdf parent.1.2 ≫= (λ rd, prefixes rd !! "ldp") = Some ldp_ns →
  (∃ rd,
     rdf (DirectContainer_init rdf_parse namespaces_after_bind compute_qname
            literal_bool u payload hdrs status
            membershipResource hasMemberRelation self w).1.2 = Some rd ∧
     type_triple "DirectContainer" ∈ graph rd ∧
     Some (_orig_graph rd) = _orig_graph <$> rdf parent.1.2) ∧
  (∃ rd,
     rdf (IndirectContainer_init rdf_parse namespaces_after_bind compute_qname
            literal_bool u payload hdrs status
            membershipResource hasMemberRelation
            insertedContentRelation self w).1.2 = Some rd ∧
     type_triple "IndirectContainer" ∈ graph rd ∧
     Some (_orig_graph rd) = _orig_graph <$> rdf parent.1.2).
Proof.
  intros parent type_triple Hok Hrdf_ns Hldp_ns.
  unfold DirectContainer_init, IndirectContainer_init. msimpl.
  fold parent. destruct parent as [[[[]|e] self0] w0]; [|discriminate].
  cbn [fst snd] in *.
  destruct (rdf self0) as [rd0|] eqn:Hrdf; [|discriminate].
  cbn in Hrdf_ns, Hldp_ns. cbn [fmap option_fmap option_map].
  unfold prefix_term. msimpl.
  rewrite !(the_rdf_Some _ _ _ rd0 Hrdf), Hrdf_ns. msimpl.
  rewrite !(the_rdf_Some _ _ _ rd0 Hrdf), Hldp_ns. msimpl.
  assert (Hfirst : ∀ name,
    ∃ rd, rdf (add_triple compute_qname (URIRef (rdf_ns ++ "type"))
                 (PyTermObj (URIRef (ldp_ns ++ name))) true self0 w0).1.2
          = Some rd ∧ type_triple name ∈ graph rd ∧
          _orig_graph rd = _orig_graph rd0).
  { intros name. rewrite (add_triple_unfold _ _ _ _ _ rd0 Hrdf). cbn zeta.
    set (self1 := set_rdf _ self0).
    destruct (parse_object_like_triples_frame self1 w0) as [r ->];
      (eexists; split; [by destruct self0|]);
      cbn [graph set_graph _orig_graph]; (split; [|done]);
      apply elem_of_union; right; by apply elem_of_singleton. }
  split.
  - destruct (Hfirst "DirectContainer") as (rd1 & Hrd1 & HT & HO).
    destruct (add_triple _ _ _ _ self0 w0) as [[[[]|e] self1] w1];
      cbn [fst snd] in *; [|by exists rd1; rewrite HO].
    assert (Hinv : ∃ rd, rdf self1 = Some rd ∧
                         type_triple "DirectContainer" ∈ graph rd ∧
                         _orig_graph rd = _orig_graph rd0) by eauto.
    pose proof (invariant_bind
      (λ r, ∃ rd, rdf r = Some rd ∧
                  type_triple "DirectContainer" ∈ graph rd ∧
                  _orig_graph rd = _orig_graph rd0) _ _
      (λ o w, add_ldp_triple_if_keeps _ _ literal_bool "membershipResource"
                membershipResource o w)
      (λ _ o w, add_ldp_triple_if_keeps _ _ literal_bool "hasMemberRelation"
                  hasMemberRelation o w) self1 w1 Hinv)
      as (rd & Hrd & HT' & HO').
    exists rd. by rewrite HO'.
  - destruct (Hfirst "IndirectContainer") as (rd1 & Hrd1 & HT & HO).
    destruct (add_triple _ _ _ _ self0 w0) as [[[[]|e] self1] w1];
      cbn [fst snd] in *; [|by exists rd1; rewrite HO].
    assert (Hinv : ∃ rd, rdf self1 = Some rd ∧
                         type_triple "IndirectContainer" ∈ graph rd ∧
                         _orig_graph rd = _orig_graph rd0) by eauto.
    pose proof (invariant_bind
      (λ r, ∃ rd, rdf r = Some rd ∧
                  type_triple "IndirectContainer" ∈ graph rd ∧
                  _orig_graph rd = _orig_graph rd0) _ _
      (λ o w, add_ldp_triple_if_keeps _ _ literal_bool "membershipResource"
                membershipResource o w)
      (λ _ o w, invariant_bind
         (λ r, ∃ rd, rdf r = Some rd ∧
                     type_triple "IndirectContainer" ∈ graph rd ∧
                     _orig_graph rd = _orig_graph rd0) _ _
         (λ o w, add_ldp_triple_if_keeps _ _ literal_bool "hasMemberRelation"
                   hasMemberRelation o w)
         (λ _ o w, add_ldp_triple_if_keeps _ _ literal_bool "insertedContentRelation"
                     insertedContentRelation o w) o w) self1 w1 Hinv)
      as (rd & Hrd & HT' & HO').
    exists rd. by rewrite HO'.
Qed.

(** *** Further properties: the update document and closing a transaction *)

Lemma mapM_predicate_namespace_ok (l : list Triple) :
  is_ok (mapM (predicate_namespace compute_qname) l) = true →
  ∀ t, t ∈ l → is_Some (compute_qname (t.1.2)).
Proof.
  induction l as [|x l IH]; intros Hok t Ht.
  - by apply elem_of_nil in Ht.
  - cbn in Hok.
    destruct (mapM (predicate_namespace compute_qname) l) as [uris|e] eqn:Hl.
    + unfold predicate_namespace in Hok.
      destruct (compute_qname (x.1.2)) as [[[pfx ns] nm]|] eqn:Hx;
        [|discriminate Hok].
      apply elem_of_cons in Ht as [->|Ht]; [by rewrite Hx|].
      by apply IH.
    + unfold predicate_namespace in Hok.
      destruct (compute_qname (x.1.2)) as [[[pfx ns] nm]|];
        discriminate Hok.
Qed.

(** X28. When the update document can be built. [build_query] returns
    exactly when [compute_qname] can split the predicate of every triple of
    the three partitions, the unchanged ones of [overlap] included, and the
    removed and the added partition can both be serialized. One predicate
    that cannot be split among the unchanged triples is enough to make every
    update of the resource fail. *)
Theorem build_query_returns_iff_all_predicates_split
    (prefixes : gmap string string) (d : Diffs) :
  is_ok (build_query rdf_serialize compute_qname prefixes d) = true ↔
    (∀ t, t ∈ overlap d ∪ removed d ∪ added d →
          is_Some (compute_qname (t.1.2))) ∧
    is_Some (rdf_serialize "nt" (removed d)) ∧
    is_Some (rdf_serialize "nt" (added d)).
Proof.
  split.
  - unfold build_query, _derive_namespaces, derive_update_namespaces,
      serialize_nt.
    intros Hok.
    destruct (mapM _ _) as [uris|e] eqn:Hmap; [|discriminate Hok].
    cbn in Hok.
    destruct (rdf_serialize "nt" (removed d)); [|discriminate Hok].
    cbn in Hok.
    destruct (rdf_serialize "nt" (added d)); [|discriminate Hok].
    split; [|by split].
    intros t Ht. eapply mapM_predicate_namespace_ok; [by rewrite Hmap|].
    rewrite !elem_of_app, !elem_of_elements.
    rewrite !elem_of_union in Ht. clear_functions. tauto.
  - intros (Hall & [removed_serialized Hremoved] & [added_serialized Hadded]).
    destruct (derive_update_namespaces_ok d Hall) as (ns & Hns & _).
    unfold build_query, _derive_namespaces, serialize_nt.
    by rewrite Hns, Hremoved, Hadded.
Qed.

(** X29. Closing a transaction. [commit] and [rollback] are [_close] with
    the word put into the URI: one [POST] to the transaction root followed
    by [fcr:tx/fcr:] and that word. The method returns exactly on 204, 404
    and 410, and then the transaction is inactive; on any other status it
    raises and leaves the transaction as it was, with a message that speaks
    of a commit also for a rollback. Name, root and expiry are never
    changed. *)
Theorem close_deactivates_or_raises (close_type : string)
    (self : Transaction) (w : TheWorld) :
  let rq := plain_request POST
              (root (txn_repo self) ++ "fcr:tx/fcr:" ++ close_type) in
  let status := resp_status (send (server w) rq).1 in
  let run := _close send close_type self w in
  log run.2 = (log w ++ [rq])%list ∧
  name run.1.2 = name self ∧ txn_repo run.1.2 = txn_repo self ∧
  expires run.1.2 = expires self ∧
  (is_ok run.1.1 = true ↔ status ∈ [204; 404; 410]) ∧
  (run.1.1 = Ok true ↔ status = 204) ∧
  (is_ok run.1.1 = true → active run.1.2 = false) ∧
  (is_ok run.1.1 = false →
   run.1 = (Raise (Exception ("HTTP " ++ pretty status
                              ++ ", could not commit transaction")), self)) ∧
  commit send = _close send "commit" ∧
  rollback send = _close send "rollback".
Proof.
  cbn zeta. rewrite close_unfold. cbn zeta.
  set (rq := plain_request POST _).
  set (status := resp_status (send (server w) rq).1).
  rewrite !elem_of_cons, elem_of_nil.
  destruct (decide (status = 204)) as [H204|H204].
  { cbn [fst snd log]. destruct self.
    repeat split; intros; first [done|clear_functions; tauto]. }
  destruct (decide (status = 404 ∨ status = 410)) as [Hgone|Hother].
  { cbn [fst snd log]. destruct self.
    repeat split; intros; first [done|clear_functions; tauto]. }
  cbn [fst snd log is_ok].
  repeat split; intros; first [done|clear_functions; tauto].
Qed.

(** *** Further properties: creating a binary *)

Lemma prep_binary_data_frame (self : Resource) (w : TheWorld) (b : Binary) :
  binary self = Some b →
  let run := _prep_binary_data self w in
  run.2 = w ∧ uri run.1.2 = uri self ∧ repo run.1.2 = repo self ∧
  exists_ run.1.2 = exists_ self ∧ rtype run.1.2 = rtype self ∧
  rdf run.1.2 = rdf self ∧
  ∃ b', binary run.1.2 = Some b' ∧ bdata b' = bdata b.
Proof.
  intros Hb. cbn zeta.
  unfold _prep_binary_data, _prep_binary_mimetype, _prep_binary_content,
    set_delivery.
  msimpl. rewrite (the_binary_Some _ _ b Hb).
  destruct self as [t rp u hdrs st ex rdf0 bin vs]. cbn in Hb. subst bin.
  cbn [headers set_headers binary].
  destruct (negb (truthy_str (mimetype b)) && _);
    [cbn; repeat split; by eexists|].
  destruct (truthy_str (mimetype b) && _);
    unfold the_binary; msimpl; cbn [binary headers set_headers set_binary];
    (destruct (negb (truthy_payload (bdata b)) && _ && _);
     [cbn; repeat split; by eexists|]);
    (destruct (bool_decide _);
     [msimpl; cbn; repeat split; by eexists|]);
    (destruct (truthy_str (location b));
     [msimpl; cbn; repeat split; by eexists|]);
    (destruct (truthy_payload (bdata b));
     msimpl; cbn; repeat split; by eexists).
Qed.

(** X30. What [create] sends for a binary. Once [_prep_binary_data] has
    returned, the request carries the binary data as its body and the
    prepared headers; the graph is not serialized and the
    [serialization_format] argument plays no part. The data is sent as the
    body also when the delivery is by [Content-Location] header. Answered
    201 with [refresh] switched off, [create] returns [True] after that one
    request, with the URI taken from the body of the response. *)
Theorem create_binary_sends_the_data (fuel : nat)
    (specify_uri ignore_tombstone : bool) (serialization_format : option string)
    (stream : bool) (self : Resource) (w : TheWorld) (b : Binary) :
  exists_ self = false → rtype self = NonRDFSource → binary self = Some b →
  let prepared := _prep_binary_data self w in
  is_ok prepared.1.1 = true →
  let rq := {| verb := if specify_uri then PUT else POST;
               req_uri := uri self; req_data := bdata b;
               req_headers := Some (headers prepared.1.2);
               req_stream := stream |} in
  let response := (send (server w) rq).1 in
  resp_status response = 201 →
  create send rdf_parse rdf_serialize namespaces_after_bind compute_qname
         (S fuel) specify_uri ignore_tombstone serialization_format stream
         false self w
  = (Ok true,
     set_uri (parse_uri (repo self) (StrUri (text response))) prepared.1.2,
     {| server := (send (server w) rq).2; log := log w ++ [rq] |}).
Proof.
  intros Hex Htype Hb prepared Hok rq response H201.
  destruct (prep_binary_data_frame self w b Hb)
    as (Hw & Huri & Hrepo & _ & _ & _ & b' & Hb' & Hdata).
  fold prepared in Hw, Huri, Hrepo, Hb'.
  cbn [create]. msimpl. rewrite Hex, decide_True by done. msimpl.
  fold prepared.
  destruct prepared as [[[[]|e] self1] w1]; [|discriminate Hok].
  cbn [fst snd] in *. subst w1.
  rewrite (the_binary_Some _ _ b' Hb'). msimpl.
  rewrite Hdata, Hrepo, Huri.
  rewrite http_request_other by (by destruct specify_uri).
  cbn zeta. fold rq response.
  unfold _handle_create. msimpl. rewrite decide_True by done. msimpl.
  by rewrite Hrepo.
Qed.

End Properties.

(** ** The claims on concrete inputs *)

(** C1, counterexample. Whatever labels the colour hash produces, the diff
    of an empty snapshot and a working graph holding one triple with the
    blank node [b0] does not give the working graph back: the blank node
    comes out relabelled. *)
Lemma diff_graph_blank_node_counterexample :
  let G2 : Graph :=
    {[ (URIRef "http://localhost:8080/rest/x", Fedora.dc_title, BNode "b0") ]} in
  ¬ ∃ labels : Graph → string → string,
      let d := diff_of_graphs labels ∅ G2 in
      added d ∪ overlap d = G2.
Proof.
  intros G2 [labels Heq]. cbn zeta in Heq.
  unfold diff_of_graphs, graph_diff, to_isomorphic in Heq. cbn in Heq.
  rewrite difference_union_intersection in Heq.
  assert (Hin : (URIRef "http://localhost:8080/rest/x", Fedora.dc_title,
                 BNode "b0") ∈ to_canonical_graph labels G2).
  { rewrite Heq. by apply elem_of_singleton. }
  unfold to_canonical_graph in Hin. apply elem_of_map in Hin as (t & Ht & Hin).
  apply elem_of_singleton in Hin. subst t. cbn in Ht.
  discriminate Ht.
Qed.

(** C1, witness: a working graph without blank nodes. *)
Lemma diff_graph_partitions_canonical_witness :
  let d := diff_of_graphs Fedora.bnode_labels ∅ {[ Fedora.titled ]} in
  added d ∪ overlap d = {[ Fedora.titled ]} ∧ removed d ∪ overlap d = ∅.
Proof.
  apply (diff_graph_partitions_canonical Fedora.bnode_labels ∅ {[ Fedora.titled ]}).
  - intros t Ht. by apply not_elem_of_empty in Ht.
  - intros t Ht. apply elem_of_singleton in Ht. by subst.
Defined.

(** C2, counterexample. A response without a [Link] header declares none of
    the four types, and the resolver raises [KeyError] instead of returning
    the "type unknown" signal. *)
Lemma parse_resource_type_no_link_header :
  parse_resource_type
    {| resp_status := 200; resp_headers := ∅; content := "" |}
    tt (Fedora.world Fedora.empty_state)
  = (Raise (KeyError "Link"), tt, Fedora.world Fedora.empty_state).
Proof. reflexivity. Qed.

(** C2, witness: the header of a basic container. *)
Lemma parse_resource_type_resolves_by_priority_witness :
  let response :=
    {| resp_status := 200;
       resp_headers :=
         {["Link" := render_link_header Fedora.basic_container_link_values]};
       content := "" |} in
  parse_resource_type response tt (Fedora.world Fedora.empty_state)
  = (Ok (resolve_by_priority Fedora.basic_container_link_values), tt,
     Fedora.world Fedora.empty_state)
  ∧ resolve_by_priority Fedora.basic_container_link_values = Some BasicContainer.
Proof.
  split; [|reflexivity].
  refine (proj1 (parse_resource_type_resolves_by_priority _
                   Fedora.basic_container_link_values tt _ _ _)).
  - reflexivity.
  - repeat constructor.
Defined.

(** C3, witness: a new container object for [x] while the repository
    holds a tombstone at [x]. *)
Lemma create_retry_after_tombstone_is_a_POST_witness :
  let self := Fedora.container "x" false in
  let w := Fedora.world Fedora.tombstoned_state in
  let outcome :=
    create Fedora.send Fedora.rdf_parse Fedora.rdf_serialize
           Fedora.namespaces_after_bind Fedora.compute_qname
           2 true true None false true self w in
  outcome.1.1 = Raise (Exception
    "HTTP 404, for this POST request target location does not exist") ∧
  exists_ outcome.1.2 = false ∧
  (λ rq, (verb rq, req_uri rq)) <$> log outcome.2
  = [ (PUT, "http://localhost:8080/rest/x");
      (DELETE, "http://localhost:8080/rest/x/fcr:tombstone");
      (POST, "http://localhost:8080/rest/x") ].
Proof.
  intros self w outcome. subst outcome.
  rewrite (create_retry_after_tombstone_is_a_POST Fedora.send Fedora.rdf_parse
             Fedora.rdf_serialize Fedora.namespaces_after_bind
             Fedora.compute_qname 0 None false true self w
             {| data := None; prefixes := ∅; graph := ∅; _orig_graph := ∅;
                diffs := None |}
             "" "").
  - vm_compute. repeat split.
  - reflexivity.
  - discriminate.
  - reflexivity.
  - reflexivity.
  - reflexivity.
  - reflexivity.
  - reflexivity.
  - reflexivity.
Defined.

(** The whole scenario against the test repository, from an empty one:
    create [x] by [PUT], delete it leaving the tombstone, create [x] again
    with [ignore_tombstone]. *)
Lemma tombstone_scenario_trace :
  let '(result, self', w') := Fedora.tombstone_scenario in
  result = Raise (Exception
    "HTTP 404, for this POST request target location does not exist") ∧
  exists_ self' = false ∧
  (λ rq, (verb rq, req_uri rq)) <$> log w'
  = [ (PUT, "http://localhost:8080/rest/x");
      (HEAD, "http://localhost:8080/rest/x");
      (GET, "http://localhost:8080/rest/x/fcr:metadata");
      (DELETE, "http://localhost:8080/rest/x");
      (PUT, "http://localhost:8080/rest/x");
      (DELETE, "http://localhost:8080/rest/x/fcr:tombstone");
      (POST, "http://localhost:8080/rest/x") ].
Proof. vm_compute. repeat split. Qed.

(** C4, counterexample. A basic container constructed from a 201 response
    has [exists = false]. *)
Lemma constructed_from_201_not_exists :
  exists_ (Resource_init Fedora.rdf_parse Fedora.namespaces_after_bind
             Fedora.compute_qname (StrUri "x") None ∅ (Some 201)
             (blank_resource BasicContainer Fedora.repository)
             (Fedora.world Fedora.empty_state)).1.2
  = false
  ∧ status_code
      (Resource_init Fedora.rdf_parse Fedora.namespaces_after_bind
         Fedora.compute_qname (StrUri "x") None ∅ (Some 201)
         (blank_resource BasicContainer Fedora.repository)
         (Fedora.world Fedora.empty_state)).1.2
    = Some 201.
Proof. vm_compute. split; reflexivity. Qed.

(** C5, witness: [refresh] of a container the repository does not have. *)
Lemma refresh_gone_raises_witness :
  let self := Fedora.container "x" true in
  let w := Fedora.world Fedora.empty_state in
  resp_status (Fedora.send (server w)
    (plain_request HEAD
       (probe_uri (parse_uri (repo self) (RefUri (uri self)))))).1 = 404
  ∧ (refresh Fedora.send Fedora.rdf_parse Fedora.namespaces_after_bind
             Fedora.compute_qname self w).1
    = (Raise (Exception
         ("Instantiated <class 'bool'>, but repository reports this resource is "
          ++ "<class 'pyfc4.models.BasicContainer'>")), self).
Proof.
  intros self w. split; [reflexivity|].
  rewrite (refresh_gone_raises Fedora.send Fedora.rdf_parse
             Fedora.namespaces_after_bind Fedora.compute_qname self w);
    reflexivity.
Defined.

(** C6, witness: [delete] of a container the repository has. *)
Lemma delete_confirmed_leaves_rdf_None_witness :
  let self := Fedora.container "" true in
  let w := Fedora.world Fedora.empty_state in
  resp_status (Fedora.send (server w) (plain_request DELETE (uri self))).1 = 204
  ∧ (let '(result, self', _) :=
       delete Fedora.send Fedora.rdf_parse Fedora.namespaces_after_bind
              Fedora.compute_qname false self w in
     result = Ok true ∧ exists_ self' = false ∧ headers self' = ∅ ∧
     status_code self' = Some 404 ∧ rdf self' = None).
Proof.
  intros self w. split; [reflexivity|].
  apply (delete_confirmed_leaves_rdf_None Fedora.send Fedora.rdf_parse
           Fedora.namespaces_after_bind Fedora.compute_qname false self w).
  reflexivity.
Defined.

(** C7, counterexample. With an empty prefix table and one added triple
    whose predicate is [dc:title], the query is built, without any [PREFIX]
    line. *)
Lemma build_query_unbound_namespace_succeeds :
  build_query Fedora.rdf_serialize Fedora.compute_qname ∅
    {| overlap := ∅; removed := ∅; added := {[ Fedora.titled ]} |}
  = Ok (newline ++ "DELETE {" ++ newline ++ "}" ++ newline ++ newline
        ++ newline ++ "INSERT {" ++ newline
        ++ "<http://localhost:8080/rest/x> <http://purl.org/dc/elements/1.1/title> "
        ++ Fedora.dquote ++ "t" ++ Fedora.dquote ++ " ." ++ newline
        ++ "}" ++ newline ++ newline ++ "WHERE {}")
  ∧ Fedora.compute_qname Fedora.dc_title
    = Some ("ns1", "http://purl.org/dc/elements/1.1/", "title").
Proof. vm_compute. split; reflexivity. Qed.

(** C7, witness: the same diff with [dc] bound in the prefix table. *)
Lemma build_query_skips_unbound_namespaces_witness :
  let prefixes : gmap string string :=
    {[ "dc" := "http://purl.org/dc/elements/1.1/";
       "foaf" := "http://xmlns.com/foaf/0.1/" ]} in
  let d := {| overlap := ∅; removed := ∅; added := {[ Fedora.titled ]} |} in
  ∃ update_namespaces update_prefixes removed_serialized added_serialized,
    _derive_namespaces Fedora.compute_qname prefixes d
      = Ok (update_namespaces, update_prefixes) ∧
    Fedora.rdf_serialize "nt" (removed d) = Some removed_serialized ∧
    Fedora.rdf_serialize "nt" (added d) = Some added_serialized ∧
    build_query Fedora.rdf_serialize Fedora.compute_qname prefixes d
      = Ok (prefix_lines update_prefixes
            ++ newline ++ "DELETE {" ++ newline ++ removed_serialized ++ "}"
            ++ newline ++ newline
            ++ newline ++ "INSERT {" ++ newline ++ added_serialized ++ "}"
            ++ newline ++ newline
            ++ "WHERE {}") ∧
    (∀ ns, ns ∈ update_namespaces ↔
       ∃ t pfx nm, t ∈ overlap d ∪ removed d ∪ added d ∧
                   Fedora.compute_qname (t.1.2) = Some (pfx, ns, nm)) ∧
    (∀ k v, update_prefixes !! k = Some v ↔
       prefixes !! k = Some v ∧ v ∈ update_namespaces).
Proof.
  intros prefixes d.
  apply (build_query_skips_unbound_namespaces Fedora.rdf_serialize
           Fedora.compute_qname prefixes d).
  - intros t Ht. subst d. cbn in Ht.
    rewrite !elem_of_union, elem_of_singleton in Ht.
    destruct Ht as [[Ht|Ht]|Ht]; [by apply not_elem_of_empty in Ht
                               |by apply not_elem_of_empty in Ht|].
    subst t. vm_compute. eauto.
  - by eexists.
  - by eexists.
Defined.

(** C8, witness: a server that answers 500 to everything. *)
Lemma delete_and_update_swallow_status_witness :
  let self := Fedora.container "x" true in
  let w : World := {| server := tt; log := [] |} in
  (delete (Fedora.always 500) Fedora.rdf_parse Fedora.namespaces_after_bind
          Fedora.compute_qname true self w).1.1 = Ok true
  ∧ (update (Fedora.always 500) Fedora.rdf_parse Fedora.rdf_serialize
            Fedora.namespaces_after_bind Fedora.compute_qname
            Fedora.bnode_labels false true self w).1.1 = Ok update_None.
Proof.
  intros self w.
  destruct (delete_and_update_swallow_status (Fedora.always 500)
              Fedora.rdf_parse Fedora.rdf_serialize
              Fedora.namespaces_after_bind Fedora.compute_qname
              Fedora.bnode_labels self w) as [Hdelete Hupdate].
  split; [apply Hdelete|].
  eapply Hupdate; [done|reflexivity|vm_compute; reflexivity|done].
Defined.

(** C9, witness: a transaction whose root answers 404. *)
Lemma keep_alive_404_raises_witness :
  let w : World := {| server := tt; log := [] |} in
  let rq := plain_request POST
              (root (txn_repo Fedora.transaction) ++ "fcr:tx") in
  resp_status (Fedora.always 404 (server w) rq).1 = 404
  ∧ keep_alive (Fedora.always 404) Fedora.transaction w
    = (Raise (Exception "HTTP 404, could not continue transaction"),
       Fedora.transaction,
       {| server := (Fedora.always 404 (server w) rq).2;
          log := log w ++ [rq] |}).
Proof.
  intros w rq. split; [reflexivity|].
  by apply (keep_alive_404_raises (Fedora.always 404) Fedora.transaction w).
Defined.

(** C10, witness: [check_exists] against a server that answers 500. *)
Lemma check_exists_other_status_keeps_exists_witness :
  let self := Fedora.container "x" true in
  let w : World := {| server := tt; log := [] |} in
  (500 ∉ [200; 404; 410]) ∧
  (let '(result, self', w') := check_exists (Fedora.always 500) self w in
   is_ok result = true ∧
   status_code self' = Some 500 ∧
   log w' = [plain_request HEAD (uri self)] ∧
   exists_ self' = exists_ self ∧ result = Ok (exists_ self)).
Proof.
  intros self w.
  assert (Hother : 500 ∉ [200; 404; 410]).
  { rewrite !not_elem_of_cons. repeat split; [lia..|apply not_elem_of_nil]. }
  split; [exact Hother|].
  pose proof (check_exists_other_status_keeps_exists
                (Fedora.always 500) self w) as H.
  cbn zeta in H.
  destruct (check_exists (Fedora.always 500) self w) as [[result self'] w'].
  destruct H as (Hok & Hstatus & Hlog & Hframe).
  destruct (Hframe Hother) as [Hex Hres].
  repeat split; assumption.
Defined.

(** ** The further properties on concrete inputs *)

(** X3, witness: the last segment [/data] goes with the suffix. *)
Lemma probe_uri_strips_a_character_set_witness :
  probe_uri "http://localhost:8080/rest/x/data/fcr:metadata"
  = "http://localhost:8080/rest/x".
Proof.
  exact (probe_uri_strips_a_character_set
           "http://localhost:8080/rest/" "x" "/data" eq_refl eq_refl).
Defined.

(** X7, witness: the container [x] parsed from the N-Triples text that
    holds its one title. *)
Lemma parsed_graph_has_empty_diff_witness :
  let parsed := _parse_graph titled_parse Fedora.namespaces_after_bind
                             Fedora.compute_qname edited_container stateless in
  is_ok parsed.1.1 = true ∧ parsed.2 = stateless ∧
  ∃ rd d,
    rdf parsed.1.2 = Some rd ∧ graph rd = {[ Fedora.titled ]} ∧
    _orig_graph rd = {[ Fedora.titled ]} ∧
    (rdf (_diff_graph Fedora.bnode_labels parsed.1.2 parsed.2).1.2 ≫= diffs)
    = Some d ∧
    removed d = ∅ ∧ added d = ∅.
Proof.
  intros parsed.
  assert (Hok : is_ok parsed.1.1 = true) by (vm_compute; reflexivity).
  assert (Hgraph : graph <$> rdf parsed.1.2 = Some {[ Fedora.titled ]})
    by reflexivity.
  subst parsed.
  destruct (parsed_graph_has_empty_diff titled_parse
              Fedora.namespaces_after_bind Fedora.compute_qname
              Fedora.bnode_labels edited_container stateless Hok)
    as (Hw & rd & d & Hrdf & Hsame & Hd & Hremoved & Hadded & _).
  rewrite Hrdf in Hgraph. injection Hgraph as Hgraph.
  split; [exact Hok|]. split; [exact Hw|]. exists rd, d.
  rewrite <- Hsame. repeat split; assumption.
Defined.


(** X9, witness: a title added to a new container and removed again. *)
Lemma add_and_remove_triple_undo_each_other_witness :
  (add_triple Fedora.compute_qname Fedora.dc_title (PyStrObj "t") false;;
   remove_triple Fedora.compute_qname Fedora.dc_title (PyStrObj "t") false)
    (Fedora.container "x" false) stateless
  = (Ok tt, Fedora.container "x" false, stateless).
Proof.
  apply (add_and_remove_triple_undo_each_other Fedora.compute_qname
           Fedora.dc_title (PyStrObj "t")
           (Fedora.container "x" false) stateless _ eq_refl).
  apply not_elem_of_empty.
Defined.


(** X11, witness: the retrieved container [x] gets a blank node as a
    second title, which the patch names by its canonical label. *)
Lemma one_edit_gives_a_one_triple_patch_witness :
  ∃ d,
    rdf ((add_triple Fedora.compute_qname Fedora.dc_title
                     (PyTermObj (BNode "b0")) false;;
          _diff_graph Fedora.bnode_labels) titled_container stateless).1.2
      ≫= diffs = Some d ∧
    removed d = ∅ ∧
    added d = {[ (URIRef "http://localhost:8080/rest/x", Fedora.dc_title,
                  BNode "cbb0") ]} ∧
    overlap d = {[ Fedora.titled ]}.
Proof.
  assert (Hground : ground (graph {| data := None; prefixes := ∅;
                                     graph := {[ Fedora.titled ]};
                                     _orig_graph := {[ Fedora.titled ]};
                                     diffs := None |})).
  { intros t Ht. cbn [graph] in Ht. apply elem_of_singleton in Ht. by subst. }
  destruct (one_edit_gives_a_one_triple_patch Fedora.compute_qname
              Fedora.bnode_labels Fedora.dc_title (PyTermObj (BNode "b0"))
              titled_container stateless _ eq_refl eq_refl Hground)
    as [Hadd _].
  destruct Hadd as (d & Hd & Hremoved & Hadded & Hoverlap & _).
  { cbn [graph]. intros Hin. apply elem_of_singleton in Hin.
    discriminate Hin. }
  exists d. split; [exact Hd|]. split; [exact Hremoved|].
  split; [exact Hadded|exact Hoverlap].
Defined.

(** X13, witness: a repository that answers 409 to everything. *)
Lemma create_refused_raises_after_one_request_witness :
  (create (Fedora.always 409) Fedora.rdf_parse Fedora.rdf_serialize
          Fedora.namespaces_after_bind Fedora.compute_qname
          1 true false None false true
          (Fedora.container "x" false) stateless).1.1
  = Raise (Exception "HTTP 409, resource already exists").
Proof.
  destruct (create_refused_raises_after_one_request (Fedora.always 409)
              Fedora.rdf_parse Fedora.rdf_serialize
              Fedora.namespaces_after_bind Fedora.compute_qname
              0 true false None false true
              (Fedora.container "x" false) stateless _ ""
              eq_refl ltac:(discriminate) eq_refl
              ltac:(vm_compute; reflexivity)
              ltac:(discriminate) ltac:(discriminate))
    as (msg & Hrun & _ & H409 & _).
  rewrite Hrun, (H409 eq_refl). reflexivity.
Defined.

(** X14, witness: a repository that answers 201 with an empty body. *)
Lemma create_without_refresh_adopts_the_body_as_uri_witness :
  let run := create (Fedora.always 201) Fedora.rdf_parse Fedora.rdf_serialize
                    Fedora.namespaces_after_bind Fedora.compute_qname
                    1 false false None false false
                    (Fedora.container "x" false) stateless in
  exists_ run.1.2 = false ∧ uri run.1.2 = root Fedora.repository.
Proof.
  destruct (create_without_refresh_adopts_the_body_as_uri (Fedora.always 201)
              Fedora.rdf_parse Fedora.rdf_serialize
              Fedora.namespaces_after_bind Fedora.compute_qname
              0 false false None false
              (Fedora.container "x" false) stateless _ ""
              eq_refl ltac:(discriminate) eq_refl
              ltac:(vm_compute; reflexivity) eq_refl)
    as (_ & Hexists & Huri).
  split; [exact Hexists|exact (Huri eq_refl)].
Defined.

(** X18, witness: a file with a mimetype and bytes. *)
Lemma prep_binary_data_postconditions_witness :
  is_Some (headers (_prep_binary_data text_file stateless).1.2
             !! "Content-Type").
Proof.
  destruct (prep_binary_data_postconditions text_file stateless _ eq_refl)
    as (_ & Hreturns & Hafter).
  apply Hafter, Hreturns. split; left; reflexivity.
Defined.


(** X23, witness: the container [x] with a title that was never sent is
    refreshed from a repository that holds the one sent title. *)
Lemma refresh_discards_local_edits_witness :
  let run := refresh titled_server titled_parse Fedora.namespaces_after_bind
                     Fedora.compute_qname edited_container stateless in
  is_ok run.1.1 = true ∧
  ∃ rd',
    rdf run.1.2 = Some rd' ∧ data rd' = Some titled_nt ∧
    graph rd' = {[ Fedora.titled ]} ∧ _orig_graph rd' = {[ Fedora.titled ]} ∧
    versions run.1.2 = [].
Proof.
  intros run.
  assert (Hok : is_ok run.1.1 = true) by (vm_compute; reflexivity).
  assert (Hdata : data <$> rdf run.1.2 = Some (Some titled_nt))
    by reflexivity.
  assert (Hg : graph <$> rdf run.1.2 = Some {[ Fedora.titled ]})
    by reflexivity.
  subst run.
  destruct (refresh_discards_local_edits titled_server titled_parse
              Fedora.namespaces_after_bind Fedora.compute_qname
              edited_container stateless Hok)
    as (updated & urd & rd' & _ & _ & _ & _ & _ & _ & _ & Hversions & _ & _
        & _ & Hrd' & _ & Hparsed & _).
  destruct Hparsed as (g & _ & Hgraph & Horig); [discriminate|].
  rewrite Hrd' in Hdata, Hg. injection Hdata as Hdata. injection Hg as Hg.
  split; [exact Hok|].
  exists rd'. split; [exact Hrd'|]. split; [exact Hdata|].
  split; [exact Hg|]. split; [|exact Hversions].
  rewrite Horig, <- Hgraph. exact Hg.
Defined.


(** X25, witness: a repository that answers 410 to everything. *)
Lemma create_gives_up_when_the_tombstone_stays_witness :
  (create (Fedora.always 410) Fedora.rdf_parse Fedora.rdf_serialize
          Fedora.namespaces_after_bind Fedora.compute_qname
          1 true true None false true
          (Fedora.container "x" false) stateless).1.1
  = Raise (Exception
      "HTTP 410, Could not remove tombstone for http://localhost:8080/rest/x").
Proof.
  rewrite (create_gives_up_when_the_tombstone_stays (Fedora.always 410)
             Fedora.rdf_parse Fedora.rdf_serialize
             Fedora.namespaces_after_bind Fedora.compute_qname
             0 true None false true
             (Fedora.container "x" false) stateless _ ""
             eq_refl ltac:(discriminate) eq_refl
             ltac:(vm_compute; reflexivity)
             eq_refl ltac:(discriminate)).
  reflexivity.
Defined.

(** X26, witness: the content of the text file, fetched. *)
Lemma parse_binary_fetches_without_negotiation_witness :
  let rq := {| verb := GET; req_uri := uri text_file; req_data := None;
               req_headers := Some {["Content-Type" := "text/plain"]};
               req_stream := true |} in
  (parse_binary (Fedora.always 200) text_file stateless).1.1 = Ok tt ∧
  log (parse_binary (Fedora.always 200) text_file stateless).2 = [rq].
Proof.
  intros rq.
  destruct (parse_binary_fetches_without_negotiation (Fedora.always 200)
              text_file stateless _ _ ebucore eq_refl eq_refl eq_refl)
    as (_ & Hfetched).
  destruct (Hfetched (Literal "text/plain" None)
                     ltac:(vm_compute; reflexivity)) as (Hrun & _).
  rewrite Hrun. split; reflexivity.
Defined.

(** X27, witness: a new direct container under a repository that knows
    the two prefixes. *)
Lemma container_types_are_written_on_construction_witness :
  let self := blank_resource DirectContainer Fedora.repository in
  let parent := Resource_init Fedora.rdf_parse Fedora.namespaces_after_bind
                  Fedora.compute_qname (StrUri "dc") None ∅ None
                  self stateless in
  is_ok parent.1.1 = true ∧
  ∃ rd,
    rdf (DirectContainer_init Fedora.rdf_parse Fedora.namespaces_after_bind
           Fedora.compute_qname no_literal_asked (StrUri "dc") None ∅ None
           (Some (PyTermObj (URIRef "http://localhost:8080/rest/m"))) None
           self stateless).1.2 = Some rd ∧
    (URIRef (uri parent.1.2),
     URIRef ("http://www.w3.org/1999/02/22-rdf-syntax-ns#" ++ "type"),
     URIRef ("http://www.w3.org/ns/ldp#" ++ "DirectContainer")) ∈ graph rd.
Proof.
  intros self parent.
  assert (Hok : is_ok parent.1.1 = true) by (vm_compute; reflexivity).
  split; [exact Hok|].
  destruct (container_types_are_written_on_construction Fedora.rdf_parse
              Fedora.namespaces_after_bind Fedora.compute_qname
              no_literal_asked (StrUri "dc") None ∅ None
              (Some (PyTermObj (URIRef "http://localhost:8080/rest/m")))
              None None self stateless
              "http://www.w3.org/1999/02/22-rdf-syntax-ns#"
              "http://www.w3.org/ns/ldp#" Hok
              ltac:(vm_compute; reflexivity) ltac:(vm_compute; reflexivity))
    as [(rd & Hrd & Htype & _) _].
  exists rd. split; [exact Hrd|exact Htype].
Defined.

(** X30, witness: the text file, created by [PUT]. *)
Lemma create_binary_sends_the_data_witness :
  let run := create (Fedora.always 201) Fedora.rdf_parse Fedora.rdf_serialize
                    Fedora.namespaces_after_bind Fedora.compute_qname
                    1 true false None false false text_file stateless in
  run.1.1 = Ok true ∧
  log run.2 = [ {| verb := PUT; req_uri := uri text_file;
                   req_data := Some (Bytes "hello");
                   req_headers := Some {["Content-Type" := "text/plain"]};
                   req_stream := false |} ].
Proof.
  intros run. subst run.
  rewrite (create_binary_sends_the_data (Fedora.always 201) Fedora.rdf_parse
             Fedora.rdf_serialize Fedora.namespaces_after_bind
             Fedora.compute_qname 0 true false None false
             text_file stateless _ eq_refl eq_refl eq_refl
             ltac:(vm_compute; reflexivity) eq_refl).
  split; [reflexivity|]. vm_compute. reflexivity.
Defined.
